(** * Air Canvas: the stroke store and the gesture interpreter

    A shallow embedding of [src/drawingCanvas.ts] (with the two other
    revisions of that file), of the [AirCanvas] class of [main.ts] (both
    revisions, the second with its mouse and touch handlers) and of
    [src/handTracking.ts], and the properties the specification states
    about them.  What the store draws is kept as the list of calls it
    makes on the 2D context.

    JavaScript numbers are kept behind the interface [Number], which has
    two instances: IEEE 754 binary64 ([float], what the program runs on,
    and what every concrete run below is evaluated with) and the real
    numbers ([R], exact arithmetic).  Properties are proved for every
    instance, or for every instance with the order laws that both
    satisfy; only the range of the tracker's output is stated over the
    reals. *)

From Stdlib Require Import List Bool Arith ZArith Lia String.
From Stdlib Require Import Floats Reals Lra.
Import ListNotations.

Set Implicit Arguments.

(** ** JavaScript numbers *)

Declare Scope num_scope.
Delimit Scope num_scope with num.

Class Number (num : Type) : Type := {
  lit : Z -> num;               (* an integer literal *)
  add : num -> num -> num;
  sub : num -> num -> num;
  mul : num -> num -> num;
  div : num -> num -> num;
  sqrt : num -> num;            (* Math.sqrt *)
  min : num -> num -> num;      (* Math.min *)
  ltb : num -> num -> bool;     (* a < b *)
  leb : num -> num -> bool;     (* a <= b *)
  eqb : num -> num -> bool      (* a === b *)
}.

Infix "+" := add : num_scope.
Infix "-" := sub : num_scope.
Infix "*" := mul : num_scope.
Infix "/" := div : num_scope.
Infix "<?" := ltb (at level 70) : num_scope.
Infix "<=?" := leb (at level 70) : num_scope.
Infix "=?" := eqb (at level 70) : num_scope.
Notation "a >? b" := (ltb b a) (at level 70) : num_scope.
Notation "a >=? b" := (leb b a) (at level 70) : num_scope.

(** The order facts the interpreter's guards rely on.  Both hold for
    IEEE doubles (NaN included) and for the reals. *)
Class NumberOrder (num : Type) {N : Number num} : Prop := {
  eqb_zero : eqb (lit 0) (lit 0) = true;
  leb_not_ltb : forall a b : num, leb a b = true -> ltb b a = false;
  sub_diag_below : forall h t : num, ltb (lit 0) h = true -> leb h (sub t t) = false
}.
Arguments NumberOrder num {N}.

(** *** IEEE 754 binary64 *)

Definition float_lit (z : Z) : float :=
  match z with
  | Zneg p => PrimFloat.opp (PrimFloat.of_uint63 (Uint63.of_Z (Zpos p)))
  | _ => PrimFloat.of_uint63 (Uint63.of_Z z)
  end.

(** [Math.min]: NaN if either argument is NaN, and [-0] below [+0]. *)
Definition float_min (a b : float) : float :=
  if (PrimFloat.is_nan a || PrimFloat.is_nan b)%bool then PrimFloat.nan
  else if PrimFloat.ltb a b then a
  else if PrimFloat.ltb b a then b
  else match PrimFloat.classify b with
       | NZero => b
       | _ => a
       end.

#[export] Instance float_Number : Number float := {
  lit := float_lit;
  add := PrimFloat.add;
  sub := PrimFloat.sub;
  mul := PrimFloat.mul;
  div := PrimFloat.div;
  sqrt := PrimFloat.sqrt;
  min := float_min;
  ltb := PrimFloat.ltb;
  leb := PrimFloat.leb;
  eqb := PrimFloat.eqb
}.

(** *** Exact arithmetic *)

Definition Rltb (a b : R) : bool := if Rlt_dec a b then true else false.
Definition Rleb (a b : R) : bool := if Rle_dec a b then true else false.
Definition Reqb (a b : R) : bool := if Req_dec_T a b then true else false.

#[export] Instance R_Number : Number R := {
  lit := IZR;
  add := Rplus;
  sub := Rminus;
  mul := Rmult;
  div := Rdiv;
  sqrt := R_sqrt.sqrt;
  min := Rmin;
  ltb := Rltb;
  leb := Rleb;
  eqb := Reqb
}.

(** ** types.ts *)

Section Types.
Context {num : Type}.

Record Point2D : Type := { x : num; y : num }.

Record Point3D : Type := { x3 : num; y3 : num; z3 : num }.

Record Stroke : Type := {
  points : list Point2D;
  color : string;
  width : num;
  closed : bool
}.

(** A stroke object of the completed list.  [removeCompletedStroke] finds
    its argument with [indexOf], that is by reference: [ref] is the
    object's address, [val] its contents. *)
Record StrokeObj : Type := { ref : nat; val : Stroke }.

Record HandLandmarks : Type := {
  landmarks : list Point2D;
  worldLandmarks : option (list Point3D)
}.

Inductive GestureKind : Type := none | draw | pinch | palm | fist | swipe.

Record GestureState : Type := {
  current : GestureKind;
  previous : GestureKind;
  duration : num;
  velocity : Point2D;
  confidence : num
}.

End Types.

Arguments Point2D : clear implicits.
Arguments Point3D : clear implicits.
Arguments Stroke : clear implicits.
Arguments StrokeObj : clear implicits.
Arguments HandLandmarks : clear implicits.
Arguments GestureState : clear implicits.

Definition GestureKind_eqb (a b : GestureKind) : bool :=
  match a, b with
  | none, none | draw, draw | pinch, pinch
  | palm, palm | fist, fist | swipe, swipe => true
  | _, _ => false
  end.

(** ** constants.ts

    The file is not among the sources: its values are parameters of the
    model, grouped as the code names them ([STROKE.WIDTH], ...). *)

Section Constants.
Context {num : Type}.

Record StrokeConstants : Type := {
  WIDTH : num;
  MIN_POINT_DISTANCE : num;
  SMOOTHING : num
}.

Record GestureConstants : Type := {
  MIN_STROKE_LENGTH : num;
  PALM_HOLD_TIME : num;
  FIST_HOLD_TIME : num
}.

Record TimingConstants : Type := { STROKE_CLOSE_PULSE : num }.

Record Constants : Type := {
  STROKE : StrokeConstants;
  GESTURE : GestureConstants;
  TIMING : TimingConstants;
  COLOR_ARRAY : list string
}.

End Constants.

Arguments StrokeConstants : clear implicits.
Arguments GestureConstants : clear implicits.
Arguments TimingConstants : clear implicits.
Arguments Constants : clear implicits.

(** ** drawingCanvas.ts: the stroke store

    The 2D context is a render surface: [clear], [render] and
    [renderClosingAnimation] draw on it and leave the fields below as they
    are, so they are the identity on this state. *)

Module DrawingCanvas.
Section Store.
Context {num : Type} {N : Number num}.
Variable cfg : Constants num.

Local Open Scope num_scope.

Record t : Type := {
  currentStroke : option (Stroke num);
  completedStrokes : list (StrokeObj num);
  nextRef : nat          (* the address the next stroke object gets *)
}.

Definition empty : t :=
  {| currentStroke := None; completedStrokes := []; nextRef := 0 |}.

Definition startStroke (point : Point2D num) (color : string) (dc : t) : t :=
  {| currentStroke :=
       Some {| points := [point]; color := color;
               width := cfg.(STROKE).(WIDTH); closed := false |};
     completedStrokes := dc.(completedStrokes);
     nextRef := dc.(nextRef) |}.

Definition distance (p1 p2 : Point2D num) : num :=
  let dx := p1.(x) - p2.(x) in
  let dy := p1.(y) - p2.(y) in
  sqrt (dx * dx + dy * dy).

(** [points[points.length - 1]] of a stroke in progress.  A stroke starts
    with one point and only grows ([spacedStore] below), so the index is
    in range.  On an empty array JavaScript would read [undefined] and
    [distance] would throw; [addPoint] leaves the store as it is there. *)
Definition lastPoint (s : Stroke num) : option (Point2D num) :=
  List.last (List.map Some s.(points)) None.

Definition pushPoint (s : Stroke num) (p : Point2D num) : Stroke num :=
  {| points := s.(points) ++ [p]; color := s.(color);
     width := s.(width); closed := s.(closed) |}.

Definition addPoint (point : Point2D num) (dc : t) : t :=
  match dc.(currentStroke) with
  | None => dc
  | Some s =>
      match lastPoint s with
      | None => dc
      | Some last =>
          let dist := distance point last in
          if dist >=? cfg.(STROKE).(MIN_POINT_DISTANCE) then
            {| currentStroke := Some (pushPoint s point);
               completedStrokes := dc.(completedStrokes);
               nextRef := dc.(nextRef) |}
          else dc
      end
  end.

Definition pauseStroke (dc : t) : t := dc.

Definition discardStroke (dc : t) : t :=
  {| currentStroke := None;
     completedStrokes := dc.(completedStrokes);
     nextRef := dc.(nextRef) |}.

(** The loop of [calculateStrokeLength]: [length] accumulates
    [distance(points[i-1], points[i])] for [i] from 1. *)
Fixpoint sumSegments (length : num) (prev : Point2D num)
    (rest : list (Point2D num)) : num :=
  match rest with
  | [] => length
  | p :: rest' => sumSegments (length + distance prev p) p rest'
  end.

Definition calculateStrokeLength (dc : t) : num :=
  match dc.(currentStroke) with
  | None => lit 0
  | Some s =>
      match s.(points) with
      | p0 :: (_ :: _) as rest => sumSegments (lit 0) p0 rest
      | _ => lit 0
      end
  end.

Definition closeStroke (dc : t) : option (StrokeObj num) * t :=
  match dc.(currentStroke) with
  | None => (None, dc)
  | Some s =>
      let length := calculateStrokeLength dc in
      if length <? cfg.(GESTURE).(MIN_STROKE_LENGTH) then
        (None, discardStroke dc)
      else if Nat.ltb 2 (List.length s.(points)) then
        let closedStroke :=
          {| ref := dc.(nextRef);
             val := {| points := s.(points); color := s.(color);
                       width := s.(width); closed := true |} |} in
        (Some closedStroke,
         {| currentStroke := None;
            completedStrokes := dc.(completedStrokes) ++ [closedStroke];
            nextRef := S dc.(nextRef) |})
      else (None, discardStroke dc)
  end.

Definition getCurrentStroke (dc : t) : option (Stroke num) :=
  dc.(currentStroke).

Definition clear (dc : t) : t := dc.

Definition clearAll (dc : t) : t :=
  clear {| currentStroke := None; completedStrokes := [];
           nextRef := dc.(nextRef) |}.

Definition render (dc : t) : t := clear dc.

Definition renderClosingAnimation (stroke : StrokeObj num) (progress : num)
    (dc : t) : t :=
  if Nat.ltb (List.length stroke.(val).(points)) 2 then dc else clear dc.

(** [completedStrokes.indexOf(stroke)] then [splice(index, 1)]: the first
    entry that is the same object goes, the others stay in order. *)
Fixpoint spliceFirst (r : nat) (l : list (StrokeObj num)) : list (StrokeObj num) :=
  match l with
  | [] => []
  | s :: l' => if Nat.eqb s.(ref) r then l' else s :: spliceFirst r l'
  end.

Definition removeCompletedStroke (stroke : StrokeObj num) (dc : t) : t :=
  {| currentStroke := dc.(currentStroke);
     completedStrokes := spliceFirst stroke.(ref) dc.(completedStrokes);
     nextRef := dc.(nextRef) |}.

(** *** What the specification calls the path length: the distances of
    consecutive points, summed from the first segment on. *)
Fixpoint segmentLengths (pts : list (Point2D num)) : list num :=
  match pts with
  | p :: (q :: _) as rest => distance p q :: segmentLengths rest
  | _ => []
  end.

Definition pathLength (pts : list (Point2D num)) : num :=
  List.fold_left add (segmentLengths pts) (lit 0).

(** Consecutive points of a stroke are at least the minimum spacing
    apart, measured as [addPoint] measures it (new point first). *)
Fixpoint spaced (pts : list (Point2D num)) : Prop :=
  match pts with
  | p :: (q :: _) as rest =>
      (distance q p >=? cfg.(STROKE).(MIN_POINT_DISTANCE)) = true /\ spaced rest
  | _ => True
  end.

(** The store's heap discipline: completed strokes are distinct objects,
    allocated below [nextRef]. *)
Definition wf (dc : t) : Prop :=
  NoDup (List.map (@ref num) dc.(completedStrokes)) /\
  Forall (fun s => s.(ref) < dc.(nextRef)) dc.(completedStrokes).

(** The operations a client can call on the store. *)
Inductive Op : Type :=
| OpStartStroke (point : Point2D num) (color : string)
| OpAddPoint (point : Point2D num)
| OpPauseStroke
| OpCloseStroke
| OpDiscardStroke
| OpRemoveCompletedStroke (stroke : StrokeObj num)
| OpClearAll
| OpRender.

Definition applyOp (o : Op) (dc : t) : t :=
  match o with
  | OpStartStroke p c => startStroke p c dc
  | OpAddPoint p => addPoint p dc
  | OpPauseStroke => pauseStroke dc
  | OpCloseStroke => snd (closeStroke dc)
  | OpDiscardStroke => discardStroke dc
  | OpRemoveCompletedStroke s => removeCompletedStroke s dc
  | OpClearAll => clearAll dc
  | OpRender => render dc
  end.

Definition runOps (ops : list Op) (dc : t) : t :=
  List.fold_left (fun d o => applyOp o d) ops dc.

(** An operation that takes [stroke] out of the completed list when it is
    there. *)
Definition removes (stroke : StrokeObj num) (o : Op) : bool :=
  match o with
  | OpRemoveCompletedStroke s => Nat.eqb s.(ref) stroke.(ref)
  | OpClearAll => true
  | _ => false
  end.

Definition isRemoveOf (stroke : StrokeObj num) (o : Op) : bool :=
  match o with
  | OpRemoveCompletedStroke s => Nat.eqb s.(ref) stroke.(ref)
  | _ => false
  end.

(** Every stroke of the store is spaced and the stroke in progress has a
    point. *)
Definition spacedStore (dc : t) : Prop :=
  (forall s, dc.(currentStroke) = Some s ->
             spaced s.(points) /\ s.(points) <> []) /\
  (forall stroke, In stroke dc.(completedStrokes) ->
                  spaced stroke.(val).(points)).

(** The wording of the specification for the lifetime of a completed
    stroke: it is in the completed list as long as
    [removeCompletedStroke] has not been called with it. *)
Definition memberUntilRemoveCompletedStroke (dc : t) (stroke : StrokeObj num) : Prop :=
  forall ops : list Op,
    List.forallb (fun o => negb (isRemoveOf stroke o)) ops = true ->
    In stroke (runOps ops dc).(completedStrokes).

End Store.
End DrawingCanvas.

(** *** The revision that smooths each point against the last stored one

    The state and every other operation are those of [DrawingCanvas]
    above; only [addPoint] differs, and [smooth] is new. *)

Module DrawingCanvasSmoothing.
Section Store.
Context {num : Type} {N : Number num}.
Variable cfg : Constants num.

Local Open Scope num_scope.

Definition smooth (current previous : Point2D num) : Point2D num :=
  {| x := previous.(x) + (current.(x) - previous.(x)) * (lit 1 - cfg.(STROKE).(SMOOTHING));
     y := previous.(y) + (current.(y) - previous.(y)) * (lit 1 - cfg.(STROKE).(SMOOTHING)) |}.

Definition addPoint (point : Point2D num) (dc : DrawingCanvas.t) : DrawingCanvas.t :=
  match dc.(DrawingCanvas.currentStroke) with
  | None => dc
  | Some s =>
      match DrawingCanvas.lastPoint s with
      | None => dc
      | Some last =>
          let dist := DrawingCanvas.distance point last in
          if dist >=? cfg.(STROKE).(MIN_POINT_DISTANCE) then
            let smoothedPoint := smooth point last in
            {| DrawingCanvas.currentStroke :=
                 Some (DrawingCanvas.pushPoint s smoothedPoint);
               DrawingCanvas.completedStrokes := dc.(DrawingCanvas.completedStrokes);
               DrawingCanvas.nextRef := dc.(DrawingCanvas.nextRef) |}
          else dc
      end
  end.

End Store.
End DrawingCanvasSmoothing.

(** *** The revision with a live fingertip position

    Two fields are added to the store; [addPoint] smooths the raw point
    against the previous smoothed position and tests and stores the
    smoothed one.  The other operations act on [store] as in
    [DrawingCanvas]. *)

Module DrawingCanvasLive.
Section Store.
Context {num : Type} {N : Number num}.
Variable cfg : Constants num.

Local Open Scope num_scope.

Definition SMOOTHING_FACTOR : num := lit 15 / lit 100.

Record t : Type := {
  store : DrawingCanvas.t (num := num);
  livePosition : option (Point2D num);
  smoothedPosition : option (Point2D num)
}.

Definition smoothPoint (point : Point2D num) (dc : t) : Point2D num :=
  match dc.(smoothedPosition) with
  | None => point
  | Some sp =>
      {| x := sp.(x) + (point.(x) - sp.(x)) * (lit 1 - SMOOTHING_FACTOR);
         y := sp.(y) + (point.(y) - sp.(y)) * (lit 1 - SMOOTHING_FACTOR) |}
  end.

Definition addPoint (point : Point2D num) (dc : t) : t :=
  match dc.(store).(DrawingCanvas.currentStroke) with
  | None => dc
  | Some s =>
      let smoothedPoint := smoothPoint point dc in
      match DrawingCanvas.lastPoint s with
      | None => dc
      | Some last =>
          let dist := DrawingCanvas.distance smoothedPoint last in
          {| store :=
               if dist >=? cfg.(STROKE).(MIN_POINT_DISTANCE) then
                 {| DrawingCanvas.currentStroke :=
                      Some (DrawingCanvas.pushPoint s smoothedPoint);
                    DrawingCanvas.completedStrokes :=
                      dc.(store).(DrawingCanvas.completedStrokes);
                    DrawingCanvas.nextRef := dc.(store).(DrawingCanvas.nextRef) |}
               else dc.(store);
             livePosition := Some point;
             smoothedPosition := Some smoothedPoint |}
      end
  end.

Definition updateLivePosition (point : Point2D num) (dc : t) : t :=
  {| store := dc.(store);
     livePosition := Some point;
     smoothedPosition := Some (smoothPoint point dc) |}.

Definition clearLivePosition (dc : t) : t :=
  {| store := dc.(store); livePosition := None; smoothedPosition := None |}.

Definition startStroke (point : Point2D num) (color : string) (dc : t) : t :=
  {| store := DrawingCanvas.startStroke cfg point color dc.(store);
     livePosition := dc.(livePosition);
     smoothedPosition := dc.(smoothedPosition) |}.

End Store.
End DrawingCanvasLive.

(** ** The collaborators of the interpreter

    [objectManager.ts] and [gestureDetector.ts] are not among the sources;
    the interpreter only calls them, so they are interfaces here. *)

Module ObjectManager.
Class ObjectManager (num OM Obj : Type) : Type := {
  getObjectAtPosition : OM -> num -> num -> option Obj;
  pokeObject : OM -> Obj -> OM;
  grabObject : OM -> Obj -> OM;
  releaseObject : OM -> Obj -> OM;
  moveGrabbedObject : OM -> Obj -> num -> num -> OM;
  rotateObject : OM -> Obj -> num -> num -> OM;
  removeObject : OM -> Obj -> OM;
  (* the promise of createFromStroke: [Some om'] when it resolves, leaving
     the manager in [om']; [None] when it throws or rejects *)
  createFromStroke : OM -> StrokeObj num -> option OM;
  clearAll : OM -> OM;
  update : OM -> num -> num -> OM;
  getObjectCount : OM -> nat
}.
End ObjectManager.

Module GestureDetector.
Class GestureDetector (num GD : Type) : Type := {
  detect : GD -> HandLandmarks num -> GestureState num * GD;
  getIndexTip : GD -> HandLandmarks num -> Point2D num;
  getPinchCenter : GD -> HandLandmarks num -> Point2D num
}.
End GestureDetector.

(** ** main.ts: the gesture interpreter (the revision with the cyclic
    palette)

    The class is event driven.  One [Event] is one callback the browser
    runs to completion: a tracker result, an animation frame, the
    settling of a promise, a status timeout.  [performance.now()] is the
    event's [now]: a callback is taken to run at one instant.  What an
    [await] or a [requestAnimationFrame] leaves for later is kept in the
    state ([closing], [creating], [clearing], [hideTimers]).  Two
    histories are kept beside the fields of the class: [calls], and
    [fed], the arguments of each call of [renderClosingAnimation]. *)

Module AirCanvas.

Inductive Message {num : Type} : Type :=
| MsgNone
| MsgShowHand           (* 'Show your hand to begin' *)
| MsgDrawLarger         (* 'Draw a larger shape' *)
| MsgFailed             (* 'Failed to create shape' *)
| MsgClearingAll        (* 'Clearing all...' *)
| MsgClearing (percent : num).  (* `Clearing... ${Math.round(percent)}%` *)
Arguments Message : clear implicits.

(** The calls the temporal properties speak of, newest first in [calls]. *)
Inductive Call {num : Type} : Type :=
| CallCloseAndInflate
| CallClearAll
| CallCreateBalloon (stroke : StrokeObj num).
Arguments Call : clear implicits.

Section Interpreter.
Context {num OM Obj GD : Type} {N : Number num}.
Context {OMI : ObjectManager.ObjectManager num OM Obj}.
Context {GDI : GestureDetector.GestureDetector num GD}.
Variable cfg : Constants num.

Local Open Scope num_scope.

Record t : Type := mk {
  (* core components *)
  gestureDetector : GD;
  drawingCanvas : DrawingCanvas.t (num := num);
  objectManager : OM;
  (* DOM elements *)
  statusText : Message num;
  statusVisible : bool;
  colorIndicator : option string;
  objectCounter : option nat;
  (* state *)
  isDrawing : bool;
  currentColorIndex : nat;
  lastGestureState : option (GestureState num);
  currentLandmarks : option (HandLandmarks num);
  palmHoldStart : num;
  fistHoldStart : num;
  handDetected : bool;
  lastFrameTime : num;
  grabbedObject : option Obj;
  (* work left for later callbacks *)
  closing : list (StrokeObj num * num);   (* stroke, startTime *)
  creating : list (StrokeObj num * bool); (* stroke, whether it resolves *)
  clearing : nat;
  hideTimers : nat;
  (* history *)
  calls : list (Call num);
  (* the stroke and the progress of each call of renderClosingAnimation,
     newest first *)
  fed : list (StrokeObj num * num)
}.

Definition set_gestureDetector (v : GD) (st : t) : t :=
  let '(mk _ b c d e f g h i j k l m n o p q r s u w z) := st in
  mk v b c d e f g h i j k l m n o p q r s u w z.
Definition set_drawingCanvas (v : DrawingCanvas.t) (st : t) : t :=
  let '(mk a _ c d e f g h i j k l m n o p q r s u w z) := st in
  mk a v c d e f g h i j k l m n o p q r s u w z.
Definition set_objectManager (v : OM) (st : t) : t :=
  let '(mk a b _ d e f g h i j k l m n o p q r s u w z) := st in
  mk a b v d e f g h i j k l m n o p q r s u w z.
Definition set_status (text : Message num) (vis : bool) (st : t) : t :=
  let '(mk a b c _ _ f g h i j k l m n o p q r s u w z) := st in
  mk a b c text vis f g h i j k l m n o p q r s u w z.
Definition set_colorIndicator (v : option string) (st : t) : t :=
  let '(mk a b c d e _ g h i j k l m n o p q r s u w z) := st in
  mk a b c d e v g h i j k l m n o p q r s u w z.
Definition set_objectCounter (v : option nat) (st : t) : t :=
  let '(mk a b c d e f _ h i j k l m n o p q r s u w z) := st in
  mk a b c d e f v h i j k l m n o p q r s u w z.
Definition set_isDrawing (v : bool) (st : t) : t :=
  let '(mk a b c d e f g _ i j k l m n o p q r s u w z) := st in
  mk a b c d e f g v i j k l m n o p q r s u w z.
Definition set_currentColorIndex (v : nat) (st : t) : t :=
  let '(mk a b c d e f g h _ j k l m n o p q r s u w z) := st in
  mk a b c d e f g h v j k l m n o p q r s u w z.
Definition set_lastGestureState (v : option (GestureState num)) (st : t) : t :=
  let '(mk a b c d e f g h i _ k l m n o p q r s u w z) := st in
  mk a b c d e f g h i v k l m n o p q r s u w z.
Definition set_currentLandmarks (v : option (HandLandmarks num)) (st : t) : t :=
  let '(mk a b c d e f g h i j _ l m n o p q r s u w z) := st in
  mk a b c d e f g h i j v l m n o p q r s u w z.
Definition set_palmHoldStart (v : num) (st : t) : t :=
  let '(mk a b c d e f g h i j k _ m n o p q r s u w z) := st in
  mk a b c d e f g h i j k v m n o p q r s u w z.
Definition set_fistHoldStart (v : num) (st : t) : t :=
  let '(mk a b c d e f g h i j k l _ n o p q r s u w z) := st in
  mk a b c d e f g h i j k l v n o p q r s u w z.
Definition set_handDetected (v : bool) (st : t) : t :=
  let '(mk a b c d e f g h i j k l m _ o p q r s u w z) := st in
  mk a b c d e f g h i j k l m v o p q r s u w z.
Definition set_lastFrameTime (v : num) (st : t) : t :=
  let '(mk a b c d e f g h i j k l m n _ p q r s u w z) := st in
  mk a b c d e f g h i j k l m n v p q r s u w z.
Definition set_grabbedObject (v : option Obj) (st : t) : t :=
  let '(mk a b c d e f g h i j k l m n o _ q r s u w z) := st in
  mk a b c d e f g h i j k l m n o v q r s u w z.
Definition set_closing (v : list (StrokeObj num * num)) (st : t) : t :=
  let '(mk a b c d e f g h i j k l m n o p _ r s u w z) := st in
  mk a b c d e f g h i j k l m n o p v r s u w z.
Definition set_creating (v : list (StrokeObj num * bool)) (st : t) : t :=
  let '(mk a b c d e f g h i j k l m n o p q _ s u w z) := st in
  mk a b c d e f g h i j k l m n o p q v s u w z.
Definition set_clearing (v : nat) (st : t) : t :=
  let '(mk a b c d e f g h i j k l m n o p q r _ u w z) := st in
  mk a b c d e f g h i j k l m n o p q r v u w z.
Definition set_hideTimers (v : nat) (st : t) : t :=
  let '(mk a b c d e f g h i j k l m n o p q r s _ w z) := st in
  mk a b c d e f g h i j k l m n o p q r s v w z.
Definition feed (stroke : StrokeObj num) (progress : num) (st : t) : t :=
  let '(mk a b c d e f g h i j k l m n o p q r s u w z) := st in
  mk a b c d e f g h i j k l m n o p q r s u w ((stroke, progress) :: z).
Definition record (c : Call num) (st : t) : t :=
  let '(mk a b c0 d e f g h i j k l m n o p q r s u w z) := st in
  mk a b c0 d e f g h i j k l m n o p q r s u (c :: w) z.

(** *** Status line and indicators *)

(** [showStatus(message, duration?)]: a duration arms a timeout that
    hides the status. *)
Definition showStatus (message : Message num) (timed : bool) (st : t) : t :=
  let st := set_status message true st in
  if timed then set_hideTimers (S st.(hideTimers)) st else st.

Definition hideStatus (st : t) : t :=
  set_status st.(statusText) false st.

Definition updateColorIndicator (st : t) : t :=
  set_colorIndicator (List.nth_error cfg.(COLOR_ARRAY) st.(currentColorIndex)) st.

Definition updateObjectCounter (st : t) : t :=
  set_objectCounter
    (Some (ObjectManager.getObjectCount st.(objectManager))) st.

(** The state the constructor leaves once the tracker has started. *)
Definition create (gd : GD) (om : OM) : t :=
  updateColorIndicator
    {| gestureDetector := gd;
       drawingCanvas := DrawingCanvas.empty;
       objectManager := om;
       statusText := MsgNone;
       statusVisible := false;
       colorIndicator := None;
       objectCounter := None;
       isDrawing := false;
       currentColorIndex := 0;
       lastGestureState := None;
       currentLandmarks := None;
       palmHoldStart := lit 0;
       fistHoldStart := lit 0;
       handDetected := false;
       lastFrameTime := lit 0;
       grabbedObject := None;
       closing := [];
       creating := [];
       clearing := 0;
       hideTimers := 0;
       calls := [];
       fed := [] |}.

(** *** Gesture handlers *)

Definition releaseGrabbed (st : t) : t :=
  match st.(grabbedObject) with
  | Some o =>
      set_grabbedObject None
        (set_objectManager (ObjectManager.releaseObject st.(objectManager) o) st)
  | None => st
  end.

Definition handleDraw (position : Point2D num) (st : t) : t :=
  match ObjectManager.getObjectAtPosition st.(objectManager)
          position.(x) position.(y) with
  | Some hitObject =>
      set_objectManager (ObjectManager.pokeObject st.(objectManager) hitObject) st
  | None =>
      if negb st.(isDrawing) then
        let st := set_isDrawing true st in
        (* COLOR_ARRAY[currentColorIndex]; the index stays below the
           length, see [createBalloonSettled] *)
        let color := List.nth st.(currentColorIndex) cfg.(COLOR_ARRAY) EmptyString in
        set_drawingCanvas
          (DrawingCanvas.startStroke cfg position color st.(drawingCanvas)) st
      else
        set_drawingCanvas
          (DrawingCanvas.addPoint cfg position st.(drawingCanvas)) st
  end.

Definition handlePinch (landmarks : HandLandmarks num) (st : t) : t :=
  let pinchCenter := GestureDetector.getPinchCenter st.(gestureDetector) landmarks in
  let st :=
    if st.(isDrawing) then
      set_drawingCanvas (DrawingCanvas.pauseStroke st.(drawingCanvas))
        (set_isDrawing false st)
    else st in
  match st.(grabbedObject) with
  | None =>
      match ObjectManager.getObjectAtPosition st.(objectManager)
              pinchCenter.(x) pinchCenter.(y) with
      | Some hitObject =>
          set_objectManager (ObjectManager.grabObject st.(objectManager) hitObject)
            (set_grabbedObject (Some hitObject) st)
      | None => st
      end
  | Some o =>
      set_objectManager
        (ObjectManager.moveGrabbedObject st.(objectManager) o
           pinchCenter.(x) pinchCenter.(y)) st
  end.

(** [createBalloon] up to its [await]: the call is made and the promise
    is pending. *)
Definition createBalloon (stroke : StrokeObj num) (st : t) : t :=
  let st := record (CallCreateBalloon stroke) st in
  match ObjectManager.createFromStroke st.(objectManager) stroke with
  | Some om' =>
      set_creating (st.(creating) ++ [(stroke, true)]) (set_objectManager om' st)
  | None => set_creating (st.(creating) ++ [(stroke, false)]) st
  end.

(** [createBalloon] from its [await] on: the rest of the [try] block when
    the promise resolved, the [catch] block when it rejected. *)
Definition createBalloonSettled (stroke : StrokeObj num) (resolved : bool)
    (st : t) : t :=
  if resolved then
    let st := set_drawingCanvas
                (DrawingCanvas.clear
                   (DrawingCanvas.removeCompletedStroke stroke st.(drawingCanvas))) st in
    let st := set_currentColorIndex
                (Nat.modulo (st.(currentColorIndex) + 1)
                            (List.length cfg.(COLOR_ARRAY))) st in
    let st := updateColorIndicator st in
    updateObjectCounter st
  else showStatus MsgFailed true st.

(** The closure [animate] of [closeAndInflate], called once at the start
    and then once per animation frame until it hands the stroke over. *)
Definition closingProgress (startTime now : num) : num :=
  let elapsed := now - startTime in
  min (elapsed / (cfg.(TIMING).(STROKE_CLOSE_PULSE) * lit 1000)) (lit 1).

Definition animateClosing (stroke : StrokeObj num) (startTime now : num)
    (st : t) : t :=
  let progress := closingProgress startTime now in
  let st := set_drawingCanvas
              (DrawingCanvas.renderClosingAnimation stroke progress
                 st.(drawingCanvas)) (feed stroke progress st) in
  if progress <? lit 1 then
    set_closing (st.(closing) ++ [(stroke, startTime)]) st
  else createBalloon stroke st.

Definition closeAndInflate (now : num) (st : t) : t :=
  let st := record CallCloseAndInflate st in
  match DrawingCanvas.closeStroke cfg st.(drawingCanvas) with
  | (None, dc) => showStatus MsgDrawLarger true (set_drawingCanvas dc st)
  | (Some stroke, dc) =>
      let st := set_isDrawing false (set_drawingCanvas dc st) in
      let startTime := now in
      animateClosing stroke startTime now st
  end.

(** [clearAll] up to its [await], and from it on. *)
Definition clearAll (st : t) : t :=
  let st := record CallClearAll st in
  let st := showStatus MsgClearingAll false st in
  let st := set_drawingCanvas (DrawingCanvas.clearAll st.(drawingCanvas)) st in
  let st := set_objectManager (ObjectManager.clearAll st.(objectManager)) st in
  set_clearing (S st.(clearing)) st.

Definition clearAllSettled (st : t) : t :=
  updateObjectCounter (hideStatus st).

Definition handlePalm (_state : GestureState num) (now : num) (st : t) : t :=
  let st := releaseGrabbed st in
  let st := if st.(palmHoldStart) =? lit 0 then set_palmHoldStart now st else st in
  let holdDuration := now - st.(palmHoldStart) in
  if holdDuration >=? cfg.(GESTURE).(PALM_HOLD_TIME) then
    set_palmHoldStart (lit 0) (closeAndInflate now st)
  else st.

Definition handleFist (_state : GestureState num) (now : num) (st : t) : t :=
  let st := if st.(fistHoldStart) =? lit 0 then set_fistHoldStart now st else st in
  let holdDuration := now - st.(fistHoldStart) in
  if holdDuration >=? cfg.(GESTURE).(FIST_HOLD_TIME) then
    set_fistHoldStart (lit 0) (clearAll st)
  else if holdDuration >? lit 200 then
    let progress := holdDuration / cfg.(GESTURE).(FIST_HOLD_TIME) in
    showStatus (MsgClearing (progress * lit 100)) false st
  else st.

Definition handleSwipe (position : Point2D num) (st : t) : t :=
  match ObjectManager.getObjectAtPosition st.(objectManager)
          position.(x) position.(y) with
  | Some hitObject =>
      updateObjectCounter
        (set_objectManager
           (ObjectManager.removeObject st.(objectManager) hitObject) st)
  | None => st
  end.

Definition handleGesture (state : GestureState num)
    (landmarks : HandLandmarks num) (now : num) (st : t) : t :=
  let indexTip := GestureDetector.getIndexTip st.(gestureDetector) landmarks in
  let st :=
    match state.(current) with
    | draw => handleDraw indexTip st
    | pinch => handlePinch landmarks st
    | palm => handlePalm state now st
    | fist => handleFist state now st
    | swipe => handleSwipe indexTip st
    | none => releaseGrabbed st
    end in
  match st.(lastGestureState) with
  | Some last =>
      if negb (GestureKind_eqb state.(current) last.(current)) then
        set_fistHoldStart (lit 0) (set_palmHoldStart (lit 0) st)
      else st
  | None => st
  end.

Definition onHandResults (landmarks : option (HandLandmarks num)) (now : num)
    (st : t) : t :=
  let wasDetected := st.(handDetected) in
  let st := set_handDetected (match landmarks with Some _ => true | None => false end) st in
  let st := set_currentLandmarks landmarks st in
  let st :=
    if (negb st.(handDetected) && wasDetected)%bool then showStatus MsgShowHand false st
    else if (st.(handDetected) && negb wasDetected)%bool then hideStatus st
    else st in
  match landmarks with
  | None => if st.(isDrawing) then set_isDrawing false st else st
  | Some lm =>
      let (gestureState, gd) := GestureDetector.detect st.(gestureDetector) lm in
      let st := set_gestureDetector gd st in
      let st := handleGesture gestureState lm now st in
      set_lastGestureState (Some gestureState) st
  end.

(** The render loop [animate]: physics, then the renders. *)
Definition animate (now : num) (st : t) : t :=
  let deltaTime :=
    if st.(lastFrameTime) >? lit 0 then (now - st.(lastFrameTime)) / lit 1000
    else lit 16 / lit 1000 in
  let st := set_lastFrameTime now st in
  let st := set_objectManager
              (ObjectManager.update st.(objectManager) deltaTime (now / lit 1000)) st in
  set_drawingCanvas (DrawingCanvas.render st.(drawingCanvas)) st.

(** *** The event loop *)

Inductive Event : Type :=
| HandResults (landmarks : option (HandLandmarks num)) (now : num)
| AnimationFrame (now : num)
| CreationSettled (i : nat)     (* the i-th pending promise settles *)
| ClearSettled
| StatusTimeout.

(** The frame's callbacks in the order they were requested: the render
    loop re-registers itself first thing, the closing animations were
    requested after it. *)
Definition animationFrame (now : num) (st : t) : t :=
  let st := animate now st in
  let pending := st.(closing) in
  List.fold_left
    (fun s (a : StrokeObj num * num) => animateClosing (fst a) (snd a) now s)
    pending (set_closing [] st).

Definition step (e : Event) (st : t) : t :=
  match e with
  | HandResults landmarks now => onHandResults landmarks now st
  | AnimationFrame now => animationFrame now st
  | CreationSettled i =>
      match List.nth_error st.(creating) i with
      | Some (stroke, resolved) =>
          createBalloonSettled stroke resolved
            (set_creating
               (List.firstn i st.(creating) ++ List.skipn (S i) st.(creating)) st)
      | None => st
      end
  | ClearSettled =>
      match st.(clearing) with
      | S n => clearAllSettled (set_clearing n st)
      | O => st
      end
  | StatusTimeout =>
      match st.(hideTimers) with
      | S n => hideStatus (set_hideTimers n st)
      | O => st
      end
  end.

Definition run (events : list Event) (st : t) : t :=
  List.fold_left (fun s e => step e s) events st.

(** *** The tracked frames of a run

    What the hold timers are measured against: the classified frames so
    far, newest first, each with its gesture kind and its time.  Frames
    without a hand are not classified and leave no entry. *)
Definition History : Type := list (GestureKind * num).

Definition tracked (e : Event) (st : t) : History :=
  match e with
  | HandResults (Some lm) now =>
      [(current (fst (GestureDetector.detect st.(gestureDetector) lm)), now)]
  | _ => []
  end.

Definition stepH (e : Event) (sh : t * History) : t * History :=
  (step e (fst sh), tracked e (fst sh) ++ snd sh).

Definition runH (events : list Event) (sh : t * History) : t * History :=
  List.fold_left (fun s e => stepH e s) events sh.

(** The times of the newest frames of kind [k] with no other kind in
    between: the frames of the hold in progress. *)
Fixpoint heldSince (k : GestureKind) (h : History) : list num :=
  match h with
  | (k', now) :: h' => if GestureKind_eqb k' k then now :: heldSince k h' else []
  | [] => []
  end.

(** *** What the store of a running interpreter satisfies *)

Definition storeWf (st : t) : Prop := DrawingCanvas.wf st.(drawingCanvas).

(** *** What the hold timers promise *)

(** The fields the hold timers depend on. *)
Definition sameHold (st st' : t) : Prop :=
  st'.(palmHoldStart) = st.(palmHoldStart) /\
  st'.(fistHoldStart) = st.(fistHoldStart) /\
  st'.(lastGestureState) = st.(lastGestureState).

(** A timer that is set was started at a frame of the hold in progress;
    the newest tracked frame is the one [lastGestureState] remembers. *)
Definition holdInv (st : t) (h : History) : Prop :=
  ((st.(palmHoldStart) =? lit 0) = false ->
   In st.(palmHoldStart) (heldSince palm h)) /\
  ((st.(fistHoldStart) =? lit 0) = false ->
   In st.(fistHoldStart) (heldSince fist h)) /\
  match st.(lastGestureState) with
  | None => h = []
  | Some g => exists now h', h = (current g, now) :: h'
  end.

(** What firing means for the frame at [now] of kind [k], after the
    tracked frames [h]: the gesture is a palm or a fist that has been
    held, with no other kind in between, since a frame at least the hold
    time ago. *)
Definition heldLongEnough (k : GestureKind) (now : num) (h : History) : Prop :=
  (k = palm /\
   exists T, In T (heldSince palm h) /\
             (now - T >=? cfg.(GESTURE).(PALM_HOLD_TIME)) = true) \/
  (k = fist /\
   exists T, In T (heldSince fist h) /\
             (now - T >=? cfg.(GESTURE).(FIST_HOLD_TIME)) = true).

End Interpreter.
End AirCanvas.

(** ** main.ts: the revision with colour swatches

    The active colour is the swatch the user clicked, and [createBalloon]
    takes the stroke out of the store before it asks for the 3D object.
    Closure, the animation frames and solidification are embedded, with
    the fields they touch; gesture dispatch is that of [AirCanvas] (with
    the rotation of a grabbed object added), and the pointer handlers
    act on the scene. *)

Module AirCanvasSwatches.
Section Interpreter.
Context {num OM Obj : Type} {N : Number num}.
Context {OMI : ObjectManager.ObjectManager num OM Obj}.
Variable cfg : Constants num.

Local Open Scope num_scope.

Record t : Type := mk {
  drawingCanvas : DrawingCanvas.t (num := num);
  objectManager : OM;
  statusText : AirCanvas.Message num;
  statusVisible : bool;
  isDrawing : bool;
  currentColor : string;
  lastFrameTime : num;
  closing : list (StrokeObj num * num);
  creating : list (StrokeObj num * bool);
  hideTimers : nat
}.

Definition set_drawingCanvas (v : DrawingCanvas.t) (st : t) : t :=
  let '(mk _ b c d e f g h i j) := st in mk v b c d e f g h i j.
Definition set_objectManager (v : OM) (st : t) : t :=
  let '(mk a _ c d e f g h i j) := st in mk a v c d e f g h i j.
Definition set_isDrawing (v : bool) (st : t) : t :=
  let '(mk a b c d _ f g h i j) := st in mk a b c d v f g h i j.
Definition set_currentColor (v : string) (st : t) : t :=
  let '(mk a b c d e _ g h i j) := st in mk a b c d e v g h i j.
Definition set_lastFrameTime (v : num) (st : t) : t :=
  let '(mk a b c d e f _ h i j) := st in mk a b c d e f v h i j.
Definition set_closing (v : list (StrokeObj num * num)) (st : t) : t :=
  let '(mk a b c d e f g _ i j) := st in mk a b c d e f g v i j.
Definition set_creating (v : list (StrokeObj num * bool)) (st : t) : t :=
  let '(mk a b c d e f g h _ j) := st in mk a b c d e f g h v j.

Definition showStatus (message : AirCanvas.Message num) (timed : bool) (st : t) : t :=
  let '(mk a b _ _ e f g h i j) := st in
  mk a b message true e f g h i (if timed then S j else j).

(** A click on a swatch: [currentColor = swatch.dataset.color || '#FFB3BA']. *)
Definition onSwatchClick (dataColor : option string) (st : t) : t :=
  set_currentColor
    (match dataColor with
     | Some c => if String.eqb c EmptyString then "#FFB3BA"%string else c
     | None => "#FFB3BA"%string
     end) st.

(** [createBalloon] up to its [await]: the stroke leaves the store first. *)
Definition createBalloon (stroke : StrokeObj num) (st : t) : t :=
  let st := set_drawingCanvas
              (DrawingCanvas.clear
                 (DrawingCanvas.removeCompletedStroke stroke st.(drawingCanvas))) st in
  match ObjectManager.createFromStroke st.(objectManager) stroke with
  | Some om' =>
      set_creating (st.(creating) ++ [(stroke, true)]) (set_objectManager om' st)
  | None => set_creating (st.(creating) ++ [(stroke, false)]) st
  end.

(** From the [await] on: nothing follows the [try], the [catch] reports. *)
Definition createBalloonSettled (stroke : StrokeObj num) (resolved : bool)
    (st : t) : t :=
  if resolved then st else showStatus AirCanvas.MsgFailed true st.

Definition closingProgress (startTime now : num) : num :=
  let elapsed := now - startTime in
  min (elapsed / (cfg.(TIMING).(STROKE_CLOSE_PULSE) * lit 1000)) (lit 1).

Definition animateClosing (stroke : StrokeObj num) (startTime now : num)
    (st : t) : t :=
  let progress := closingProgress startTime now in
  let st := set_drawingCanvas
              (DrawingCanvas.renderClosingAnimation stroke progress
                 st.(drawingCanvas)) st in
  if progress <? lit 1 then
    set_closing (st.(closing) ++ [(stroke, startTime)]) st
  else createBalloon stroke st.

Definition closeAndInflate (now : num) (st : t) : t :=
  match DrawingCanvas.closeStroke cfg st.(drawingCanvas) with
  | (None, dc) => showStatus AirCanvas.MsgDrawLarger true (set_drawingCanvas dc st)
  | (Some stroke, dc) =>
      let st := set_isDrawing false (set_drawingCanvas dc st) in
      let startTime := now in
      animateClosing stroke startTime now st
  end.

(** The render loop [animate], and an animation frame with the closing
    animations that asked for it, as in [AirCanvas]. *)
Definition animate (now : num) (st : t) : t :=
  let deltaTime :=
    if st.(lastFrameTime) >? lit 0 then (now - st.(lastFrameTime)) / lit 1000
    else lit 16 / lit 1000 in
  let st := set_lastFrameTime now st in
  let st := set_objectManager
              (ObjectManager.update st.(objectManager) deltaTime (now / lit 1000)) st in
  set_drawingCanvas (DrawingCanvas.render st.(drawingCanvas)) st.

Definition animationFrame (now : num) (st : t) : t :=
  let st := animate now st in
  let pending := st.(closing) in
  List.fold_left
    (fun s (a : StrokeObj num * num) => animateClosing (fst a) (snd a) now s)
    pending (set_closing [] st).

(** The i-th pending promise of [createFromStroke] settles. *)
Definition creationSettled (i : nat) (st : t) : t :=
  match List.nth_error st.(creating) i with
  | Some (stroke, resolved) =>
      createBalloonSettled stroke resolved
        (set_creating
           (List.firstn i st.(creating) ++ List.skipn (S i) st.(creating)) st)
  | None => st
  end.

End Interpreter.
End AirCanvasSwatches.

(** ** A concrete setting to run the model in *)

Module Demo.

Section Collaborators.
Context {num : Type} {N : Number num}.

Local Open Scope num_scope.

Definition pt (a b : num) : Point2D num := {| x := a; y := b |}.

(** Modelled from the spec: [objectManager.ts] is not among the sources.
    A stand-in that follows section 6: objects are boxes on the screen,
    the hit-test returns the first box under the point, and
    [createFromStroke] fails on a degenerate polygon (fewer than three
    points, or all of them on one horizontal or vertical line). *)
Record Box : Type := { oid : nat; x0 : num; y0 : num; x1 : num; y1 : num }.

Definition inside (a b : num) (o : Box) : bool :=
  ((o.(x0) <=? a) && (a <=? o.(x1)) && (o.(y0) <=? b) && (b <=? o.(y1)))%bool.

Definition boxAround (n : nat) (p : Point2D num) : Box :=
  {| oid := n; x0 := p.(x) - lit 10; y0 := p.(y) - lit 10;
     x1 := p.(x) + lit 10; y1 := p.(y) + lit 10 |}.

Definition degenerate (pts : list (Point2D num)) : bool :=
  match pts with
  | p :: rest =>
      (List.forallb (fun q => q.(y) =? p.(y)) rest ||
       List.forallb (fun q => q.(x) =? p.(x)) rest)%bool
  | [] => true
  end.

#[global] Instance boxes : ObjectManager.ObjectManager num (list Box) nat := {
  getObjectAtPosition om a b := option_map oid (List.find (inside a b) om);
  pokeObject om _ := om;
  grabObject om _ := om;
  releaseObject om _ := om;
  moveGrabbedObject om o a b :=
    List.map (fun o' => if Nat.eqb o'.(oid) o then boxAround o (pt a b) else o') om;
  rotateObject om _ _ _ := om;
  removeObject om o := List.filter (fun o' => negb (Nat.eqb o'.(oid) o)) om;
  createFromStroke om s :=
    match s.(val).(points) with
    | p :: _ :: _ :: _ =>
        if degenerate s.(val).(points) then None
        else Some (om ++ [boxAround s.(ref) p])
    | _ => None
    end;
  clearAll _ := [];
  update om _ _ := om;
  getObjectCount om := List.length om
}.

(** Modelled from the spec: [gestureDetector.ts] is not among the
    sources.  A stand-in that reads the classification off a script, one
    entry per frame, and takes the index tip at landmark 8 and the pinch
    centre at landmark 4. *)
Definition gesture (k : GestureKind) : GestureState num :=
  {| current := k; previous := none; duration := lit 0;
     velocity := pt (lit 0) (lit 0); confidence := lit 1 |}.

#[global] Instance scripted : GestureDetector.GestureDetector num (list GestureKind) := {
  detect gd _ :=
    match gd with
    | k :: rest => (gesture k, rest)
    | [] => (gesture none, [])
    end;
  getIndexTip _ lm := List.nth 8 lm.(landmarks) (pt (lit 0) (lit 0));
  getPinchCenter _ lm := List.nth 4 lm.(landmarks) (pt (lit 0) (lit 0))
}.

(** A hand whose index tip and pinch centre are both at [p]. *)
Definition handAt (p : Point2D num) : HandLandmarks num :=
  {| landmarks := List.repeat p 21; worldLandmarks := None |}.

(** Modelled from the spec: [constants.ts] is not among the sources.  The
    hold times are the reference values of the specification (500 ms and
    1000 ms); the spacing, the length threshold, the pulse (half a
    second) and the palette are sample values. *)
Definition constants : Constants num :=
  {| STROKE := {| WIDTH := lit 4; MIN_POINT_DISTANCE := lit 2;
                  SMOOTHING := lit 1 / lit 2 |};
     GESTURE := {| MIN_STROKE_LENGTH := lit 50;
                   PALM_HOLD_TIME := lit 500;
                   FIST_HOLD_TIME := lit 1000 |};
     TIMING := {| STROKE_CLOSE_PULSE := lit 1 / lit 2 |};
     COLOR_ARRAY := ["#FFB3BA"; "#BAFFC9"; "#BAE1FF"]%string |}.

End Collaborators.

Arguments Box : clear implicits.

(** The setting on IEEE doubles, and on the reals. *)
Definition cfg : Constants float := constants.
Definition cfgR : Constants R := constants.

End Demo.

(** ** Concrete strokes and frames (IEEE doubles)

    The inputs of the runs evaluated in the second part. *)

Module StoreRuns.
Import DrawingCanvas.
Local Open Scope float_scope.

(** A dot, and a right triangle with legs 30 and 40 under way (two
    segments, 70 long). *)
Definition dot : t :=
  startStroke Demo.cfg (Demo.pt 0 0) "#FFB3BA" empty.

Definition triangle : t :=
  runOps Demo.cfg
    [OpStartStroke (Demo.pt 0 0) "#FFB3BA";
     OpAddPoint (Demo.pt 30 0);
     OpAddPoint (Demo.pt 30 40)] empty.

Definition triangleStroke : Stroke float :=
  {| points := [Demo.pt 0 0; Demo.pt 30 0; Demo.pt 30 40];
     color := "#FFB3BA"; width := 4; closed := false |}.

Definition closedTriangle : StrokeObj float :=
  {| ref := 0;
     val := {| points := [Demo.pt 0 0; Demo.pt 30 0; Demo.pt 30 40];
               color := "#FFB3BA"; width := 4; closed := true |} |}.

(** Three points on one line, 60 long. *)
Definition line : t :=
  runOps Demo.cfg
    [OpStartStroke (Demo.pt 0 0) "#FFB3BA";
     OpAddPoint (Demo.pt 30 0);
     OpAddPoint (Demo.pt 60 0)] empty.

(** The dot in the revision with the live position, nothing seen yet. *)
Definition liveDot : DrawingCanvasLive.t :=
  {| DrawingCanvasLive.store := dot;
     DrawingCanvasLive.livePosition := None;
     DrawingCanvasLive.smoothedPosition := None |}.

End StoreRuns.

Module InterpreterRuns.
Import AirCanvas.
Local Open Scope float_scope.
Local Abbreviation state :=
  (AirCanvas.t (num := float) (OM := list (Demo.Box float)) (Obj := nat)
     (GD := list GestureKind)).

Definition frame (a b : float) (now : float) : Event :=
  HandResults (Some (Demo.handAt (Demo.pt a b))) now.

(** One object around (100, 100); a pinch on it, then a draw gesture far
    from it. *)
Definition oneObject : state :=
  create Demo.cfg [pinch; draw] [Demo.boxAround 1 (Demo.pt 100 100)].

Definition afterPinch : state := run Demo.cfg [frame 100 100 0] oneObject.

Definition afterDraw : state := step Demo.cfg (frame 300 300 16) afterPinch.

(** Five points of a 30 by 40 rectangle, then a palm held from 1100 ms
    to 1700 ms. *)
Definition drawRectangle : list Event :=
  [frame 0 0 0; frame 30 0 16; frame 30 40 32; frame 0 40 48; frame 0 10 64].

Definition holdPalm : list Event :=
  [frame 0 10 1000; frame 0 10 1100; frame 0 10 1400; frame 0 10 1700].

Definition rectangleScript : list GestureKind :=
  [draw; draw; draw; draw; draw; palm; palm; palm; palm].

Definition rectangle : StrokeObj float :=
  {| ref := 0;
     val := {| points := [Demo.pt 0 0; Demo.pt 30 0; Demo.pt 30 40;
                          Demo.pt 0 40; Demo.pt 0 10];
               color := "#FFB3BA"; width := 4; closed := true |} |}.

Definition closedRectangle : state :=
  run Demo.cfg (drawRectangle ++ holdPalm) (create Demo.cfg rectangleScript []).

(** Frames at 1900 ms and 2100 ms are inside the half-second pulse; the
    frame at 2200 ms ends it and the object manager is asked. *)
Definition solidifying : state :=
  run Demo.cfg [AnimationFrame 1900; AnimationFrame 2100; AnimationFrame 2200]
    closedRectangle.

(** Three points on one line, 60 long: the store closes the stroke, the
    object manager rejects the degenerate polygon. *)
Definition flat : StrokeObj float :=
  {| ref := 0;
     val := {| points := [Demo.pt 0 0; Demo.pt 30 0; Demo.pt 60 0];
               color := "#FFB3BA"; width := 4; closed := true |} |}.

Definition rejecting : state :=
  run Demo.cfg
    ([frame 0 0 0; frame 30 0 16; frame 60 0 32] ++ holdPalm ++
     [AnimationFrame 2200])
    (create Demo.cfg [draw; draw; draw; palm; palm; palm; palm] []).

Definition rejected : state := step Demo.cfg (CreationSettled 0) rejecting.

(** One object around (100, 100) and a swipe over it. *)
Definition beforeSwipe : state :=
  create Demo.cfg [swipe] [Demo.boxAround 1 (Demo.pt 100 100)].

Definition briefFist : list Event :=
  [frame 0 0 1000; frame 0 0 1100; frame 0 0 1300].

Definition fistScript : list GestureKind := [fist; fist; fist; none].

End InterpreterRuns.

Module SwatchesRuns.
Import AirCanvasSwatches.
Local Open Scope float_scope.
Local Abbreviation state :=
  (AirCanvasSwatches.t (num := float) (OM := list (Demo.Box float))).

(** The triangle is under way in the first colour of the palette; the
    palm hold completes at 1700 ms, the pulse ends with the frame at
    2200 ms, and the promise resolves. *)
Definition drawn : state :=
  {| drawingCanvas := StoreRuns.triangle;
     objectManager := [];
     statusText := AirCanvas.MsgNone;
     statusVisible := false;
     isDrawing := true;
     currentColor := "#FFB3BA";
     lastFrameTime := 0;
     closing := [];
     creating := [];
     hideTimers := 0 |}.

Definition solidified : state :=
  creationSettled 0
    (animationFrame Demo.cfg 2200 (closeAndInflate Demo.cfg 1700 drawn)).

(** The line closed by a palm hold that completes at 1700 ms. *)
Definition lineClosed : state :=
  closeAndInflate Demo.cfg 1700
    {| drawingCanvas := StoreRuns.line;
       objectManager := [];
       statusText := AirCanvas.MsgNone;
       statusVisible := false;
       isDrawing := true;
       currentColor := "#FFB3BA";
       lastFrameTime := 0;
       closing := [];
       creating := [];
       hideTimers := 0 |}.

End SwatchesRuns.

(** ** The point sampler, as a function of the raw stream

    What the store does with a stream of raw points, written on its own:
    [intake] decides on one point against the last accepted one, and
    [accepted] runs it along the stream. *)

Module PointSampler.
Section Sampler.
Context {num : Type} {N : Number num}.
Variable cfg : Constants num.

Local Open Scope num_scope.

Definition intake (last raw : Point2D num) : option (Point2D num) :=
  if DrawingCanvas.distance raw last >=? cfg.(STROKE).(MIN_POINT_DISTANCE)
  then Some raw else None.

Fixpoint accepted (last : Point2D num) (raws : list (Point2D num))
    : list (Point2D num) :=
  match raws with
  | [] => []
  | raw :: rest =>
      match intake last raw with
      | Some p => p :: accepted p rest
      | None => accepted last rest
      end
  end.

(** [kept] is [raws] with some entries left out, the others in order. *)
Inductive subsequence : list (Point2D num) -> list (Point2D num) -> Prop :=
| subsequence_nil : subsequence [] []
| subsequence_skip raw kept raws :
    subsequence kept raws -> subsequence kept (raw :: raws)
| subsequence_keep raw kept raws :
    subsequence kept raws -> subsequence (raw :: kept) (raw :: raws).

End Sampler.
End PointSampler.

(** ** What a running interpreter keeps true of the palette and the
    drawing flag *)

Module Invariants.
Section Invariants.
Context {num OM Obj GD : Type} {N : Number num}.
Context {OMI : ObjectManager.ObjectManager num OM Obj}.
Context {GDI : GestureDetector.GestureDetector num GD}.
Variable cfg : Constants num.

Local Abbreviation state := (AirCanvas.t (num := num) (OM := OM) (Obj := Obj) (GD := GD)).

(** Every stroke of the store has a colour of the palette. *)
Definition coloursIn (palette : list string) (dc : DrawingCanvas.t (num := num)) : Prop :=
  (forall s, dc.(DrawingCanvas.currentStroke) = Some s -> In s.(color) palette) /\
  Forall (fun so : StrokeObj num => In so.(val).(color) palette)
    dc.(DrawingCanvas.completedStrokes).

(** [COLOR_ARRAY[currentColorIndex]] is an entry of the palette, and so
    is the colour of every stroke. *)
Definition paletteInv (st : state) : Prop :=
  st.(AirCanvas.currentColorIndex) < List.length cfg.(COLOR_ARRAY) /\
  coloursIn cfg.(COLOR_ARRAY) st.(AirCanvas.drawingCanvas).

(** The drawing flag is set and there is no stroke to draw on. *)
Definition flagWithoutStroke (st : state) : Prop :=
  st.(AirCanvas.isDrawing) = true /\
  st.(AirCanvas.drawingCanvas).(DrawingCanvas.currentStroke) = None.

(** The calls [createBalloon] of a list of calls. *)
Definition onlyCreateBalloon (cs : list (AirCanvas.Call num)) : Prop :=
  Forall (fun c => exists stroke, c = AirCanvas.CallCreateBalloon stroke) cs.

End Invariants.
End Invariants.

(** Further states of the interpreter on IEEE doubles: a dot under way,
    the rectangle drawn and no palm yet, and the rectangle with the palm
    held since 1100 ms, before the frame at 1700 ms. *)
Module HoldRuns.
Import AirCanvas InterpreterRuns.
Local Open Scope float_scope.
Local Abbreviation state :=
  (AirCanvas.t (num := float) (OM := list (Demo.Box float)) (Obj := nat)
     (GD := list GestureKind)).

Definition drawingDot : state :=
  run Demo.cfg [frame 0 0 0] (create Demo.cfg [draw; draw; draw] []).

Definition drawnRectangle : state :=
  run Demo.cfg drawRectangle (create Demo.cfg rectangleScript []).

Definition holding : state :=
  run Demo.cfg [frame 0 10 1000; frame 0 10 1100; frame 0 10 1400] drawnRectangle.

(** One object grabbed by a pinch at 0 ms, then a fist at 1000 ms and at
    1100 ms: the fist timer runs from 1100 ms. *)
Definition fistHeld : state :=
  run Demo.cfg [frame 100 100 0; frame 300 300 1000; frame 300 300 1100]
    (create Demo.cfg [pinch; fist; fist; fist]
       [Demo.boxAround 1 (Demo.pt 100 100)]).




End HoldRuns.

(** ** What the store draws

    The 2D context is written to and never read, so a render is the list
    of the calls it makes on the context, in order.  [Math.PI], [Math.sin]
    and unary minus are kept apart from [Number]: binary64 has the first
    and the last; the sine stays an interface. *)

Class Circle (num : Type) : Type := { Math_PI : num }.
Class Sine (num : Type) : Type := { Math_sin : num -> num }.
Class Negation (num : Type) : Type := { neg : num -> num }.

#[export] Instance float_Circle : Circle float :=
  {| Math_PI := 0x1.921fb54442d18p+1%float |}.
#[export] Instance float_Negation : Negation float := {| neg := PrimFloat.opp |}.
#[export] Instance R_Negation : Negation R := {| neg := Ropp |}.

Module Canvas2D.
Section Commands.
Context {num : Type}.

Inductive Cmd : Type :=
| ClearRect (x y w h : num)
| Save
| Restore
| SetGlobalAlpha (alpha : num)
| SetFillStyle (style : string)
| SetStrokeStyle (style : string)
| SetLineWidth (width : num)
| SetLineCap (cap : string)
| SetLineJoin (join : string)
| SetFilter (filter : string)
| BeginPath
| MoveTo (x y : num)
| LineTo (x y : num)
| QuadraticCurveTo (cpx cpy x y : num)
| Arc (x y radius startAngle endAngle : num)
| ClosePath
| FillPath      (* fill() *)
| StrokePath.   (* stroke() *)

(** The calls that change a setting [save] and [restore] cover. *)
Definition isSetting (c : Cmd) : bool :=
  match c with
  | SetGlobalAlpha _ | SetFillStyle _ | SetStrokeStyle _ | SetLineWidth _
  | SetLineCap _ | SetLineJoin _ | SetFilter _ => true
  | _ => false
  end.

(** The depth of the stack of saved settings after the calls, from
    [depth]; [None] when a setting is changed with nothing saved, or
    [restore] is called on the empty stack. *)
Fixpoint scoped (cmds : list Cmd) (depth : nat) : option nat :=
  match cmds with
  | [] => Some depth
  | Save :: rest => scoped rest (S depth)
  | Restore :: rest =>
      match depth with
      | S d => scoped rest d
      | O => None
      end
  | c :: rest =>
      if isSetting c then
        match depth with
        | S _ => scoped rest depth
        | O => None
        end
      else scoped rest depth
  end.

(** The calls that are neither a setting nor [save] or [restore]. *)
Definition isDrawing (c : Cmd) : bool :=
  match c with
  | Save | Restore => false
  | _ => negb (isSetting c)
  end.


(** The calls that put ink on the canvas. *)
Definition paints (c : Cmd) : bool :=
  match c with
  | FillPath | StrokePath => true
  | _ => false
  end.

End Commands.
Arguments Cmd : clear implicits.
End Canvas2D.

(** *** [drawingCanvas.ts] *)

Module Renderer.
Import Canvas2D.
Section Render.
Context {num : Type} {N : Number num} {C : Circle num}.

Local Open Scope num_scope.

(** [canvas.width] and [canvas.height]. *)
Record Surface : Type := { canvasWidth : num; canvasHeight : num }.

Definition resize (width height : num) (_ : Surface) : Surface :=
  {| canvasWidth := width; canvasHeight := height |}.

Definition clear (sf : Surface) : list (Cmd num) :=
  [ClearRect (lit 0) (lit 0) sf.(canvasWidth) sf.(canvasHeight)].

(** The loop [for (i = 1; i < points.length - 1; i++)], on the points
    from index 1: a curve through [points[i]] to the middle of
    [points[i]] and [points[i + 1]]. *)
Fixpoint quadratics (pts : list (Point2D num)) : list (Cmd num) :=
  match pts with
  | p :: (q :: _) as rest =>
      let xc := (p.(x) + q.(x)) / lit 2 in
      let yc := (p.(y) + q.(y)) / lit 2 in
      QuadraticCurveTo p.(x) p.(y) xc yc :: quadratics rest
  | _ => []
  end.

Definition renderStroke (stroke : Stroke num) (alpha : num) : list (Cmd num) :=
  match stroke.(points) with
  | [] => []
  | p0 :: rest =>
      [Save; SetGlobalAlpha alpha; SetFillStyle stroke.(color);
       SetStrokeStyle stroke.(color); SetLineWidth stroke.(width);
       SetLineCap "round"; SetLineJoin "round"] ++
      match rest with
      | [] =>
          [BeginPath;
           Arc p0.(x) p0.(y) (stroke.(width) / lit 2) (lit 0) (Math_PI * lit 2);
           FillPath; Restore]
      | _ :: _ =>
          let last := List.last rest p0 in
          [BeginPath; MoveTo p0.(x) p0.(y)] ++ quadratics rest ++
          [LineTo last.(x) last.(y)] ++
          (if stroke.(closed) then [LineTo p0.(x) p0.(y)] else []) ++
          [StrokePath; Restore]
      end
  end.

Definition render (sf : Surface) (dc : DrawingCanvas.t) : list (Cmd num) :=
  clear sf ++
  List.flat_map (fun stroke : StrokeObj num => renderStroke stroke.(val) (lit 3 / lit 10))
    dc.(DrawingCanvas.completedStrokes) ++
  match dc.(DrawingCanvas.currentStroke) with
  | Some s =>
      if Nat.leb 1 (List.length s.(points)) then renderStroke s (lit 1) else []
  | None => []
  end.

(** [points[0]] of an empty array is [undefined] and reading its [x]
    throws; [renderClosingAnimation] calls this with two points or
    more. *)
Definition drawStrokePath (stroke : Stroke num) : list (Cmd num) :=
  match stroke.(points) with
  | [] => []
  | p0 :: rest =>
      let last := List.last rest p0 in
      [BeginPath; MoveTo p0.(x) p0.(y)] ++ quadratics rest ++
      [LineTo last.(x) last.(y)] ++
      (if stroke.(closed) then [ClosePath] else [])
  end.

Section Pulse.
Context {S : Sine num}.

Definition pulseScale (progress : num) : num :=
  lit 1 + Math_sin (progress * Math_PI) * (lit 1 / lit 10).

Definition pulseAlpha (progress : num) : num :=
  lit 1 / lit 2 + Math_sin (progress * Math_PI * lit 2) * (lit 1 / lit 2).

(** The calls between [clear] and the end, with the path given. *)
Definition pulse (path : list (Cmd num)) (stroke : Stroke num) (progress : num)
    : list (Cmd num) :=
  [Save;
   SetGlobalAlpha (pulseAlpha progress * (lit 3 / lit 10));
   SetStrokeStyle stroke.(color);
   SetLineWidth (stroke.(width) * pulseScale progress * lit 2);
   SetLineCap "round"; SetLineJoin "round"; SetFilter "blur(8px)"] ++
  path ++
  [StrokePath; SetFilter "none"; SetGlobalAlpha (lit 1);
   SetLineWidth (stroke.(width) * pulseScale progress)] ++
  path ++
  [StrokePath; Restore].

Definition renderClosingAnimation (sf : Surface) (stroke : Stroke num)
    (progress : num) : list (Cmd num) :=
  if Nat.ltb (List.length stroke.(points)) 2 then []
  else clear sf ++ pulse (drawStrokePath stroke) stroke progress.

End Pulse.
End Render.
End Renderer.

(** *** The revision that smooths each point: a stroke of one point is
    not drawn, and no fill style is set. *)

Module RendererSmoothing.
Import Canvas2D.
Section Render.
Context {num : Type} {N : Number num}.

Local Open Scope num_scope.

Definition renderStroke (stroke : Stroke num) (alpha : num) : list (Cmd num) :=
  match stroke.(points) with
  | p0 :: ((_ :: _) as rest) =>
      let last := List.last rest p0 in
      [Save; SetGlobalAlpha alpha; SetStrokeStyle stroke.(color);
       SetLineWidth stroke.(width); SetLineCap "round"; SetLineJoin "round";
       BeginPath; MoveTo p0.(x) p0.(y)] ++ Renderer.quadratics rest ++
      [LineTo last.(x) last.(y)] ++
      (if stroke.(closed) then [LineTo p0.(x) p0.(y)] else []) ++
      [StrokePath; Restore]
  | _ => []
  end.

Definition render (sf : Renderer.Surface) (dc : DrawingCanvas.t) : list (Cmd num) :=
  Renderer.clear sf ++
  List.flat_map (fun stroke : StrokeObj num => renderStroke stroke.(val) (lit 3 / lit 10))
    dc.(DrawingCanvas.completedStrokes) ++
  match dc.(DrawingCanvas.currentStroke) with
  | Some s =>
      if Nat.ltb 1 (List.length s.(points)) then renderStroke s (lit 1) else []
  | None => []
  end.

End Render.
End RendererSmoothing.

(** *** The revision with the live position: Catmull-Rom splines *)

Module RendererLive.
Import Canvas2D.
Section Render.
Context {num : Type} {N : Number num} {C : Circle num} {G : Negation num}.

Local Open Scope num_scope.

(** One coordinate of the spline at [s], from the four control values. *)
Definition basis (c0 c1 c2 c3 s : num) : num :=
  let s2 := s * s in
  let s3 := s2 * s in
  lit 1 / lit 2 * (
    (lit 2 * c1) +
    (neg c0 + c2) * s +
    (lit 2 * c0 - lit 5 * c1 + lit 4 * c2 - c3) * s2 +
    (neg c0 + lit 3 * c1 - lit 3 * c2 + c3) * s3).

(** The inner loop, [t] from 1 to [segments = 8]. *)
Definition segment (p0 p1 p2 p3 : Point2D num) : list (Cmd num) :=
  List.map
    (fun t : nat =>
       let s := lit (Z.of_nat t) / lit 8 in
       LineTo (basis p0.(x) p1.(x) p2.(x) p3.(x) s)
              (basis p0.(y) p1.(y) p2.(y) p3.(y) s))
    (List.seq 1 8).

Definition origin : Point2D num := {| x := lit 0; y := lit 0 |}.

Definition drawCatmullRomSpline (points : list (Point2D num)) : list (Cmd num) :=
  match points with
  | [] | [_] => []
  | [a; b] => [BeginPath; MoveTo a.(x) a.(y); LineTo b.(x) b.(y)]
  | a :: _ =>
      [BeginPath; MoveTo a.(x) a.(y)] ++
      List.flat_map
        (fun i : nat =>
           let p0 := List.nth (Nat.max 0 (i - 1)) points origin in
           let p1 := List.nth i points origin in
           let p2 := List.nth (i + 1) points origin in
           let p3 := List.nth (Nat.min (List.length points - 1) (i + 2)) points origin in
           segment p0 p1 p2 p3)
        (List.seq 0 (List.length points - 1))
  end.

Definition header (stroke : Stroke num) (alpha : num) : list (Cmd num) :=
  [Save; SetGlobalAlpha alpha; SetFillStyle stroke.(color);
   SetStrokeStyle stroke.(color); SetLineWidth stroke.(width);
   SetLineCap "round"; SetLineJoin "round"].

Definition dot (p : Point2D num) (stroke : Stroke num) : list (Cmd num) :=
  [BeginPath;
   Arc p.(x) p.(y) (stroke.(width) / lit 2) (lit 0) (Math_PI * lit 2);
   FillPath; Restore].

Definition renderStrokeWithLiveExtension (smoothedPosition : option (Point2D num))
    (stroke : Stroke num) (alpha : num) : list (Cmd num) :=
  match stroke.(points) with
  | [] => []
  | _ :: _ =>
      let points :=
        stroke.(points) ++
        match smoothedPosition with Some p => [p] | None => [] end in
      header stroke alpha ++
      match points with
      | [p] => dot p stroke
      | _ => drawCatmullRomSpline points ++ [StrokePath; Restore]
      end
  end.

Definition renderStroke (stroke : Stroke num) (alpha : num) : list (Cmd num) :=
  match stroke.(points) with
  | [] => []
  | [p] => header stroke alpha ++ dot p stroke
  | p0 :: _ =>
      let points :=
        stroke.(points) ++ (if stroke.(closed) then [p0] else []) in
      header stroke alpha ++ drawCatmullRomSpline points ++ [StrokePath; Restore]
  end.

Definition render (sf : Renderer.Surface) (dc : DrawingCanvasLive.t) : list (Cmd num) :=
  Renderer.clear sf ++
  List.flat_map (fun stroke : StrokeObj num => renderStroke stroke.(val) (lit 3 / lit 10))
    dc.(DrawingCanvasLive.store).(DrawingCanvas.completedStrokes) ++
  match dc.(DrawingCanvasLive.store).(DrawingCanvas.currentStroke) with
  | Some s =>
      if Nat.leb 1 (List.length s.(points))
      then renderStrokeWithLiveExtension dc.(DrawingCanvasLive.smoothedPosition)
             s (lit 1)
      else []
  | None => []
  end.

(** [points.push(stroke.points[0])] on an empty closed stroke pushes
    [undefined]; the spline returns before it reads it. *)
Definition drawStrokePath (stroke : Stroke num) : list (Cmd num) :=
  match stroke.(points) with
  | [] => []
  | p0 :: _ =>
      drawCatmullRomSpline
        (stroke.(points) ++ (if stroke.(closed) then [p0] else []))
  end.

Definition renderClosingAnimation {S : Sine num} (sf : Renderer.Surface)
    (stroke : Stroke num) (progress : num) : list (Cmd num) :=
  if Nat.ltb (List.length stroke.(points)) 2 then []
  else Renderer.clear sf ++ Renderer.pulse (drawStrokePath stroke) stroke progress.

End Render.
End RendererLive.

(** ** handTracking.ts

    MediaPipe, the camera and the video element are outside the program;
    what the class adds is the conversion of a result and the delivery to
    the registered callback.  The callback works on a client state
    [Client]; [start] is given whether the camera starts. *)

Module HandTracker.
Section Tracker.
Context {num : Type} {N : Number num} {G : Negation num}.
Variable Client : Type.

Local Open Scope num_scope.

(** A landmark as MediaPipe reports it. *)
Record NormalizedLandmark : Type := { nx : num; ny : num; nz : num }.

Record Results : Type := {
  multiHandLandmarks : option (list (list NormalizedLandmark));
  multiHandWorldLandmarks : option (list (list NormalizedLandmark))
}.

Definition HandResultsCallback : Type :=
  option (HandLandmarks num) -> Client -> Client.

Record t : Type := {
  callback : option HandResultsCallback;
  isRunning : bool;
  canvasWidth : num;
  canvasHeight : num
}.

Definition create : t :=
  {| callback := None; isRunning := false;
     canvasWidth := lit 640; canvasHeight := lit 480 |}.

Definition setCanvasSize (width height : num) (tr : t) : t :=
  {| callback := tr.(callback); isRunning := tr.(isRunning);
     canvasWidth := width; canvasHeight := height |}.

(** The two [map] callbacks of [onResults]. *)
Definition convert (tr : t) (lm : NormalizedLandmark) : Point2D num :=
  {| x := (lit 1 - lm.(nx)) * tr.(canvasWidth);
     y := lm.(ny) * tr.(canvasHeight) |}.

Definition convertWorld (lm : NormalizedLandmark) : Point3D num :=
  {| x3 := neg lm.(nx); y3 := neg lm.(ny); z3 := lm.(nz) |}.

(** The argument [onResults] calls the callback with. *)
Definition converted (tr : t) (results : Results) : option (HandLandmarks num) :=
  match results.(multiHandLandmarks) with
  | Some (hand :: _) =>
      let world :=
        match results.(multiHandWorldLandmarks) with
        | Some (w :: _) => Some w
        | _ => None
        end in
      Some {| landmarks := List.map (convert tr) hand;
              worldLandmarks := option_map (List.map convertWorld) world |}
  | _ => None
  end.

Definition onResults (results : Results) (tr : t) (c : Client) : Client :=
  match tr.(callback) with
  | None => c
  | Some cb => cb (converted tr results) c
  end.

(** [start]: the tracker after it, and whether it throws. *)
Definition start (cb : HandResultsCallback) (cameraStarts : bool) (tr : t)
    : t * bool :=
  let tr := {| callback := Some cb; isRunning := tr.(isRunning);
               canvasWidth := tr.(canvasWidth);
               canvasHeight := tr.(canvasHeight) |} in
  if tr.(isRunning) then (tr, false)
  else if cameraStarts then
    ({| callback := tr.(callback); isRunning := true;
        canvasWidth := tr.(canvasWidth); canvasHeight := tr.(canvasHeight) |},
     false)
  else (tr, true).

Definition stop (tr : t) : t :=
  {| callback := tr.(callback); isRunning := false;
     canvasWidth := tr.(canvasWidth); canvasHeight := tr.(canvasHeight) |}.

Definition isActive (tr : t) : bool := tr.(isRunning).

End Tracker.
End HandTracker.

(** A tracker over the real numbers whose callback keeps what it is
    given, started on an 800 by 600 canvas, and a result with one hand of
    two landmarks. *)
Module TrackerRuns.
Import HandTracker.
Local Open Scope R_scope.

Definition Deliveries : Type := list (option (HandLandmarks R)).

Definition keep : HandResultsCallback Deliveries := cons.

Definition logging : HandTracker.t Deliveries :=
  fst (start keep true (setCanvasSize 800 600 (create Deliveries))).

Definition oneHand : Results (num := R) :=
  {| multiHandLandmarks :=
       Some [[{| nx := 1 / 4; ny := 1 / 2; nz := 0 |};
              {| nx := 3 / 4; ny := 1 / 2; nz := 0 |}]];
     multiHandWorldLandmarks := None |}.

End TrackerRuns.

(** ** main.ts, the revision with the colour swatches: gestures and
    pointer

    [AirCanvasSwatches] above holds what this revision does with the
    store; here are its gesture handlers, which also rotate a grabbed
    object, and its mouse and touch handlers.  [scene3D.ts] of this
    revision and [selectObject] are not among the sources: the camera is
    an interface, and the calls that turn or select something are kept in
    [moves], newest first.  The preview overlay and the hand visualizer
    only draw. *)

Module Scene3D.
Class Camera (num SC : Type) : Type := {
  orbitCamera : SC -> num -> num -> SC;
  zoomCamera : SC -> num -> SC
}.
End Scene3D.

Module ObjectSelection.
Class ObjectSelection (OM Obj : Type) : Type := {
  selectObject : OM -> Obj -> OM
}.
End ObjectSelection.

Module AirCanvasInput.

Inductive Move {num Obj : Type} : Type :=
| MoveGrabbed (o : Obj) (x y : num)
| RotateObject (o : Obj) (deltaX deltaY : num)
| OrbitCamera (deltaX deltaY : num)
| ZoomCamera (delta : num)
| SelectObject (o : Obj).
Arguments Move : clear implicits.

Section Interpreter.
Context {num OM Obj GD SC : Type} {N : Number num}.
Context {OMI : ObjectManager.ObjectManager num OM Obj}.
Context {OSI : ObjectSelection.ObjectSelection OM Obj}.
Context {GDI : GestureDetector.GestureDetector num GD}.
Context {SCI : Scene3D.Camera num SC}.
Variable cfg : Constants num.

Local Open Scope num_scope.

Local Abbreviation Core := (AirCanvasSwatches.t (num := num) (OM := OM)).

Record t : Type := mk {
  core : Core;   (* store, object manager, status, isDrawing, currentColor *)
  gestureDetector : GD;
  scene3D : SC;
  lastGestureState : option (GestureState num);
  currentLandmarks : option (HandLandmarks num);
  palmHoldStart : num;
  fistHoldStart : num;
  handDetected : bool;
  grabbedObject : option Obj;
  lastPinchPosition : option (Point2D num);
  (* mouse controls state *)
  isDragging : bool;
  lastMouseX : num;
  lastMouseY : num;
  selectedObject : option Obj;
  (* work left for later callbacks, and history *)
  clearing : nat;
  moves : list (Move num Obj)
}.

Definition set_core (v : Core) (st : t) : t :=
  let '(mk _ b c d e f g h i j k l m n o p) := st in
  mk v b c d e f g h i j k l m n o p.
Definition set_gestureDetector (v : GD) (st : t) : t :=
  let '(mk a _ c d e f g h i j k l m n o p) := st in
  mk a v c d e f g h i j k l m n o p.
Definition set_scene3D (v : SC) (st : t) : t :=
  let '(mk a b _ d e f g h i j k l m n o p) := st in
  mk a b v d e f g h i j k l m n o p.
Definition set_lastGestureState (v : option (GestureState num)) (st : t) : t :=
  let '(mk a b c _ e f g h i j k l m n o p) := st in
  mk a b c v e f g h i j k l m n o p.
Definition set_currentLandmarks (v : option (HandLandmarks num)) (st : t) : t :=
  let '(mk a b c d _ f g h i j k l m n o p) := st in
  mk a b c d v f g h i j k l m n o p.
Definition set_palmHoldStart (v : num) (st : t) : t :=
  let '(mk a b c d e _ g h i j k l m n o p) := st in
  mk a b c d e v g h i j k l m n o p.
Definition set_fistHoldStart (v : num) (st : t) : t :=
  let '(mk a b c d e f _ h i j k l m n o p) := st in
  mk a b c d e f v h i j k l m n o p.
Definition set_handDetected (v : bool) (st : t) : t :=
  let '(mk a b c d e f g _ i j k l m n o p) := st in
  mk a b c d e f g v i j k l m n o p.
Definition set_grabbedObject (v : option Obj) (st : t) : t :=
  let '(mk a b c d e f g h _ j k l m n o p) := st in
  mk a b c d e f g h v j k l m n o p.
Definition set_lastPinchPosition (v : option (Point2D num)) (st : t) : t :=
  let '(mk a b c d e f g h i _ k l m n o p) := st in
  mk a b c d e f g h i v k l m n o p.
Definition set_isDragging (v : bool) (st : t) : t :=
  let '(mk a b c d e f g h i j _ l m n o p) := st in
  mk a b c d e f g h i j v l m n o p.
Definition set_lastMouse (vx vy : num) (st : t) : t :=
  let '(mk a b c d e f g h i j k _ _ n o p) := st in
  mk a b c d e f g h i j k vx vy n o p.
Definition set_selectedObject (v : option Obj) (st : t) : t :=
  let '(mk a b c d e f g h i j k l m _ o p) := st in
  mk a b c d e f g h i j k l m v o p.
Definition set_clearing (v : nat) (st : t) : t :=
  let '(mk a b c d e f g h i j k l m n _ p) := st in
  mk a b c d e f g h i j k l m n v p.
Definition record (c : Move num Obj) (st : t) : t :=
  let '(mk a b c0 d e f g h i j k l m n o p) := st in
  mk a b c0 d e f g h i j k l m n o (c :: p).

Definition objectManager (st : t) : OM := st.(core).(AirCanvasSwatches.objectManager).
Definition set_objectManager (v : OM) (st : t) : t :=
  set_core (AirCanvasSwatches.set_objectManager v st.(core)) st.
Definition showStatus (message : AirCanvas.Message num) (timed : bool) (st : t) : t :=
  set_core (AirCanvasSwatches.showStatus message timed st.(core)) st.
Definition hideStatus (st : t) : t :=
  set_core
    (let '(AirCanvasSwatches.mk a b c _ e f g h i j) := st.(core) in
     AirCanvasSwatches.mk a b c false e f g h i j) st.

Definition create (gd : GD) (sc : SC) (om : OM) : t :=
  {| core :=
       {| AirCanvasSwatches.drawingCanvas := DrawingCanvas.empty;
          AirCanvasSwatches.objectManager := om;
          AirCanvasSwatches.statusText := AirCanvas.MsgNone;
          AirCanvasSwatches.statusVisible := false;
          AirCanvasSwatches.isDrawing := false;
          AirCanvasSwatches.currentColor := "#FFB3BA";
          AirCanvasSwatches.lastFrameTime := lit 0;
          AirCanvasSwatches.closing := [];
          AirCanvasSwatches.creating := [];
          AirCanvasSwatches.hideTimers := 0 |};
     gestureDetector := gd;
     scene3D := sc;
     lastGestureState := None;
     currentLandmarks := None;
     palmHoldStart := lit 0;
     fistHoldStart := lit 0;
     handDetected := false;
     grabbedObject := None;
     lastPinchPosition := None;
     isDragging := false;
     lastMouseX := lit 0;
     lastMouseY := lit 0;
     selectedObject := None;
     clearing := 0;
     moves := [] |}.

(** *** Mouse and touch *)

Definition onMouseDown (clientX clientY : num) (st : t) : t :=
  let st := set_lastMouse clientX clientY (set_isDragging true st) in
  match ObjectManager.getObjectAtPosition (objectManager st) clientX clientY with
  | Some hitObject => set_selectedObject (Some hitObject) st
  | None => st
  end.

(** The body shared by [onMouseMove] and [onTouchMove] after their
    guards. *)
Definition drag (clientX clientY : num) (st : t) : t :=
  let deltaX := clientX - st.(lastMouseX) in
  let deltaY := clientY - st.(lastMouseY) in
  let st :=
    match st.(selectedObject) with
    | Some o =>
        let dx := deltaX * (lit 1 / lit 100) in
        let dy := deltaY * (lit 1 / lit 100) in
        record (RotateObject o dx dy)
          (set_objectManager
             (ObjectManager.rotateObject (objectManager st) o dx dy) st)
    | None =>
        let dx := deltaX * (lit 5 / lit 1000) in
        let dy := deltaY * (lit 5 / lit 1000) in
        record (OrbitCamera dx dy)
          (set_scene3D (Scene3D.orbitCamera st.(scene3D) dx dy) st)
    end in
  set_lastMouse clientX clientY st.

Definition onMouseMove (clientX clientY : num) (st : t) : t :=
  if negb st.(isDragging) then st else drag clientX clientY st.

Definition onMouseUp (st : t) : t :=
  set_selectedObject None (set_isDragging false st).

Definition onWheel (deltaY : num) (st : t) : t :=
  let d := deltaY * (lit 1 / lit 1000) in
  record (ZoomCamera d) (set_scene3D (Scene3D.zoomCamera st.(scene3D) d) st).

Definition onTouchStart (touches : list (num * num)) (st : t) : t :=
  match touches with
  | [(clientX, clientY)] => onMouseDown clientX clientY st
  | _ => st
  end.

Definition onTouchMove (touches : list (num * num)) (st : t) : t :=
  match touches with
  | [(clientX, clientY)] =>
      if negb st.(isDragging) then st else drag clientX clientY st
  | _ => st
  end.

Definition onSceneClick (clientX clientY : num) (st : t) : t :=
  match ObjectManager.getObjectAtPosition (objectManager st) clientX clientY with
  | Some hitObject =>
      record (SelectObject hitObject)
        (set_objectManager
           (ObjectSelection.selectObject (objectManager st) hitObject) st)
  | None => st
  end.

(** *** Gesture handlers *)

Definition releaseGrabbed (st : t) : t :=
  match st.(grabbedObject) with
  | Some o =>
      set_lastPinchPosition None
        (set_grabbedObject None
           (set_objectManager
              (ObjectManager.releaseObject (objectManager st) o) st))
  | None => st
  end.

Definition handleDraw (position : Point2D num) (st : t) : t :=
  match ObjectManager.getObjectAtPosition (objectManager st)
          position.(x) position.(y) with
  | Some hitObject =>
      set_objectManager (ObjectManager.pokeObject (objectManager st) hitObject) st
  | None =>
      let c := st.(core) in
      if negb c.(AirCanvasSwatches.isDrawing) then
        let c := AirCanvasSwatches.set_isDrawing true c in
        set_core
          (AirCanvasSwatches.set_drawingCanvas
             (DrawingCanvas.startStroke cfg position
                c.(AirCanvasSwatches.currentColor)
                c.(AirCanvasSwatches.drawingCanvas)) c) st
      else
        set_core
          (AirCanvasSwatches.set_drawingCanvas
             (DrawingCanvas.addPoint cfg position
                c.(AirCanvasSwatches.drawingCanvas)) c) st
  end.

Definition handlePinch (landmarks : HandLandmarks num) (st : t) : t :=
  let pinchCenter := GestureDetector.getPinchCenter st.(gestureDetector) landmarks in
  let st :=
    if st.(core).(AirCanvasSwatches.isDrawing) then
      let c := AirCanvasSwatches.set_isDrawing false st.(core) in
      set_core
        (AirCanvasSwatches.set_drawingCanvas
           (DrawingCanvas.pauseStroke c.(AirCanvasSwatches.drawingCanvas)) c) st
    else st in
  match st.(grabbedObject) with
  | None =>
      match ObjectManager.getObjectAtPosition (objectManager st)
              pinchCenter.(x) pinchCenter.(y) with
      | Some hitObject =>
          let st := set_grabbedObject (Some hitObject) st in
          let st := set_objectManager
                      (ObjectManager.grabObject (objectManager st) hitObject) st in
          set_lastPinchPosition (Some pinchCenter) st
      | None => st
      end
  | Some o =>
      let st :=
        match st.(lastPinchPosition) with
        | Some lastPinch =>
            let deltaX := pinchCenter.(x) - lastPinch.(x) in
            let deltaY := pinchCenter.(y) - lastPinch.(y) in
            let st := record (MoveGrabbed o pinchCenter.(x) pinchCenter.(y))
                        (set_objectManager
                           (ObjectManager.moveGrabbedObject (objectManager st) o
                              pinchCenter.(x) pinchCenter.(y)) st) in
            let dx := deltaX * (lit 2 / lit 100) in
            let dy := deltaY * (lit 2 / lit 100) in
            record (RotateObject o dx dy)
              (set_objectManager
                 (ObjectManager.rotateObject (objectManager st) o dx dy) st)
        | None => st
        end in
      set_lastPinchPosition (Some pinchCenter) st
  end.

(** [clearAll] up to its [await], and from it on. *)
Definition clearAll (st : t) : t :=
  let st := showStatus AirCanvas.MsgClearingAll false st in
  let st := set_core
              (AirCanvasSwatches.set_drawingCanvas
                 (DrawingCanvas.clearAll
                    st.(core).(AirCanvasSwatches.drawingCanvas)) st.(core)) st in
  let st := set_objectManager (ObjectManager.clearAll (objectManager st)) st in
  set_clearing (S st.(clearing)) st.

Definition clearAllSettled (st : t) : t := hideStatus st.

Definition handlePalm (now : num) (st : t) : t :=
  let st := releaseGrabbed st in
  let st := if st.(palmHoldStart) =? lit 0 then set_palmHoldStart now st else st in
  let holdDuration := now - st.(palmHoldStart) in
  if holdDuration >=? cfg.(GESTURE).(PALM_HOLD_TIME) then
    set_palmHoldStart (lit 0)
      (set_core (AirCanvasSwatches.closeAndInflate cfg now st.(core)) st)
  else st.

Definition handleFist (now : num) (st : t) : t :=
  let st := if st.(fistHoldStart) =? lit 0 then set_fistHoldStart now st else st in
  let holdDuration := now - st.(fistHoldStart) in
  if holdDuration >=? cfg.(GESTURE).(FIST_HOLD_TIME) then
    set_fistHoldStart (lit 0) (clearAll st)
  else if holdDuration >? lit 200 then
    let progress := holdDuration / cfg.(GESTURE).(FIST_HOLD_TIME) in
    showStatus (AirCanvas.MsgClearing (progress * lit 100)) false st
  else st.

Definition handleSwipe (position : Point2D num) (st : t) : t :=
  match ObjectManager.getObjectAtPosition (objectManager st)
          position.(x) position.(y) with
  | Some hitObject =>
      set_objectManager (ObjectManager.removeObject (objectManager st) hitObject) st
  | None => st
  end.

Definition handleGesture (state : GestureState num)
    (landmarks : HandLandmarks num) (now : num) (st : t) : t :=
  let indexTip := GestureDetector.getIndexTip st.(gestureDetector) landmarks in
  let st :=
    match state.(current) with
    | draw => handleDraw indexTip st
    | pinch => handlePinch landmarks st
    | palm => handlePalm now st
    | fist => handleFist now st
    | swipe => handleSwipe indexTip st
    | none => releaseGrabbed st
    end in
  match st.(lastGestureState) with
  | Some last =>
      if negb (GestureKind_eqb state.(current) last.(current)) then
        set_fistHoldStart (lit 0) (set_palmHoldStart (lit 0) st)
      else st
  | None => st
  end.

Definition onHandResults (landmarks : option (HandLandmarks num)) (now : num)
    (st : t) : t :=
  let wasDetected := st.(handDetected) in
  let st := set_handDetected (match landmarks with Some _ => true | None => false end) st in
  let st := set_currentLandmarks landmarks st in
  let st :=
    if (negb st.(handDetected) && wasDetected)%bool
    then showStatus AirCanvas.MsgShowHand false st
    else if (st.(handDetected) && negb wasDetected)%bool then hideStatus st
    else st in
  match landmarks with
  | None =>
      if st.(core).(AirCanvasSwatches.isDrawing)
      then set_core (AirCanvasSwatches.set_isDrawing false st.(core)) st
      else st
  | Some lm =>
      let (gestureState, gd) := GestureDetector.detect st.(gestureDetector) lm in
      let st := set_gestureDetector gd st in
      let st := handleGesture gestureState lm now st in
      set_lastGestureState (Some gestureState) st
  end.

(** *** The event loop *)

Inductive Event : Type :=
| HandResults (landmarks : option (HandLandmarks num)) (now : num)
| AnimationFrame (now : num)
| CreationSettled (i : nat)
| ClearSettled
| SwatchClick (dataColor : option string)
| MouseDown (clientX clientY : num)
| MouseMove (clientX clientY : num)
| MouseUp                       (* mouseup, mouseleave, touchend *)
| Wheel (deltaY : num)
| TouchStart (touches : list (num * num))
| TouchMove (touches : list (num * num))
| Click (clientX clientY : num).

Definition step (e : Event) (st : t) : t :=
  match e with
  | HandResults landmarks now => onHandResults landmarks now st
  | AnimationFrame now =>
      set_core (AirCanvasSwatches.animationFrame cfg now st.(core)) st
  | CreationSettled i => set_core (AirCanvasSwatches.creationSettled i st.(core)) st
  | ClearSettled =>
      match st.(clearing) with
      | S n => clearAllSettled (set_clearing n st)
      | O => st
      end
  | SwatchClick dataColor =>
      set_core (AirCanvasSwatches.onSwatchClick dataColor st.(core)) st
  | MouseDown cx cy => onMouseDown cx cy st
  | MouseMove cx cy => onMouseMove cx cy st
  | MouseUp => onMouseUp st
  | Wheel d => onWheel d st
  | TouchStart ts => onTouchStart ts st
  | TouchMove ts => onTouchMove ts st
  | Click cx cy => onSceneClick cx cy st
  end.

Definition run (events : list Event) (st : t) : t :=
  List.fold_left (fun s e => step e s) events st.

(** The grab and the pinch position go together, and an object is
    selected only during a drag. *)
Definition inputInv (st : t) : Prop :=
  (st.(grabbedObject) = None <-> st.(lastPinchPosition) = None) /\
  (st.(selectedObject) <> None -> st.(isDragging) = true).

(** The turns of a drag that began at [(x0, y0)]: one per pointer
    position, by the step from the position before. *)
Fixpoint turns (scale : num) (x0 y0 : num) (positions : list (num * num))
    : list (num * num) :=
  match positions with
  | [] => []
  | (x1, y1) :: rest =>
      ((x1 - x0) * scale, (y1 - y0) * scale) :: turns scale x1 y1 rest
  end.

End Interpreter.
End AirCanvasInput.

(** Stand-ins for the camera and for [selectObject], and a state of the
    revision with the swatches: one object around (100, 100), at rest. *)
Module InputRuns.
Import AirCanvasInput.

Section Collaborators.
Context {num : Type} {N : Number num}.

(** Modelled from the spec: [scene3D.ts] of this revision is not among
    the sources.  A stand-in for the runs below, which adds up what it is
    asked: azimuth, elevation, zoom. *)
#[global] Instance turntable : Scene3D.Camera num (num * num * num) := {
  orbitCamera sc deltaX deltaY :=
    let '(a, e, z) := sc in (add a deltaX, add e deltaY, z);
  zoomCamera sc delta :=
    let '(a, e, z) := sc in (a, e, add z delta)
}.

#[global] Instance selection : ObjectSelection.ObjectSelection (list (Demo.Box num)) nat := {
  selectObject om _ := om
}.

Definition atRest : AirCanvasInput.t (num := num) (OM := list (Demo.Box num))
                      (Obj := nat) (GD := list GestureKind)
                      (SC := num * num * num) :=
  create [pinch; pinch] (lit 0, lit 0, lit 0)
    [Demo.boxAround 1 (Demo.pt (lit 100) (lit 100))].

End Collaborators.
End InputRuns.

(** The order facts the closing animation relies on: [Math.min] never
    returns more than its second argument, and capping at 1 keeps the
    order.  Both hold for IEEE doubles (NaN included) and for the
    reals. *)
Class ProgressOrder (num : Type) {N : Number num} : Prop := {
  min_not_above : forall a b : num, ltb b (min a b) = false;
  min_one_mono : forall a b : num,
    leb a b = true -> leb (min a (lit 1)) (min b (lit 1)) = true
}.
Arguments ProgressOrder num {N}.

(** Case analysis on whatever the goal branches on. *)
Ltac branch :=
  repeat match goal with
         | |- context [match ?c with _ => _ end] => destruct c eqn:?; cbn
         | |- context [if ?c then _ else _] => destruct c eqn:?; cbn
         end.

(** * Properties *)


(** ** Both number systems satisfy the order laws *)

Lemma SFcompare_antisym (a b : spec_float) :
  SFcompare b a =
  match SFcompare a b with Some c => Some (CompOpp c) | None => None end.
Proof.
  destruct a as [sa|sa| |sa ma ea], b as [sb|sb| |sb mb eb]; simpl;
    try reflexivity; try (destruct sa; reflexivity);
    try (destruct sb; reflexivity); try (destruct sa, sb; reflexivity).
  destruct sa, sb; simpl; try reflexivity;
    rewrite (Z.compare_antisym ea eb); destruct (ea ?= eb)%Z; simpl;
    try reflexivity; rewrite (Pos.compare_cont_antisym ma mb Eq); simpl;
    try reflexivity; destruct (Pos.compare_cont Eq ma mb); reflexivity.
Qed.

Lemma float_leb_not_ltb (a b : float) :
  PrimFloat.leb a b = true -> PrimFloat.ltb b a = false.
Proof.
  rewrite leb_spec, ltb_spec. unfold SFleb, SFltb.
  rewrite (SFcompare_antisym (Prim2SF a) (Prim2SF b)).
  destruct (SFcompare (Prim2SF a) (Prim2SF b)) as [[]|]; simpl; congruence.
Qed.

Lemma SF64sub_diag (s : spec_float) :
  SF64sub s s = S754_nan \/ exists z, SF64sub s s = S754_zero z.
Proof.
  destruct s as [z|i| |sg m e]; simpl.
  - right. destruct z; eexists; reflexivity.
  - left. destruct i; reflexivity.
  - left. reflexivity.
  - right. unfold SF64sub, SFsub. rewrite Z.sub_diag. simpl.
    eexists. reflexivity.
Qed.

Lemma float_sub_diag_below (h t : float) :
  PrimFloat.ltb (float_lit 0) h = true ->
  PrimFloat.leb h (PrimFloat.sub t t) = false.
Proof.
  rewrite leb_spec, ltb_spec, sub_spec.
  replace (Prim2SF (float_lit 0)) with (S754_zero false)
    by (vm_compute; reflexivity).
  unfold SFleb, SFltb.
  destruct (SF64sub_diag (Prim2SF t)) as [-> | [z ->]].
  - destruct (Prim2SF h); reflexivity.
  - destruct (Prim2SF h) as [zh|ih| |sh mh eh]; simpl; try congruence.
    + destruct ih; congruence.
    + destruct sh; congruence.
Qed.

#[export] Instance float_NumberOrder : NumberOrder float.
Proof.
  split.
  - vm_compute. reflexivity.
  - exact float_leb_not_ltb.
  - exact float_sub_diag_below.
Qed.

#[export] Instance R_NumberOrder : NumberOrder R.
Proof.
  split; simpl; unfold Rltb, Rleb, Reqb.
  - destruct (Req_dec_T 0 0); congruence.
  - intros a b. destruct (Rle_dec a b), (Rlt_dec b a); try congruence; lra.
  - intros h t. destruct (Rlt_dec 0 h), (Rle_dec h (t - t)); try congruence; lra.
Qed.

(** ** The stroke store *)

Section StoreFacts.
Context {num : Type} {N : Number num}.
Variable cfg : Constants num.

Import DrawingCanvas.
Local Open Scope num_scope.

Lemma sumSegments_fold (rest : list (Point2D num)) :
  forall (acc : num) (p : Point2D num),
    sumSegments acc p rest
    = List.fold_left add (segmentLengths (p :: rest)) acc.
Proof.
  induction rest as [|q rest IH]; intros acc p.
  - reflexivity.
  - simpl sumSegments. rewrite IH. reflexivity.
Qed.

(** The loop of [calculateStrokeLength] computes the path length. *)
Lemma calculateStrokeLength_pathLength (dc : t) (s : Stroke num) :
  dc.(currentStroke) = Some s ->
  calculateStrokeLength dc = pathLength s.(points).
Proof.
  intros H. unfold calculateStrokeLength, pathLength. rewrite H.
  destruct (points s) as [|p [|q rest]]; try reflexivity.
  apply sumSegments_fold.
Qed.


(** C1. A stroke whose path length is below the minimum stroke length, or
    that has at most two points, is not closed: [closeStroke] returns
    null, the store is left without a current stroke, and the completed
    strokes are what they were. *)
Theorem closeStroke_rejects_short_stroke (dc : t) (s : Stroke num) :
  dc.(currentStroke) = Some s ->
  (pathLength s.(points) <? cfg.(GESTURE).(MIN_STROKE_LENGTH)) = true
  \/ List.length s.(points) <= 2 ->
  fst (closeStroke cfg dc) = None /\
  (snd (closeStroke cfg dc)).(currentStroke) = None /\
  (snd (closeStroke cfg dc)).(completedStrokes) = dc.(completedStrokes).
Proof.
  intros Hcur Hshort. unfold closeStroke.
  rewrite (calculateStrokeLength_pathLength dc Hcur), Hcur.
  destruct (pathLength (points s) <? MIN_STROKE_LENGTH (GESTURE cfg)) eqn:Hlen.
  - simpl. auto.
  - destruct Hshort as [Hlt | Hcount]; [discriminate|].
    destruct (Nat.ltb_spec 2 (List.length (points s))) as [Hgt | _]; [lia|].
    simpl. auto.
Qed.

(** C10, the three revisions of [addPoint]: with no stroke in progress
    the call returns and the whole store is as before (the live and
    smoothed positions included), whatever the point. *)
Theorem addPoint_without_stroke_is_noop (point : Point2D num) :
  (forall dc : t,
      dc.(currentStroke) = None -> addPoint cfg point dc = dc) /\
  (forall dc : t,
      dc.(currentStroke) = None ->
      DrawingCanvasSmoothing.addPoint cfg point dc = dc) /\
  (forall dc : DrawingCanvasLive.t,
      dc.(DrawingCanvasLive.store).(currentStroke) = None ->
      DrawingCanvasLive.addPoint cfg point dc = dc).
Proof.
  repeat split; intros dc H.
  - unfold addPoint. rewrite H. reflexivity.
  - unfold DrawingCanvasSmoothing.addPoint. rewrite H. reflexivity.
  - unfold DrawingCanvasLive.addPoint. rewrite H. reflexivity.
Qed.

(** *** Heap discipline of the completed list *)

Lemma spliceFirst_subset (r : nat) (l : list (StrokeObj num)) (s : StrokeObj num) :
  In s (spliceFirst r l) -> In s l.
Proof.
  induction l as [|a l IH]; simpl; [tauto|].
  destruct (Nat.eqb (ref a) r); simpl; intuition.
Qed.

Lemma spliceFirst_other (r : nat) (l : list (StrokeObj num)) (s : StrokeObj num) :
  s.(ref) <> r -> In s l -> In s (spliceFirst r l).
Proof.
  intros Hne. induction l as [|a l IH]; simpl; [tauto|].
  intros [-> | Hin].
  - destruct (Nat.eqb_spec (ref s) r); [contradiction|]. left. reflexivity.
  - destruct (Nat.eqb (ref a) r); [assumption|]. right. auto.
Qed.

Lemma spliceFirst_refs (r : nat) (l : list (StrokeObj num)) (n : nat) :
  In n (List.map (@ref num) (spliceFirst r l)) -> In n (List.map (@ref num) l).
Proof.
  rewrite !in_map_iff. intros [s [<- Hin]].
  exists s. split; [reflexivity|]. eapply spliceFirst_subset; eassumption.
Qed.

Lemma spliceFirst_NoDup (r : nat) (l : list (StrokeObj num)) :
  NoDup (List.map (@ref num) l) -> NoDup (List.map (@ref num) (spliceFirst r l)).
Proof.
  induction l as [|a l IH]; simpl; intros Hnd; [constructor|].
  inversion Hnd as [|? ? Hnotin Hnd']; subst.
  destruct (Nat.eqb (ref a) r); [assumption|].
  simpl. constructor; [|auto].
  intros Hin. apply Hnotin. eapply spliceFirst_refs; eassumption.
Qed.

(** Removing an object by reference leaves no object with that
    reference, as long as references are not repeated. *)
Lemma spliceFirst_gone (r : nat) (l : list (StrokeObj num)) (s : StrokeObj num) :
  NoDup (List.map (@ref num) l) -> s.(ref) = r -> ~ In s (spliceFirst r l).
Proof.
  intros Hnd Hr. induction l as [|a l IH]; simpl; [tauto|].
  inversion Hnd as [|? ? Hnotin Hnd']; subst.
  destruct (Nat.eqb_spec (ref a) (ref s)) as [Heq | Hne].
  - intros Hin. apply Hnotin. rewrite Heq. apply in_map. assumption.
  - intros [-> | Hin]; [congruence|]. apply IH; assumption.
Qed.

Lemma wf_empty : wf (empty (num := num)).
Proof. split; simpl; constructor. Qed.

Lemma wf_closeStroke (dc : t) : wf dc -> wf (snd (closeStroke cfg dc)).
Proof.
  intros [Hnd Hlt]. unfold closeStroke.
  destruct (currentStroke dc) as [s|]; [|split; assumption].
  destruct (_ <? _); [split; assumption|].
  destruct (Nat.ltb 2 _); [|split; assumption].
  split; simpl.
  - rewrite map_app. simpl. apply NoDup_app; [assumption|repeat constructor; simpl; tauto|].
    intros n Hin [<- | []].
    rewrite in_map_iff in Hin. destruct Hin as [s' [Heq Hin]].
    rewrite Forall_forall in Hlt. specialize (Hlt s' Hin). lia.
  - apply Forall_app. split.
    + eapply Forall_impl; [|exact Hlt]. simpl. intros; lia.
    + repeat constructor.
Qed.

Lemma wf_applyOp (o : Op (num := num)) (dc : t) : wf dc -> wf (applyOp cfg o dc).
Proof.
  intros Hwf. destruct o; cbn [applyOp].
  - destruct Hwf. split; assumption.
  - unfold addPoint. destruct (currentStroke dc); [|assumption].
    destruct (lastPoint s); [|assumption].
    destruct (_ >=? _); [|assumption]. destruct Hwf; split; assumption.
  - assumption.
  - apply wf_closeStroke; assumption.
  - destruct Hwf; split; assumption.
  - destruct Hwf as [Hnd Hlt]. split; simpl.
    + apply spliceFirst_NoDup; assumption.
    + rewrite Forall_forall in *. intros s' Hin.
      apply Hlt. eapply spliceFirst_subset; eassumption.
  - split; simpl; constructor.
  - assumption.
Qed.

Lemma wf_runOps (ops : list (Op (num := num))) :
  forall dc : t, wf dc -> wf (runOps cfg ops dc).
Proof.
  induction ops as [|o ops IH]; intros dc Hwf; simpl; [assumption|].
  apply IH. apply wf_applyOp. assumption.
Qed.

(** An operation other than [clearAll] and the removal of that very
    object keeps a completed stroke in the list. *)
Lemma applyOp_keeps (stroke : StrokeObj num) (o : Op) (dc : t) :
  removes stroke o = false ->
  In stroke dc.(completedStrokes) ->
  In stroke (applyOp cfg o dc).(completedStrokes).
Proof.
  intros Hrm Hin. destruct o; simpl in *; try assumption; try discriminate.
  - unfold addPoint. destruct (currentStroke dc); [|assumption].
    destruct (lastPoint s); [|assumption].
    destruct (_ >=? _); assumption.
  - unfold closeStroke. destruct (currentStroke dc); [|assumption].
    destruct (_ <? _); [assumption|].
    destruct (Nat.ltb 2 _); [|assumption].
    simpl. apply in_or_app. left. assumption.
  - apply spliceFirst_other; [|assumption].
    apply Nat.eqb_neq in Hrm. congruence.
Qed.

Lemma runOps_keeps (stroke : StrokeObj num) (ops : list Op) :
  forall dc : t,
    List.forallb (fun o => negb (removes stroke o)) ops = true ->
    In stroke dc.(completedStrokes) ->
    In stroke (runOps cfg ops dc).(completedStrokes).
Proof.
  induction ops as [|o ops IH]; intros dc Hops Hin; simpl in *; [assumption|].
  apply andb_prop in Hops. destruct Hops as [Ho Hops].
  apply IH; [assumption|]. apply applyOp_keeps; [|assumption].
  destruct (removes stroke o); [discriminate|reflexivity].
Qed.

(** C5, amended.  A stroke with more than two points and a path length of
    at least the threshold is closed: [closeStroke] returns it with
    [closed = true], it is in the completed list and the current stroke
    is cleared.  It stays in the list through every operation other than
    [removeCompletedStroke] with that same object and [clearAll], and
    [removeCompletedStroke] with it takes it out and no other stroke.
    ([wf] holds of every store the operations build: [wf_empty],
    [wf_runOps].) *)
Theorem closeStroke_valid_stroke_lifetime {NO : NumberOrder num}
    (dc : t) (s : Stroke num) :
  wf dc ->
  dc.(currentStroke) = Some s ->
  2 < List.length s.(points) ->
  (pathLength s.(points) >=? cfg.(GESTURE).(MIN_STROKE_LENGTH)) = true ->
  exists stroke : StrokeObj num,
    closeStroke cfg dc
    = (Some stroke,
       {| currentStroke := None;
          completedStrokes := dc.(completedStrokes) ++ [stroke];
          nextRef := S dc.(nextRef) |}) /\
    stroke.(val).(closed) = true /\
    stroke.(val).(points) = s.(points) /\
    In stroke (snd (closeStroke cfg dc)).(completedStrokes) /\
    (snd (closeStroke cfg dc)).(currentStroke) = None /\
    forall ops : list Op,
      List.forallb (fun o => negb (removes stroke o)) ops = true ->
      let dc' := runOps cfg ops (snd (closeStroke cfg dc)) in
      In stroke dc'.(completedStrokes) /\
      ~ In stroke (removeCompletedStroke stroke dc').(completedStrokes) /\
      forall other : StrokeObj num,
        other.(ref) <> stroke.(ref) ->
        In other dc'.(completedStrokes) ->
        In other (removeCompletedStroke stroke dc').(completedStrokes).
Proof.
  intros Hwf Hcur Hcount Hlen.
  pose proof (wf_closeStroke Hwf) as Hwf'.
  revert Hwf'. unfold closeStroke.
  rewrite (calculateStrokeLength_pathLength dc Hcur), Hcur.
  rewrite (leb_not_ltb _ _ Hlen).
  destruct (Nat.ltb_spec 2 (List.length (points s))) as [_ | Hle]; [|lia].
  cbn [fst snd]. intros Hwf'.
  eexists. split; [reflexivity|]. cbn [val closed points currentStroke completedStrokes].
  repeat split.
  - apply in_or_app. right. left. reflexivity.
  - apply runOps_keeps; [assumption|].
    cbn. apply in_or_app. right. left. reflexivity.
  - apply spliceFirst_gone; [|reflexivity].
    apply (wf_runOps ops Hwf').
  - intros other Hne Hin. apply spliceFirst_other; assumption.
Qed.

(** *** Spacing of the stored points *)

Lemma spaced_push (pts : list (Point2D num)) (last point : Point2D num) :
  List.last (List.map Some pts) None = Some last ->
  (distance point last >=? cfg.(STROKE).(MIN_POINT_DISTANCE)) = true ->
  spaced cfg pts -> spaced cfg (pts ++ [point]).
Proof.
  induction pts as [|p [|q rest] IH]; intros Hlast Hd Hsp.
  - discriminate.
  - simpl in Hlast. injection Hlast as <-. simpl. auto.
  - destruct Hsp as [Hpq Hsp]. change ((p :: q :: rest) ++ [point])
      with (p :: (q :: rest) ++ [point]).
    split; [exact Hpq|]. apply IH; assumption.
Qed.

Lemma spacedStore_applyOp (o : Op (num := num)) (dc : t) :
  spacedStore cfg dc -> spacedStore cfg (applyOp cfg o dc).
Proof.
  intros [Hc Hd]. destruct o; cbn [applyOp].
  - split; [|exact Hd]. simpl. intros s [= <-]. simpl. split; [exact I|discriminate].
  - unfold addPoint. destruct (currentStroke dc) as [s|] eqn:Hs;
      [|split; [rewrite Hs|]; assumption].
    unfold lastPoint. destruct (List.last _ None) as [last|] eqn:Hl;
      [|split; [rewrite Hs|]; assumption].
    destruct (_ >=? _) eqn:Hdist; [|split; [rewrite Hs|]; assumption].
    split; [|exact Hd]. simpl. intros s' [= <-]. simpl.
    destruct (Hc s eq_refl) as [Hsp Hne]. split.
    + apply spaced_push with (last := last); assumption.
    + destruct (points s); discriminate.
  - split; assumption.
  - unfold closeStroke. destruct (currentStroke dc) as [s|] eqn:Hs;
      [|split; [cbn [snd]; rewrite Hs|]; assumption].
    destruct (_ <? _); [split; [discriminate|exact Hd]|].
    destruct (Nat.ltb 2 _); [|split; [discriminate|exact Hd]].
    split; [discriminate|]. cbn. intros stroke Hin.
    apply in_app_or in Hin. destruct Hin as [Hin | [<- | []]]; [auto|].
    simpl. apply (Hc s eq_refl).
  - split; [discriminate|exact Hd].
  - split; [exact Hc|]. simpl. intros stroke0 Hin.
    apply Hd. eapply spliceFirst_subset; eassumption.
  - split; [discriminate|]. simpl. tauto.
  - split; assumption.
Qed.

Lemma spacedStore_runOps (ops : list (Op (num := num))) :
  forall dc : t, spacedStore cfg dc -> spacedStore cfg (runOps cfg ops dc).
Proof.
  induction ops as [|o ops IH]; intros dc H; simpl; [assumption|].
  apply IH. apply spacedStore_applyOp. assumption.
Qed.

(** C6, amended.  With a stroke in progress, [addPoint] appends the raw
    point when its distance from the last stored point is at least the
    minimum spacing (equality included) and leaves the store as it is
    otherwise; so in every store built by the operations, consecutive
    points of every stroke are at least the minimum spacing apart. *)
Theorem addPoint_keeps_minimum_spacing :
  (forall (dc : t) (s : Stroke num) (last point : Point2D num),
      dc.(currentStroke) = Some s ->
      lastPoint s = Some last ->
      addPoint cfg point dc
      = if distance point last >=? cfg.(STROKE).(MIN_POINT_DISTANCE)
        then {| currentStroke := Some (pushPoint s point);
                completedStrokes := dc.(completedStrokes);
                nextRef := dc.(nextRef) |}
        else dc) /\
  (forall ops : list Op, spacedStore cfg (runOps cfg ops empty)).
Proof.
  split.
  - intros dc s last point Hs Hl. unfold addPoint. rewrite Hs, Hl. reflexivity.
  - intros ops. apply spacedStore_runOps. split; simpl; [discriminate|tauto].
Qed.

End StoreFacts.

(** ** The stroke store on concrete strokes (IEEE doubles) *)

Section StoreRunsFacts.
Import DrawingCanvas.
Local Open Scope float_scope.
Import StoreRuns.

Example triangle_current : triangle.(currentStroke) = Some triangleStroke.
Proof. vm_compute. reflexivity. Qed.

Example triangle_length : pathLength triangleStroke.(points) = 70.
Proof. vm_compute. reflexivity. Qed.

(** C1 on the dot: one point, length 0. *)
Lemma closeStroke_rejects_dot :
  fst (closeStroke Demo.cfg dot) = None /\
  (snd (closeStroke Demo.cfg dot)).(currentStroke) = None /\
  (snd (closeStroke Demo.cfg dot)).(completedStrokes) = dot.(completedStrokes).
Proof.
  apply (@closeStroke_rejects_short_stroke float _ Demo.cfg dot
           {| points := [Demo.pt 0 0]; color := "#FFB3BA";
              width := 4; closed := false |}).
  - reflexivity.
  - left. vm_compute. reflexivity.
Defined.

(** C5 on the triangle. *)
Lemma closeStroke_triangle_lifetime :
  exists stroke : StrokeObj float,
    closeStroke Demo.cfg triangle
    = (Some stroke,
       {| currentStroke := None;
          completedStrokes := triangle.(completedStrokes) ++ [stroke];
          nextRef := S triangle.(nextRef) |}) /\
    stroke.(val).(closed) = true /\
    stroke.(val).(points) = triangleStroke.(points) /\
    In stroke (snd (closeStroke Demo.cfg triangle)).(completedStrokes) /\
    (snd (closeStroke Demo.cfg triangle)).(currentStroke) = None /\
    forall ops : list Op,
      List.forallb (fun o => negb (removes stroke o)) ops = true ->
      let dc' := runOps Demo.cfg ops (snd (closeStroke Demo.cfg triangle)) in
      In stroke dc'.(completedStrokes) /\
      ~ In stroke (removeCompletedStroke stroke dc').(completedStrokes) /\
      forall other : StrokeObj float,
        other.(ref) <> stroke.(ref) ->
        In other dc'.(completedStrokes) ->
        In other (removeCompletedStroke stroke dc').(completedStrokes).
Proof.
  apply (@closeStroke_valid_stroke_lifetime float _ Demo.cfg _
           triangle triangleStroke).
  - apply wf_runOps. apply wf_empty.
  - vm_compute. reflexivity.
  - simpl. lia.
  - vm_compute. reflexivity.
Defined.

(** C5 as the specification words it fails: [clearAll] empties the
    completed list, and [removeCompletedStroke] was never called. *)
Lemma clearAll_drops_completed_stroke :
  closeStroke Demo.cfg triangle
  = (Some closedTriangle, snd (closeStroke Demo.cfg triangle)) /\
  In closedTriangle (snd (closeStroke Demo.cfg triangle)).(completedStrokes) /\
  ~ memberUntilRemoveCompletedStroke Demo.cfg
      (snd (closeStroke Demo.cfg triangle)) closedTriangle.
Proof.
  split; [vm_compute; reflexivity|].
  split; [vm_compute; left; reflexivity|].
  intros H. specialize (H [OpClearAll] eq_refl). vm_compute in H. exact H.
Qed.

(** C6 as the specification words it fails at the boundary: a point
    exactly the minimum spacing (2) from the last one does not exceed it
    and is appended all the same. *)
Lemma addPoint_at_minimum_spacing_appends :
  distance (Demo.pt 2 0) (Demo.pt 0 0) = Demo.cfg.(STROKE).(MIN_POINT_DISTANCE) /\
  (distance (Demo.pt 2 0) (Demo.pt 0 0)
   >? Demo.cfg.(STROKE).(MIN_POINT_DISTANCE))%num = false /\
  option_map (@points float) (addPoint Demo.cfg (Demo.pt 2 0) dot).(currentStroke)
  = Some [Demo.pt 0 0; Demo.pt 2 0].
Proof. repeat split; vm_compute; reflexivity. Qed.

End StoreRunsFacts.

(** ** The gesture interpreter *)

Section InterpreterFacts.
Context {num OM Obj GD : Type} {N : Number num}.
Context {OMI : ObjectManager.ObjectManager num OM Obj}.
Context {GDI : GestureDetector.GestureDetector num GD}.
Variable cfg : Constants num.

Import AirCanvas.
Local Open Scope num_scope.

Local Abbreviation state := (AirCanvas.t (num := num) (OM := OM) (Obj := Obj) (GD := GD)).


(** *** What the handlers leave alone *)

Lemma closeAndInflate_sameHold (now : num) (st : state) :
  sameHold st (closeAndInflate cfg now st).
Proof.
  destruct st. unfold sameHold, closeAndInflate, animateClosing, createBalloon,
    showStatus. cbn. branch; auto.
Qed.

Lemma clearAll_sameHold (st : state) : sameHold st (clearAll st).
Proof. destruct st. unfold sameHold, clearAll. cbn. auto. Qed.

(** A handler other than [handlePalm] and [handleFist] touches neither
    the timers nor the call history. *)
Lemma handleDraw_quiet (p : Point2D num) (st : state) :
  sameHold st (handleDraw cfg p st) /\ (handleDraw cfg p st).(calls) = st.(calls).
Proof. destruct st. unfold sameHold, handleDraw. cbn. branch; auto. Qed.

Lemma handlePinch_quiet (lm : HandLandmarks num) (st : state) :
  sameHold st (handlePinch lm st) /\ (handlePinch lm st).(calls) = st.(calls).
Proof. destruct st. unfold sameHold, handlePinch. cbn. branch; auto. Qed.

Lemma handleSwipe_quiet (p : Point2D num) (st : state) :
  sameHold st (handleSwipe p st) /\ (handleSwipe p st).(calls) = st.(calls).
Proof. destruct st. unfold sameHold, handleSwipe. cbn. branch; auto. Qed.

Lemma releaseGrabbed_quiet (st : state) :
  sameHold st (releaseGrabbed st) /\ (releaseGrabbed st).(calls) = st.(calls).
Proof. destruct st. unfold sameHold, releaseGrabbed. cbn. branch; auto. Qed.

(** [handlePalm]: the timer starts at this frame when it was unset; the
    closure fires when the time since the start has reached the hold
    time, and only then is anything called. *)
Lemma handlePalm_hold (gs : GestureState num) (now : num) (st : state) :
  let start := if st.(palmHoldStart) =? lit 0 then now else st.(palmHoldStart) in
  let st' := handlePalm cfg gs now st in
  st'.(fistHoldStart) = st.(fistHoldStart) /\
  st'.(lastGestureState) = st.(lastGestureState) /\
  (((now - start >=? cfg.(GESTURE).(PALM_HOLD_TIME)) = true /\
    st'.(palmHoldStart) = lit 0) \/
   ((now - start >=? cfg.(GESTURE).(PALM_HOLD_TIME)) = false /\
    st'.(palmHoldStart) = start /\ st'.(calls) = st.(calls))).
Proof.
  cbv zeta. unfold handlePalm.
  pose proof (releaseGrabbed_quiet st) as [[Hp [Hf Hl]] Hc].
  rewrite <- Hp, <- Hf, <- Hl, <- Hc.
  generalize (releaseGrabbed st). clear. intros st.
  destruct (palmHoldStart st =? lit 0) eqn:Hz.
  - assert (Hs : palmHoldStart (set_palmHoldStart now st) = now)
      by (destruct st; reflexivity).
    rewrite Hs.
    destruct (now - now >=? PALM_HOLD_TIME (GESTURE cfg)) eqn:Hh.
    + pose proof (closeAndInflate_sameHold now (set_palmHoldStart now st))
        as [_ [Hf Hl]].
      destruct (closeAndInflate cfg now (set_palmHoldStart now st)).
      destruct st. cbn in *. intuition congruence.
    + destruct st. cbn. intuition congruence.
  - destruct (now - palmHoldStart st >=? PALM_HOLD_TIME (GESTURE cfg)) eqn:Hh.
    + pose proof (closeAndInflate_sameHold now st) as [_ [Hf Hl]].
      destruct (closeAndInflate cfg now st). destruct st. cbn in *. intuition congruence.
    + intuition congruence.
Qed.

Lemma handleFist_hold (gs : GestureState num) (now : num) (st : state) :
  let start := if st.(fistHoldStart) =? lit 0 then now else st.(fistHoldStart) in
  let st' := handleFist cfg gs now st in
  st'.(palmHoldStart) = st.(palmHoldStart) /\
  st'.(lastGestureState) = st.(lastGestureState) /\
  (((now - start >=? cfg.(GESTURE).(FIST_HOLD_TIME)) = true /\
    st'.(fistHoldStart) = lit 0) \/
   ((now - start >=? cfg.(GESTURE).(FIST_HOLD_TIME)) = false /\
    st'.(fistHoldStart) = start /\ st'.(calls) = st.(calls))).
Proof.
  cbv zeta. unfold handleFist.
  destruct (fistHoldStart st =? lit 0) eqn:Hz.
  - assert (Hs : fistHoldStart (set_fistHoldStart now st) = now)
      by (destruct st; reflexivity).
    rewrite Hs.
    destruct (now - now >=? FIST_HOLD_TIME (GESTURE cfg)) eqn:Hh.
    + destruct st. cbn. intuition congruence.
    + destruct st. unfold showStatus. cbn. branch; intuition congruence.
  - destruct (now - fistHoldStart st >=? FIST_HOLD_TIME (GESTURE cfg)) eqn:Hh.
    + destruct st. cbn. intuition congruence.
    + destruct st. unfold showStatus. cbn. branch; intuition congruence.
Qed.

(** *** The hold timers against the tracked frames *)

Lemma GestureKind_eqb_eq (a b : GestureKind) :
  GestureKind_eqb a b = true <-> a = b.
Proof. destruct a, b; simpl; split; congruence. Qed.

Lemma heldSince_other (k k' : GestureKind) (now : num) (h : History) :
  k' <> k -> heldSince k ((k', now) :: h) = [].
Proof.
  intros Hne. simpl. destruct (GestureKind_eqb k' k) eqn:E; [|reflexivity].
  apply GestureKind_eqb_eq in E. contradiction.
Qed.

Lemma heldSince_same (k : GestureKind) (now : num) (h : History) :
  heldSince k ((k, now) :: h) = now :: heldSince k h.
Proof.
  simpl. destruct (GestureKind_eqb k k) eqn:E; [reflexivity|].
  assert (GestureKind_eqb k k = true) by (apply GestureKind_eqb_eq; reflexivity).
  congruence.
Qed.

(** When the newest tracked frame is not of kind [k], no hold of kind [k]
    is in progress. *)
Lemma holdInv_not_held (st : state) (h : History) (k : GestureKind) :
  holdInv st h ->
  (forall last, st.(lastGestureState) = Some last -> current last <> k) ->
  heldSince k h = [].
Proof.
  intros [_ [_ Hl]] Hne. destruct (lastGestureState st) as [g|].
  - destruct Hl as [t [h' ->]]. apply heldSince_other. apply Hne. reflexivity.
  - subst h. reflexivity.
Qed.

Lemma reset_timers_fields (st : state) :
  let st' := set_fistHoldStart (lit 0) (set_palmHoldStart (lit 0) st) in
  st'.(palmHoldStart) = lit 0 /\ st'.(fistHoldStart) = lit 0 /\
  st'.(lastGestureState) = st.(lastGestureState) /\ st'.(calls) = st.(calls).
Proof. destruct st. cbn. auto. Qed.

Section Holds.
Context {NO : NumberOrder num}.
Hypothesis palm_hold_positive : (lit 0 <? cfg.(GESTURE).(PALM_HOLD_TIME)) = true.
Hypothesis fist_hold_positive : (lit 0 <? cfg.(GESTURE).(FIST_HOLD_TIME)) = true.

(** The switch of [handleGesture], before the reset. *)
Lemma dispatch_hold (gs : GestureState num) (lm : HandLandmarks num)
    (now : num) (st : state) (h : History) :
  holdInv st h ->
  let k := current gs in
  let st1 :=
    match k with
    | draw => handleDraw cfg (GestureDetector.getIndexTip st.(gestureDetector) lm) st
    | pinch => handlePinch lm st
    | palm => handlePalm cfg gs now st
    | fist => handleFist cfg gs now st
    | swipe => handleSwipe (GestureDetector.getIndexTip st.(gestureDetector) lm) st
    | none => releaseGrabbed st
    end in
  st1.(lastGestureState) = st.(lastGestureState) /\
  ((st1.(palmHoldStart) =? lit 0) = false ->
   In st1.(palmHoldStart) (now :: heldSince palm h) /\ (k = palm \/ In st1.(palmHoldStart) (heldSince palm h))) /\
  ((st1.(fistHoldStart) =? lit 0) = false ->
   In st1.(fistHoldStart) (now :: heldSince fist h) /\ (k = fist \/ In st1.(fistHoldStart) (heldSince fist h))) /\
  (st1.(calls) = st.(calls) \/ heldLongEnough cfg k now h).
Proof.
  intros [Hp [Hf Hl]]. cbv zeta.
  assert (Hquiet : forall st1 : state,
             sameHold st st1 /\ st1.(calls) = st.(calls) ->
             st1.(lastGestureState) = st.(lastGestureState) /\
             ((st1.(palmHoldStart) =? lit 0) = false ->
              In st1.(palmHoldStart) (now :: heldSince palm h) /\
              (current gs = palm \/ In st1.(palmHoldStart) (heldSince palm h))) /\
             ((st1.(fistHoldStart) =? lit 0) = false ->
              In st1.(fistHoldStart) (now :: heldSince fist h) /\
              (current gs = fist \/ In st1.(fistHoldStart) (heldSince fist h))) /\
             (st1.(calls) = st.(calls) \/ heldLongEnough cfg (current gs) now h)).
  { intros st1 [[E1 [E2 E3]] E4]. rewrite E1, E2, E3.
    repeat split; auto; right; auto. }
  destruct (current gs) eqn:Hk.
  - apply Hquiet, releaseGrabbed_quiet.
  - apply Hquiet, handleDraw_quiet.
  - apply Hquiet, handlePinch_quiet.
  - pose proof (handlePalm_hold gs now st) as H. cbv zeta in H.
    destruct H as [E2 [E3 Hcase]]. rewrite E2, E3.
    split; [reflexivity|].
    split; [|split].
    + intros Hnz. destruct Hcase as [[_ E1] | [_ [E1 _]]]; rewrite E1 in *.
      * rewrite eqb_zero in Hnz. discriminate.
      * destruct (palmHoldStart st =? lit 0) eqn:Hz.
        -- split; [left; reflexivity|left; reflexivity].
        -- split; [right; auto|left; reflexivity].
    + intros Hnz. split; [right; auto|right; auto].
    + destruct Hcase as [[Hfire _] | [_ [_ E4]]]; [|left; assumption].
      right. left. split; [reflexivity|].
      destruct (palmHoldStart st =? lit 0) eqn:Hz.
      * rewrite (sub_diag_below _ now palm_hold_positive) in Hfire. discriminate.
      * exists (palmHoldStart st). auto.
  - pose proof (handleFist_hold gs now st) as H. cbv zeta in H.
    destruct H as [E1 [E3 Hcase]]. rewrite E1, E3.
    split; [reflexivity|].
    split; [|split].
    + intros Hnz. split; [right; auto|right; auto].
    + intros Hnz. destruct Hcase as [[_ E2] | [_ [E2 _]]]; rewrite E2 in *.
      * rewrite eqb_zero in Hnz. discriminate.
      * destruct (fistHoldStart st =? lit 0) eqn:Hz.
        -- split; [left; reflexivity|left; reflexivity].
        -- split; [right; auto|left; reflexivity].
    + destruct Hcase as [[Hfire _] | [_ [_ E4]]]; [|left; assumption].
      right. right. split; [reflexivity|].
      destruct (fistHoldStart st =? lit 0) eqn:Hz.
      * rewrite (sub_diag_below _ now fist_hold_positive) in Hfire. discriminate.
      * exists (fistHoldStart st). auto.
  - apply Hquiet, handleSwipe_quiet.
Qed.

Lemma handleGesture_hold (gs : GestureState num) (lm : HandLandmarks num)
    (now : num) (st : state) (h : History) :
  holdInv st h ->
  let k := current gs in
  let st' := handleGesture cfg gs lm now st in
  st'.(lastGestureState) = st.(lastGestureState) /\
  ((st'.(palmHoldStart) =? lit 0) = false ->
   In st'.(palmHoldStart) (heldSince palm ((k, now) :: h))) /\
  ((st'.(fistHoldStart) =? lit 0) = false ->
   In st'.(fistHoldStart) (heldSince fist ((k, now) :: h))) /\
  (st'.(calls) = st.(calls) \/ heldLongEnough cfg k now h) /\
  (forall last, st.(lastGestureState) = Some last -> current last <> k ->
                st'.(palmHoldStart) = lit 0 /\ st'.(fistHoldStart) = lit 0).
Proof.
  intros Hinv. cbv zeta.
  pose proof (dispatch_hold gs lm now Hinv) as H. cbv zeta in H.
  unfold handleGesture.
  match type of H with
  | lastGestureState ?s = _ /\ _ => set (st1 := s) in *
  end.
  destruct H as [El [Hp [Hf Hc]]].
  assert (Hheld : forall k0 T,
             (current gs = k0 \/ In T (heldSince k0 h)) ->
             In T (now :: heldSince k0 h) ->
             (forall last, st.(lastGestureState) = Some last ->
                           current last = current gs) ->
             In T (heldSince k0 ((current gs, now) :: h))).
  { intros k0 T Hor Hin Hsame.
    destruct (GestureKind_eqb (current gs) k0) eqn:E.
    - apply GestureKind_eqb_eq in E. subst k0. rewrite heldSince_same. exact Hin.
    - destruct Hor as [Hk | Hold].
      + apply GestureKind_eqb_eq in Hk. congruence.
      + rewrite (@holdInv_not_held st h k0 Hinv) in Hold; [destruct Hold|].
        intros last Hlast Hk. rewrite (Hsame last Hlast) in Hk.
        apply GestureKind_eqb_eq in Hk. congruence. }
  rewrite El. destruct (lastGestureState st) as [last|] eqn:Hlast.
  - destruct (GestureKind_eqb (current gs) (current last)) eqn:E; cbn [negb].
    + apply GestureKind_eqb_eq in E.
      assert (Hsame : forall last0, Some last = Some last0 ->
                                    current last0 = current gs)
        by (intros ? [= <-]; congruence).
      split; [exact El|]. split; [|split; [|split]].
      * intros Hnz. destruct (Hp Hnz). apply Hheld; assumption.
      * intros Hnz. destruct (Hf Hnz). apply Hheld; assumption.
      * exact Hc.
      * intros last0 [= <-] Hne. congruence.
    + pose proof (reset_timers_fields st1) as R. cbv zeta in R.
      destruct R as [R1 [R2 [R3 R4]]]. rewrite R1, R2, R3, R4.
      split; [exact El|]. split; [|split; [|split]].
      * rewrite eqb_zero. discriminate.
      * rewrite eqb_zero. discriminate.
      * exact Hc.
      * auto.
  - assert (Hsame : forall last0, @None (GestureState num) = Some last0 ->
                                  current last0 = current gs)
      by discriminate.
    split; [exact El|]. split; [|split; [|split]].
    + intros Hnz. destruct (Hp Hnz). apply Hheld; assumption.
    + intros Hnz. destruct (Hf Hnz). apply Hheld; assumption.
    + exact Hc.
    + discriminate.
Qed.

(** One tracked frame: the invariant goes on with the frame added, what
    is called was held long enough, and a change of kind unsets both
    timers. *)
Lemma onHandResults_hold (lm : HandLandmarks num) (now : num)
    (st : state) (h : History) :
  holdInv st h ->
  let k := current (fst (GestureDetector.detect st.(gestureDetector) lm)) in
  let st' := onHandResults cfg (Some lm) now st in
  holdInv st' ((k, now) :: h) /\
  (st'.(calls) = st.(calls) \/ heldLongEnough cfg k now h) /\
  (forall last, st.(lastGestureState) = Some last -> current last <> k ->
                st'.(palmHoldStart) = lit 0 /\ st'.(fistHoldStart) = lit 0).
Proof.
  intros Hinv. cbv zeta. unfold onHandResults.
  match goal with
  | |- context [GestureDetector.detect (gestureDetector ?s) lm] =>
      assert (Hpre : sameHold st s /\ s.(calls) = st.(calls) /\
                     s.(gestureDetector) = st.(gestureDetector))
        by (destruct st; unfold sameHold, showStatus, hideStatus; cbn;
            branch; auto);
      generalize dependent s
  end.
  intros s0 [[E1 [E2 E3]] [E4 E5]]. rewrite E5.
  destruct (GestureDetector.detect (gestureDetector st) lm) as [gs gd'] eqn:Hd.
  cbn [fst].
  assert (Hinv0 : holdInv (set_gestureDetector gd' s0) h).
  { destruct Hinv as [Hp [Hf Hl]]. destruct s0; cbn in *.
    unfold holdInv; cbn. rewrite E1, E2, E3. auto. }
  pose proof (handleGesture_hold gs lm now Hinv0) as H. cbv zeta in H.
  destruct H as [El [Hp [Hf [Hc Hz]]]].
  assert (Hs : forall s : state,
             (set_lastGestureState (Some gs) s).(palmHoldStart) = s.(palmHoldStart) /\
             (set_lastGestureState (Some gs) s).(fistHoldStart) = s.(fistHoldStart) /\
             (set_lastGestureState (Some gs) s).(calls) = s.(calls) /\
             (set_lastGestureState (Some gs) s).(lastGestureState) = Some gs)
    by (intros s; destruct s; cbn; auto).
  match goal with
  | |- context [set_lastGestureState (Some gs) ?s] =>
      destruct (Hs s) as [S1 [S2 [S3 S4]]]
  end.
  split; [|split].
  - unfold holdInv. rewrite S1, S2, S4. split; [exact Hp|]. split; [exact Hf|].
    eexists. eexists. reflexivity.
  - rewrite S3. destruct Hc as [Hc | Hc]; [left|right; exact Hc].
    rewrite Hc. destruct s0; cbn in *. assumption.
  - intros last Hlast Hne. rewrite S1, S2. apply (Hz last); [|assumption].
    destruct s0; cbn in *. congruence.
Qed.


(** *** The other callbacks leave the timers alone *)

Lemma sameHold_refl (st : state) : sameHold st st.
Proof. unfold sameHold. auto. Qed.

Lemma sameHold_trans (a b c : state) : sameHold a b -> sameHold b c -> sameHold a c.
Proof. unfold sameHold. intros [? [? ?]] [? [? ?]]. repeat split; congruence. Qed.

Lemma animateClosing_sameHold (stroke : StrokeObj num) (start now : num) (st : state) :
  sameHold st (animateClosing cfg stroke start now st).
Proof.
  destruct st. unfold sameHold, animateClosing, createBalloon. cbn. branch; auto.
Qed.

Lemma animationFrame_sameHold (now : num) (st : state) :
  sameHold st (animationFrame cfg now st).
Proof.
  unfold animationFrame.
  assert (H0 : sameHold st (set_closing [] (animate now st)))
    by (destruct st; unfold sameHold, animate; cbn; auto).
  revert H0. generalize (set_closing [] (animate now st)).
  generalize (closing (animate now st)).
  intros pending. induction pending as [|a pending IH]; intros s Hs; simpl.
  - exact Hs.
  - apply IH. eapply sameHold_trans; [exact Hs|]. apply animateClosing_sameHold.
Qed.

Lemma step_sameHold (e : Event) (st : state) :
  tracked e st = [] -> sameHold st (step cfg e st).
Proof.
  destruct e as [[lm|] now | now | i | | ]; cbn [tracked step]; intros Ht.
  - discriminate.
  - destruct st. unfold sameHold, onHandResults, showStatus, hideStatus. cbn.
    branch; auto.
  - apply animationFrame_sameHold.
  - destruct (nth_error (creating st) i) as [[stroke resolved]|]; [|apply sameHold_refl].
    destruct st. unfold sameHold, createBalloonSettled, showStatus. cbn.
    branch; auto.
  - destruct st. unfold sameHold, clearAllSettled. cbn. branch; auto.
  - destruct st. unfold sameHold, hideStatus. cbn. branch; auto.
Qed.

Lemma holdInv_sameHold (st st' : state) (h : History) :
  sameHold st st' -> holdInv st h -> holdInv st' h.
Proof.
  unfold sameHold, holdInv. intros [-> [-> ->]]. auto.
Qed.

Lemma holdInv_create (gd : GD) (om : OM) :
  holdInv (create cfg gd om : state) [].
Proof.
  unfold holdInv, create, updateColorIndicator. cbn.
  rewrite eqb_zero. repeat split; discriminate.
Qed.

Lemma stepH_hold (e : Event) (st : state) (h : History) :
  holdInv st h ->
  holdInv (fst (stepH cfg e (st, h))) (snd (stepH cfg e (st, h))).
Proof.
  intros Hinv. unfold stepH. cbn [fst snd].
  destruct (tracked e st) as [|f l] eqn:Ht.
  - apply holdInv_sameHold with (st := st); [|exact Hinv].
    apply step_sameHold. exact Ht.
  - destruct e as [[lm|] now | now | i | | ]; try discriminate.
    cbn in Ht. injection Ht as <- <-. cbn [step app].
    apply (onHandResults_hold lm now Hinv).
Qed.

Lemma runH_hold (events : list Event) :
  forall (st : state) (h : History),
    holdInv st h ->
    holdInv (fst (runH cfg events (st, h))) (snd (runH cfg events (st, h))).
Proof.
  induction events as [|e events IH]; intros st h Hinv; [exact Hinv|].
  cbn [runH fold_left].
  pose proof (stepH_hold e Hinv) as H.
  destruct (stepH cfg e (st, h)) as [st1 h1]. apply IH. exact H.
Qed.

(** [runH] runs the interpreter as [run] does; the history rides along. *)
Lemma runH_run (events : list Event) :
  forall (st : state) (h : History),
    fst (runH cfg events (st, h)) = run cfg events st.
Proof.
  induction events as [|e events IH]; intros st h; [reflexivity|].
  cbn [runH run fold_left]. unfold stepH at 2. cbn [fst snd]. apply IH.
Qed.

(** The frame after any state that satisfies the invariant. *)
Lemma tracked_frame_hold (st : state) (h : History)
    (lm : HandLandmarks num) (now : num) :
  holdInv st h ->
  let k := current (fst (GestureDetector.detect st.(gestureDetector) lm)) in
  let st' := step cfg (HandResults (Some lm) now) st in
  (forall last, st.(lastGestureState) = Some last -> current last <> k ->
                st'.(palmHoldStart) = lit 0 /\ st'.(fistHoldStart) = lit 0 /\
                st'.(calls) = st.(calls)) /\
  (st'.(calls) <> st.(calls) -> heldLongEnough cfg k now h).
Proof.
  intros Hinv. cbv zeta.
  pose proof (onHandResults_hold lm now Hinv) as H. cbv zeta in H.
  destruct H as [_ [Hc Hz]]. cbn [step]. split.
  - intros last Hlast Hne. destruct (Hz last Hlast Hne) as [Z1 Z2].
    split; [exact Z1|]. split; [exact Z2|].
    destruct Hc as [Hc | Hheld]; [exact Hc|].
    assert (Hnone : forall k0, k0 = current (fst (GestureDetector.detect (gestureDetector st) lm)) ->
                               heldSince k0 h = []).
    { intros k0 ->. apply (holdInv_not_held (st := st)); [exact Hinv|].
      intros last0 Hl0. rewrite Hlast in Hl0. injection Hl0 as <-. exact Hne. }
    destruct Hheld as [[Hk [T [Hin _]]] | [Hk [T [Hin _]]]];
      rewrite (Hnone _ (eq_sym Hk)) in Hin; destruct Hin.
  - intros Hneq. destruct Hc as [Hc | Hheld]; [contradiction|exact Hheld].
Qed.

(** C4.  In every run of the interpreter, take the next tracked frame.
    If its gesture kind differs from the kind of the tracked frame
    before it, both hold timers are unset after the frame and nothing is
    called on it.  And whatever frame does call the closure or the
    clear-all is a palm, respectively a fist, frame whose gesture has
    been held, with no other kind in between, since a frame at least the
    hold time earlier: a hold that a change of kind interrupts never
    fires. *)
Theorem hold_interrupted_never_fires (gd : GD) (om : OM) (events : list Event)
    (lm : HandLandmarks num) (now : num) :
  let st := fst (runH cfg events (create cfg gd om, [])) in
  let h := snd (runH cfg events (create cfg gd om, [])) in
  let k := current (fst (GestureDetector.detect st.(gestureDetector) lm)) in
  let st' := step cfg (HandResults (Some lm) now) st in
  (forall last, st.(lastGestureState) = Some last -> current last <> k ->
                st'.(palmHoldStart) = lit 0 /\ st'.(fistHoldStart) = lit 0 /\
                st'.(calls) = st.(calls)) /\
  (st'.(calls) <> st.(calls) -> heldLongEnough cfg k now h).
Proof.
  cbv zeta. apply tracked_frame_hold. apply runH_hold. apply holdInv_create.
Qed.

End Holds.

(** *** The store of a running interpreter

    Every callback goes through the operations of the store, so the
    store of a running interpreter keeps its heap discipline. *)

Lemma renderClosingAnimation_same (stroke : StrokeObj num) (progress : num)
    (dc : DrawingCanvas.t) :
  DrawingCanvas.renderClosingAnimation stroke progress dc = dc.
Proof.
  unfold DrawingCanvas.renderClosingAnimation, DrawingCanvas.clear.
  destruct (Nat.ltb _ _); reflexivity.
Qed.

Lemma closeStroke_wf (dc dc' : DrawingCanvas.t) (o : option (StrokeObj num)) :
  DrawingCanvas.wf dc -> DrawingCanvas.closeStroke cfg dc = (o, dc') ->
  DrawingCanvas.wf dc'.
Proof.
  intros Hwf E. pose proof (wf_closeStroke cfg Hwf) as H.
  rewrite E in H. exact H.
Qed.

(** Closes the goals left once a callback is unfolded on an explicit
    state: each is the heap discipline of the store after one store
    operation. *)
Ltac store_op :=
  unfold storeWf in *; cbn in *;
  first
    [ assumption
    | rewrite renderClosingAnimation_same; assumption
    | eapply closeStroke_wf; eassumption
    | rewrite renderClosingAnimation_same; eapply closeStroke_wf; eassumption
    | apply (wf_applyOp cfg (DrawingCanvas.OpClearAll)); assumption
    | match goal with
      | |- DrawingCanvas.wf (DrawingCanvas.startStroke _ ?p ?c _) =>
          apply (wf_applyOp cfg (DrawingCanvas.OpStartStroke p c)); assumption
      | |- DrawingCanvas.wf (DrawingCanvas.addPoint _ ?p _) =>
          apply (wf_applyOp cfg (DrawingCanvas.OpAddPoint p)); assumption
      | |- DrawingCanvas.wf (DrawingCanvas.clear (DrawingCanvas.removeCompletedStroke ?s _)) =>
          apply (wf_applyOp cfg (DrawingCanvas.OpRemoveCompletedStroke s)); assumption
      end ].

Lemma animateClosing_storeWf (stroke : StrokeObj num) (start now : num) (st : state) :
  storeWf st -> storeWf (animateClosing cfg stroke start now st).
Proof.
  intros H. destruct st. unfold animateClosing, createBalloon. cbn.
  branch; store_op.
Qed.

Lemma onHandResults_storeWf (landmarks : option (HandLandmarks num)) (now : num)
    (st : state) :
  storeWf st -> storeWf (onHandResults cfg landmarks now st).
Proof.
  intros H. destruct st.
  unfold onHandResults, handleGesture, handleDraw, handlePinch, handlePalm,
    handleFist, handleSwipe, releaseGrabbed, closeAndInflate, clearAll,
    animateClosing, createBalloon, showStatus, hideStatus, updateObjectCounter.
  cbn. branch; store_op.
Qed.

Lemma step_storeWf (e : Event) (st : state) :
  storeWf st -> storeWf (step cfg e st).
Proof.
  intros H. destruct e as [lm now | now | i | | ]; cbn [step].
  - apply onHandResults_storeWf. exact H.
  - unfold animationFrame.
    assert (H0 : storeWf (set_closing [] (animate now st)))
      by (destruct st; unfold animate; cbn; store_op).
    revert H0. generalize (set_closing [] (animate now st)).
    generalize (closing (animate now st)).
    intros pending. induction pending as [|a pending IH]; intros s Hs; simpl.
    + exact Hs.
    + apply IH. apply animateClosing_storeWf. exact Hs.
  - destruct (nth_error (creating st) i) as [[stroke resolved]|]; [|exact H].
    destruct st. unfold createBalloonSettled, showStatus, updateObjectCounter,
      updateColorIndicator. cbn. branch; store_op.
  - destruct st. unfold clearAllSettled, hideStatus, updateObjectCounter. cbn.
    branch; store_op.
  - destruct st. unfold hideStatus. cbn. branch; store_op.
Qed.

Lemma run_storeWf (events : list Event) :
  forall st : state, storeWf st -> storeWf (run cfg events st).
Proof.
  induction events as [|e events IH]; intros st H; [exact H|].
  cbn [run fold_left]. apply IH. apply step_storeWf. exact H.
Qed.

Lemma create_storeWf (gd : GD) (om : OM) : storeWf (create cfg gd om : state).
Proof. unfold storeWf, create, updateColorIndicator. cbn. apply wf_empty. Qed.

(** *** Solidification *)

Local Abbreviation swatches :=
  (AirCanvasSwatches.t (num := num) (OM := OM)).


(** [createBalloon] makes the call and leaves the promise pending, marked
    with whether [createFromStroke] succeeds; the store is not touched
    before the promise settles. *)
Lemma createBalloon_pending (stroke : StrokeObj num) (st : state) :
  let st' := createBalloon stroke st in
  st'.(drawingCanvas) = st.(drawingCanvas) /\
  st'.(currentColorIndex) = st.(currentColorIndex) /\
  st'.(creating)
  = st.(creating)
    ++ [(stroke,
         match ObjectManager.createFromStroke st.(objectManager) stroke with
         | Some _ => true
         | None => false
         end)].
Proof. destruct st. unfold createBalloon. cbn. branch; auto. Qed.

(** In this revision a rejected promise leaves the store as it is: the
    stroke is still in the completed list. *)
Lemma createBalloonSettled_rejected (stroke : StrokeObj num) (st : state) :
  (createBalloonSettled cfg stroke false st).(drawingCanvas) = st.(drawingCanvas) /\
  (createBalloonSettled cfg stroke false st).(statusText) = MsgFailed /\
  (createBalloonSettled cfg stroke false st).(statusVisible) = true.
Proof. destruct st. cbn. auto. Qed.

(** In the revision with swatches the stroke has left the store when
    [createBalloon] reaches its [await], whatever the promise does
    later. *)
Lemma swatches_createBalloon_removes_first (stroke : StrokeObj num)
    (resolved : bool) (st : swatches) :
  DrawingCanvas.wf st.(AirCanvasSwatches.drawingCanvas) ->
  let st1 := AirCanvasSwatches.createBalloon stroke st in
  let st2 := AirCanvasSwatches.createBalloonSettled stroke resolved st1 in
  ~ In stroke st1.(AirCanvasSwatches.drawingCanvas).(DrawingCanvas.completedStrokes) /\
  st2.(AirCanvasSwatches.drawingCanvas) = st1.(AirCanvasSwatches.drawingCanvas) /\
  st2.(AirCanvasSwatches.currentColor) = st.(AirCanvasSwatches.currentColor).
Proof.
  intros [Hnd _]. destruct st as [dc om stx stv isd col lft clo cre hid].
  unfold AirCanvasSwatches.createBalloon, AirCanvasSwatches.createBalloonSettled,
    AirCanvasSwatches.showStatus. cbn in *.
  destruct (ObjectManager.createFromStroke om stroke);
    destruct resolved; cbn; repeat split; auto;
    apply spliceFirst_gone; auto.
Qed.

(** C7, amended.  With a palette that is not empty: when the promise of
    [createFromStroke] resolves, the interpreter with the cyclic palette
    takes the stroke out of the store and moves the colour index to
    (old + 1) mod the palette length, with the indicator showing that
    entry; the interpreter with swatches has taken the stroke out
    already and leaves the active colour as the user picked it.  (The
    store of a running interpreter is [wf]: [create_storeWf],
    [run_storeWf].) *)
Theorem solidified_stroke_leaves_store (Hpalette : cfg.(COLOR_ARRAY) <> []) :
  (forall (st : state) (i : nat) (stroke : StrokeObj num),
      List.nth_error st.(creating) i = Some (stroke, true) ->
      DrawingCanvas.wf st.(drawingCanvas) ->
      let st' := step cfg (CreationSettled i) st in
      ~ In stroke st'.(drawingCanvas).(DrawingCanvas.completedStrokes) /\
      st'.(currentColorIndex)
      = Nat.modulo (st.(currentColorIndex) + 1) (List.length cfg.(COLOR_ARRAY)) /\
      st'.(currentColorIndex) < List.length cfg.(COLOR_ARRAY) /\
      st'.(colorIndicator)
      = List.nth_error cfg.(COLOR_ARRAY) st'.(currentColorIndex)) /\
  (forall (st : swatches) (stroke : StrokeObj num),
      DrawingCanvas.wf st.(AirCanvasSwatches.drawingCanvas) ->
      let st1 := AirCanvasSwatches.createBalloon stroke st in
      let st2 := AirCanvasSwatches.createBalloonSettled stroke true st1 in
      ~ In stroke st2.(AirCanvasSwatches.drawingCanvas).(DrawingCanvas.completedStrokes) /\
      st2.(AirCanvasSwatches.currentColor) = st.(AirCanvasSwatches.currentColor)).
Proof.
  split.
  - intros st i stroke Hnth [Hnd _]. cbv zeta. cbn [step]. rewrite Hnth.
    assert (Hlen : List.length (COLOR_ARRAY cfg) <> 0)
      by (destruct (COLOR_ARRAY cfg); [contradiction|discriminate]).
    destruct st. unfold createBalloonSettled, updateObjectCounter,
      updateColorIndicator. cbn in *.
    repeat split.
    + apply spliceFirst_gone; auto.
    + apply Nat.mod_upper_bound. exact Hlen.
  - intros st stroke Hwf.
    pose proof (swatches_createBalloon_removes_first stroke true st Hwf) as H.
    cbv zeta in *. destruct H as [H1 [H2 H3]]. rewrite H2. auto.
Qed.

End InterpreterFacts.

(** ** The interpreter on concrete frames (IEEE doubles) *)

Section InterpreterRunsFacts.
Import AirCanvas.
Local Open Scope float_scope.
Local Abbreviation state :=
  (AirCanvas.t (num := float) (OM := list (Demo.Box float)) (Obj := nat)
     (GD := list GestureKind)).
Import InterpreterRuns.

(** *** A grabbed object and a draw gesture *)

(** C2 fails on this run.  The pinch grabs the object.  The draw gesture
    that follows hits no object, and it starts a stroke while the object
    is still grabbed: leaving the pinch did not release it. *)
Theorem draw_starts_stroke_while_grabbed :
  afterPinch.(grabbedObject) = Some 1%nat /\
  afterPinch.(isDrawing) = false /\
  afterPinch.(drawingCanvas).(DrawingCanvas.currentStroke) = None /\
  ObjectManager.getObjectAtPosition afterPinch.(objectManager) 300 300 = None /\
  afterDraw.(grabbedObject) = Some 1%nat /\
  afterDraw.(isDrawing) = true /\
  option_map (@points float) afterDraw.(drawingCanvas).(DrawingCanvas.currentStroke)
  = Some [Demo.pt 300 300].
Proof. repeat split; vm_compute; reflexivity. Qed.

(** *** Closing a stroke with a palm hold *)

(** The hold fires on the frame at 1700 ms, 600 ms after the timer
    started at 1100 ms (the palm frame at 1000 ms changed the kind, which
    unset it): the stroke is closed and its animation is pending. *)
Example palm_hold_closes_rectangle :
  closedRectangle.(calls) = [CallCloseAndInflate] /\
  closedRectangle.(closing) = [(rectangle, 1700)] /\
  closedRectangle.(drawingCanvas).(DrawingCanvas.completedStrokes) = [rectangle] /\
  closedRectangle.(drawingCanvas).(DrawingCanvas.currentStroke) = None /\
  closedRectangle.(palmHoldStart) = 0.
Proof. repeat split; vm_compute; reflexivity. Qed.

Example rectangle_handed_over :
  solidifying.(closing) = [] /\
  solidifying.(creating) = [(rectangle, true)] /\
  solidifying.(calls) = [CallCreateBalloon rectangle; CallCloseAndInflate] /\
  solidifying.(currentColorIndex) = 0%nat.
Proof. repeat split; vm_compute; reflexivity. Qed.

(** C7 on this run: the promise resolves. *)
Lemma rectangle_solidified :
  let st' := step Demo.cfg (CreationSettled 0) solidifying in
  ~ In rectangle st'.(drawingCanvas).(DrawingCanvas.completedStrokes) /\
  st'.(currentColorIndex) = Nat.modulo (0 + 1) 3 /\
  (st'.(currentColorIndex) < 3)%nat /\
  st'.(colorIndicator) = List.nth_error Demo.cfg.(COLOR_ARRAY) st'.(currentColorIndex).
Proof.
  refine (proj1 (@solidified_stroke_leaves_store float (list (Demo.Box float)) nat
                   (list GestureKind) _ _ _ Demo.cfg _)
            solidifying 0%nat rectangle _ _).
  - discriminate.
  - vm_compute. reflexivity.
  - vm_compute. split; repeat constructor; simpl; tauto.
Defined.

Example rectangle_solidified_state :
  let st' := step Demo.cfg (CreationSettled 0) solidifying in
  st'.(drawingCanvas).(DrawingCanvas.completedStrokes) = [] /\
  st'.(currentColorIndex) = 1%nat /\
  st'.(colorIndicator) = Some "#BAFFC9"%string /\
  st'.(objectCounter) = Some 1%nat.
Proof. repeat split; vm_compute; reflexivity. Qed.

(** *** A solidification that fails *)

(** C3 fails on this run of the interpreter with the cyclic palette: the
    promise was rejected, the failure is reported, and the stroke is
    still in the completed list. *)
Theorem rejected_solidification_leaves_stroke :
  rejected.(calls) = [CallCreateBalloon flat; CallCloseAndInflate] /\
  rejected.(creating) = [] /\
  rejected.(statusText) = MsgFailed /\
  rejected.(objectManager) = [] /\
  rejected.(drawingCanvas).(DrawingCanvas.completedStrokes) = [flat].
Proof. repeat split; vm_compute; reflexivity. Qed.

(** *** A fist held too briefly *)

(** C4 on the scenario of the specification: a fist for 300 ms, then no
    gesture. *)
Lemma brief_fist_never_clears :
  let st := fst (runH Demo.cfg briefFist (create Demo.cfg fistScript [], [])) in
  let st' := step Demo.cfg (frame 0 0 1400) st in
  st'.(palmHoldStart) = 0 /\ st'.(fistHoldStart) = 0 /\ st'.(calls) = st.(calls).
Proof.
  refine (proj1 (@hold_interrupted_never_fires float (list (Demo.Box float)) nat
                   (list GestureKind) _ _ _ Demo.cfg _ _ _
                   fistScript [] briefFist (Demo.handAt (Demo.pt 0 0)) 1400)
            (Demo.gesture fist) _ _).
  - vm_compute. reflexivity.
  - vm_compute. reflexivity.
  - vm_compute. reflexivity.
  - vm_compute. discriminate.
Defined.

Example brief_fist_state :
  let st := fst (runH Demo.cfg briefFist (create Demo.cfg fistScript [], [])) in
  st.(fistHoldStart) = 1000 /\ st.(calls) = [] /\
  (step Demo.cfg (frame 0 0 1400) st).(calls) = [].
Proof. repeat split; vm_compute; reflexivity. Qed.

End InterpreterRunsFacts.

(** ** The interpreter with swatches on a concrete stroke *)

Section SwatchesRunsFacts.
Import AirCanvasSwatches.
Local Open Scope float_scope.
Local Abbreviation state :=
  (AirCanvasSwatches.t (num := float) (OM := list (Demo.Box float))).
Import SwatchesRuns.

(** C7 as the specification words it fails here: the animation completed
    and solidification succeeded, the stroke left the store, and the
    active colour is still the first entry of the palette, not the
    next one. *)
Lemma swatches_colour_does_not_advance :
  (animationFrame Demo.cfg 2200 (closeAndInflate Demo.cfg 1700 drawn)).(creating)
  = [(StoreRuns.closedTriangle, true)] /\
  solidified.(objectManager) = [Demo.boxAround 0 (Demo.pt 0 0)] /\
  solidified.(drawingCanvas).(DrawingCanvas.completedStrokes) = [] /\
  drawn.(currentColor) = List.nth 0 Demo.cfg.(COLOR_ARRAY) EmptyString /\
  solidified.(currentColor) = drawn.(currentColor) /\
  solidified.(currentColor)
  <> List.nth (Nat.modulo (0 + 1) (List.length Demo.cfg.(COLOR_ARRAY)))
       Demo.cfg.(COLOR_ARRAY) EmptyString.
Proof.
  repeat split; try (vm_compute; reflexivity).
  vm_compute. discriminate.
Qed.

End SwatchesRunsFacts.

(** ** Further properties *)

Section MoreFacts.
Context {num OM Obj GD : Type} {N : Number num}.
Context {OMI : ObjectManager.ObjectManager num OM Obj}.
Context {GDI : GestureDetector.GestureDetector num GD}.
Variable cfg : Constants num.

Import AirCanvas.
Local Open Scope num_scope.

Local Abbreviation state := (AirCanvas.t (num := num) (OM := OM) (Obj := Obj) (GD := GD)).
Local Abbreviation swatches := (AirCanvasSwatches.t (num := num) (OM := OM)).

(** X1.  In the interpreter with swatches a solidification that fails
    leaves no stroke behind: the stroke left the store before the
    promise was awaited, and the rejection only reports the failure. *)
Theorem swatches_failure_leaves_no_stroke (st : swatches) (stroke : StrokeObj num) :
  DrawingCanvas.wf st.(AirCanvasSwatches.drawingCanvas) ->
  ObjectManager.createFromStroke st.(AirCanvasSwatches.objectManager) stroke = None ->
  let st1 := AirCanvasSwatches.createBalloon stroke st in
  let st2 := AirCanvasSwatches.creationSettled
               (List.length st.(AirCanvasSwatches.creating)) st1 in
  ~ In stroke st1.(AirCanvasSwatches.drawingCanvas).(DrawingCanvas.completedStrokes) /\
  ~ In stroke st2.(AirCanvasSwatches.drawingCanvas).(DrawingCanvas.completedStrokes) /\
  st2.(AirCanvasSwatches.statusText) = MsgFailed /\
  st2.(AirCanvasSwatches.statusVisible) = true /\
  st2.(AirCanvasSwatches.creating) = st.(AirCanvasSwatches.creating).
Proof.
  intros [Hnd _] Hfail. destruct st as [dc om stx stv isd col lft clo cre hid].
  assert (Hnth : List.nth_error (cre ++ [(stroke, false)]) (List.length cre)
                 = Some (stroke, false))
    by (rewrite nth_error_app2, Nat.sub_diag by reflexivity; reflexivity).
  assert (Hrest : List.firstn (List.length cre) (cre ++ [(stroke, false)])
                  ++ List.skipn (S (List.length cre)) (cre ++ [(stroke, false)])
                  = cre).
  { rewrite firstn_app, Nat.sub_diag, firstn_all, skipn_all2.
    - cbn. rewrite !app_nil_r. reflexivity.
    - rewrite length_app. simpl. lia. }
  unfold AirCanvasSwatches.createBalloon, AirCanvasSwatches.creationSettled.
  cbn [AirCanvasSwatches.objectManager AirCanvasSwatches.set_drawingCanvas
       AirCanvasSwatches.drawingCanvas AirCanvasSwatches.creating] in *.
  rewrite Hfail.
  cbn [AirCanvasSwatches.set_creating AirCanvasSwatches.creating].
  rewrite Hnth, Hrest. cbn.
  repeat split; auto; apply spliceFirst_gone; auto.
Qed.

(** X2.  A swipe frame whose index tip is on an object removes that
    object on that very frame: no timer is consulted, the store and the
    call history are untouched. *)
Theorem swipe_removes_object_at_once (st : state) (lm : HandLandmarks num)
    (now : num) (o : Obj) :
  current (fst (GestureDetector.detect st.(gestureDetector) lm)) = swipe ->
  (let tip := GestureDetector.getIndexTip
                (snd (GestureDetector.detect st.(gestureDetector) lm)) lm in
   ObjectManager.getObjectAtPosition st.(objectManager) tip.(x) tip.(y)) = Some o ->
  let st' := onHandResults cfg (Some lm) now st in
  st'.(objectManager) = ObjectManager.removeObject st.(objectManager) o /\
  st'.(objectCounter)
  = Some (ObjectManager.getObjectCount
            (ObjectManager.removeObject st.(objectManager) o)) /\
  st'.(drawingCanvas) = st.(drawingCanvas) /\
  st'.(grabbedObject) = st.(grabbedObject) /\
  st'.(calls) = st.(calls).
Proof.
  intros Hk Hhit. destruct st. unfold onHandResults. cbn in *.
  destruct handDetected0; cbn;
    destruct (GestureDetector.detect gestureDetector0 lm) as [gs gd'] eqn:Hd;
    cbn in *; unfold handleGesture; rewrite Hk; unfold handleSwipe; cbn;
    rewrite Hhit; cbn; branch; auto.
Qed.

(** X3.  The store of a running interpreter keeps its heap discipline:
    the completed strokes are distinct objects, whatever the events. *)
Theorem running_store_is_wf (gd : GD) (om : OM) (events : list Event) :
  DrawingCanvas.wf
    (run cfg events (create cfg gd om : state)).(drawingCanvas).
Proof. apply run_storeWf. apply create_storeWf. Qed.

(** X4.  The revision with the live position smooths the raw point
    against the smoothed position it holds (it takes the raw point when
    it holds none), and the smoothed point is what it measures against
    the last stored point and what it stores: the stroke gains exactly
    that point when it is at least the minimum point distance away, and
    stays as it is otherwise.  The smoothed point becomes the smoothed
    position and the raw point the live position in both cases, and the
    stroke keeps the minimum spacing. *)
Theorem live_addPoint_keeps_spacing (dc : DrawingCanvasLive.t)
    (s : Stroke num) (point : Point2D num) :
  dc.(DrawingCanvasLive.store).(DrawingCanvas.currentStroke) = Some s ->
  DrawingCanvas.spaced cfg s.(points) ->
  s.(points) <> [] ->
  let smoothed :=
    match dc.(DrawingCanvasLive.smoothedPosition) with
    | None => point
    | Some sp =>
        {| x := sp.(x) + (point.(x) - sp.(x)) * (lit 1 - lit 15 / lit 100);
           y := sp.(y) + (point.(y) - sp.(y)) * (lit 1 - lit 15 / lit 100) |}
    end in
  let dc' := DrawingCanvasLive.addPoint cfg point dc in
  exists last : Point2D num,
    DrawingCanvas.lastPoint s = Some last /\
    dc'.(DrawingCanvasLive.store).(DrawingCanvas.currentStroke)
    = Some (if DrawingCanvas.distance smoothed last
               >=? cfg.(STROKE).(MIN_POINT_DISTANCE)
            then DrawingCanvas.pushPoint s smoothed else s) /\
    dc'.(DrawingCanvasLive.store).(DrawingCanvas.completedStrokes)
    = dc.(DrawingCanvasLive.store).(DrawingCanvas.completedStrokes) /\
    dc'.(DrawingCanvasLive.smoothedPosition) = Some smoothed /\
    dc'.(DrawingCanvasLive.livePosition) = Some point /\
    forall s' : Stroke num,
      dc'.(DrawingCanvasLive.store).(DrawingCanvas.currentStroke) = Some s' ->
      DrawingCanvas.spaced cfg s'.(points) /\ s'.(points) <> [].
Proof.
  intros Hs Hsp Hne. cbv zeta. unfold DrawingCanvasLive.addPoint. rewrite Hs.
  change (match DrawingCanvasLive.smoothedPosition dc with
          | Some sp =>
              {| x := sp.(x) + (point.(x) - sp.(x)) * (lit 1 - lit 15 / lit 100);
                 y := sp.(y) + (point.(y) - sp.(y)) * (lit 1 - lit 15 / lit 100) |}
          | None => point
          end) with (DrawingCanvasLive.smoothPoint point dc).
  generalize (DrawingCanvasLive.smoothPoint point dc). intros smoothed.
  unfold DrawingCanvas.lastPoint.
  destruct (List.last (List.map Some (points s)) None) as [last|] eqn:Hl.
  - exists last. split; [reflexivity|]. cbn.
    destruct (_ >=? _) eqn:Hd; cbn.
    + do 4 (split; [reflexivity|]). intros s' [= <-]. cbn. split.
      * eapply spaced_push; eassumption.
      * destruct (points s); discriminate.
    + split; [exact Hs|]. do 3 (split; [reflexivity|]).
      intros s' E. rewrite Hs in E. injection E as <-. auto.
  - exfalso. destruct (points s) as [|p rest]; [contradiction|].
    clear -Hl. revert p Hl. induction rest as [|q rest IH]; intros p Hl.
    + discriminate.
    + apply (IH q). exact Hl.
Qed.

(** X8.  A draw frame over empty canvas does not look at the grabbed
    object: the object stays grabbed, and the stroke store is extended
    or, when the interpreter was not drawing, restarted. *)
Theorem draw_ignores_grabbed_object (st : state) (lm : HandLandmarks num)
    (now : num) (o : Obj) :
  current (fst (GestureDetector.detect st.(gestureDetector) lm)) = draw ->
  (let tip := GestureDetector.getIndexTip
                (snd (GestureDetector.detect st.(gestureDetector) lm)) lm in
   ObjectManager.getObjectAtPosition st.(objectManager) tip.(x) tip.(y)) = None ->
  st.(grabbedObject) = Some o ->
  let tip := GestureDetector.getIndexTip
               (snd (GestureDetector.detect st.(gestureDetector) lm)) lm in
  let st' := onHandResults cfg (Some lm) now st in
  st'.(grabbedObject) = Some o /\
  st'.(objectManager) = st.(objectManager) /\
  st'.(isDrawing) = true /\
  st'.(drawingCanvas)
  = if st.(isDrawing)
    then DrawingCanvas.addPoint cfg tip st.(drawingCanvas)
    else DrawingCanvas.startStroke cfg tip
           (List.nth st.(currentColorIndex) cfg.(COLOR_ARRAY) EmptyString)
           st.(drawingCanvas).
Proof.
  intros Hk Hhit Hg. destruct st. unfold onHandResults. cbn in *.
  destruct handDetected0; cbn;
    destruct (GestureDetector.detect gestureDetector0 lm) as [gs gd'] eqn:Hd;
    cbn in *; unfold handleGesture; rewrite Hk; unfold handleDraw; cbn;
    rewrite Hhit; cbn; destruct isDrawing0; cbn; branch; auto.
Qed.

(** X9.  In the interpreter with the cyclic palette, when the promise of
    [createFromStroke] is rejected the stroke store is what it was when
    the promise was made: a stroke that was in the completed list is
    still there, and the colour index has not moved. *)
Theorem rejected_promise_keeps_stroke (st : state) (i : nat)
    (stroke : StrokeObj num) :
  List.nth_error st.(creating) i = Some (stroke, false) ->
  In stroke st.(drawingCanvas).(DrawingCanvas.completedStrokes) ->
  let st' := step cfg (CreationSettled i) st in
  st'.(drawingCanvas) = st.(drawingCanvas) /\
  In stroke st'.(drawingCanvas).(DrawingCanvas.completedStrokes) /\
  st'.(currentColorIndex) = st.(currentColorIndex) /\
  st'.(statusText) = MsgFailed /\ st'.(statusVisible) = true.
Proof.
  intros Hnth Hin. cbv zeta. cbn [step]. rewrite Hnth.
  destruct st. cbn in *. auto.
Qed.

End MoreFacts.

(** ** Further properties on concrete inputs (IEEE doubles) *)

Section MoreRunsFacts.
Local Open Scope float_scope.

(** X1 on the line: the object manager rejects it. *)
Lemma swatches_line_rejected :
  let st := SwatchesRuns.lineClosed in
  let st1 := AirCanvasSwatches.createBalloon InterpreterRuns.flat st in
  let st2 := AirCanvasSwatches.creationSettled
               (List.length st.(AirCanvasSwatches.creating)) st1 in
  ~ In InterpreterRuns.flat
      st1.(AirCanvasSwatches.drawingCanvas).(DrawingCanvas.completedStrokes) /\
  ~ In InterpreterRuns.flat
      st2.(AirCanvasSwatches.drawingCanvas).(DrawingCanvas.completedStrokes) /\
  st2.(AirCanvasSwatches.statusText) = AirCanvas.MsgFailed /\
  st2.(AirCanvasSwatches.statusVisible) = true /\
  st2.(AirCanvasSwatches.creating) = st.(AirCanvasSwatches.creating).
Proof.
  apply (@swatches_failure_leaves_no_stroke float (list (Demo.Box float)) nat _
           SwatchesRuns.lineClosed InterpreterRuns.flat).
  - vm_compute. split; repeat constructor; simpl; tauto.
  - vm_compute. reflexivity.
Defined.

Example line_was_completed :
  SwatchesRuns.lineClosed.(AirCanvasSwatches.drawingCanvas).(DrawingCanvas.completedStrokes)
  = [InterpreterRuns.flat].
Proof. vm_compute. reflexivity. Qed.

(** X2 on one object: the swipe over it removes it. *)
Lemma swipe_removes_the_object :
  let st := InterpreterRuns.beforeSwipe in
  let st' := AirCanvas.onHandResults Demo.cfg
               (Some (Demo.handAt (Demo.pt 100 100))) 0 st in
  st'.(AirCanvas.objectManager)
  = ObjectManager.removeObject st.(AirCanvas.objectManager) 1%nat /\
  st'.(AirCanvas.objectCounter)
  = Some (ObjectManager.getObjectCount
            (ObjectManager.removeObject st.(AirCanvas.objectManager) 1%nat)) /\
  st'.(AirCanvas.drawingCanvas) = st.(AirCanvas.drawingCanvas) /\
  st'.(AirCanvas.grabbedObject) = st.(AirCanvas.grabbedObject) /\
  st'.(AirCanvas.calls) = st.(AirCanvas.calls).
Proof.
  apply (@swipe_removes_object_at_once float (list (Demo.Box float)) nat
           (list GestureKind) _ _ _ Demo.cfg InterpreterRuns.beforeSwipe
           (Demo.handAt (Demo.pt 100 100)) 0 1%nat).
  - vm_compute. reflexivity.
  - vm_compute. reflexivity.
Defined.

Example swipe_leaves_no_object :
  (AirCanvas.onHandResults Demo.cfg (Some (Demo.handAt (Demo.pt 100 100))) 0
     InterpreterRuns.beforeSwipe).(AirCanvas.objectManager) = [].
Proof. vm_compute. reflexivity. Qed.

(** X4 on the dot: a first point 3 away is stored as it is. *)
Lemma live_dot_keeps_spacing :
  let dc' := DrawingCanvasLive.addPoint Demo.cfg (Demo.pt 3 0) StoreRuns.liveDot in
  option_map (@points float)
    dc'.(DrawingCanvasLive.store).(DrawingCanvas.currentStroke)
  = Some [Demo.pt 0 0; Demo.pt 3 0] /\
  dc'.(DrawingCanvasLive.smoothedPosition) = Some (Demo.pt 3 0) /\
  dc'.(DrawingCanvasLive.livePosition) = Some (Demo.pt 3 0).
Proof.
  destruct (@live_addPoint_keeps_spacing float _ Demo.cfg StoreRuns.liveDot
              {| points := [Demo.pt 0 0]; color := "#FFB3BA";
                 width := 4; closed := false |} (Demo.pt 3 0))
    as [last [H1 [H2 [_ [H4 [H5 _]]]]]].
  - reflexivity.
  - exact I.
  - discriminate.
  - injection H1 as <-. cbv zeta. rewrite H2.
    split; [vm_compute; reflexivity|]. split; [exact H4|exact H5].
Defined.

(** X8 on the run of the pinch: the draw frame at (300, 300). *)
Lemma draw_after_pinch_keeps_grab :
  let st := InterpreterRuns.afterPinch in
  let lm := Demo.handAt (Demo.pt 300 300) in
  let tip := GestureDetector.getIndexTip
               (snd (GestureDetector.detect st.(AirCanvas.gestureDetector) lm)) lm in
  let st' := AirCanvas.onHandResults Demo.cfg (Some lm) 16 st in
  st'.(AirCanvas.grabbedObject) = Some 1%nat /\
  st'.(AirCanvas.objectManager) = st.(AirCanvas.objectManager) /\
  st'.(AirCanvas.isDrawing) = true /\
  st'.(AirCanvas.drawingCanvas)
  = if st.(AirCanvas.isDrawing)
    then DrawingCanvas.addPoint Demo.cfg tip st.(AirCanvas.drawingCanvas)
    else DrawingCanvas.startStroke Demo.cfg tip
           (List.nth st.(AirCanvas.currentColorIndex) Demo.cfg.(COLOR_ARRAY)
              EmptyString)
           st.(AirCanvas.drawingCanvas).
Proof.
  apply (@draw_ignores_grabbed_object float (list (Demo.Box float)) nat
           (list GestureKind) _ _ _ Demo.cfg InterpreterRuns.afterPinch
           (Demo.handAt (Demo.pt 300 300)) 16 1%nat).
  - vm_compute. reflexivity.
  - vm_compute. reflexivity.
  - vm_compute. reflexivity.
Defined.

(** X9 on the run of the line: the promise is rejected. *)
Lemma rejected_line_stays :
  let st := InterpreterRuns.rejecting in
  let st' := AirCanvas.step Demo.cfg (AirCanvas.CreationSettled 0) st in
  st'.(AirCanvas.drawingCanvas) = st.(AirCanvas.drawingCanvas) /\
  In InterpreterRuns.flat
    st'.(AirCanvas.drawingCanvas).(DrawingCanvas.completedStrokes) /\
  st'.(AirCanvas.currentColorIndex) = st.(AirCanvas.currentColorIndex) /\
  st'.(AirCanvas.statusText) = AirCanvas.MsgFailed /\
  st'.(AirCanvas.statusVisible) = true.
Proof.
  apply (@rejected_promise_keeps_stroke float (list (Demo.Box float)) nat
           (list GestureKind) _ _ _ Demo.cfg InterpreterRuns.rejecting 0%nat
           InterpreterRuns.flat).
  - vm_compute. reflexivity.
  - vm_compute. left. reflexivity.
Defined.

(** On IEEE doubles: the revision that smooths against the last stored
    point tests the raw point and stores the smoothed one.  With a
    smoothing of one half, a point 3 away passes the test and is stored
    1.5 away, closer than the minimum spacing of 2. *)
Example smoothing_stores_closer_point :
  option_map (@points float)
    (DrawingCanvasSmoothing.addPoint Demo.cfg (Demo.pt 3 0)
       StoreRuns.dot).(DrawingCanvas.currentStroke)
  = Some [Demo.pt 0 0; Demo.pt 1.5 0] /\
  (DrawingCanvas.distance (Demo.pt 3 0) (Demo.pt 0 0)
   >=? Demo.cfg.(STROKE).(MIN_POINT_DISTANCE))%num = true /\
  (DrawingCanvas.distance (Demo.pt 1.5 0) (Demo.pt 0 0)
   >=? Demo.cfg.(STROKE).(MIN_POINT_DISTANCE))%num = false.
Proof. repeat split; vm_compute; reflexivity. Qed.

(** On IEEE doubles, the scenario of the specification: a palm held for
    600 ms over a valid stroke of five points closes it, the object
    manager creates the object, and the colour index moves on by one. *)
Example palm_hold_scenario :
  let closed := InterpreterRuns.closedRectangle in
  let handed := InterpreterRuns.solidifying in
  let done := AirCanvas.step Demo.cfg (AirCanvas.CreationSettled 0) handed in
  closed.(AirCanvas.calls) = [AirCanvas.CallCloseAndInflate] /\
  closed.(AirCanvas.drawingCanvas).(DrawingCanvas.completedStrokes)
  = [InterpreterRuns.rectangle] /\
  handed.(AirCanvas.calls)
  = [AirCanvas.CallCreateBalloon InterpreterRuns.rectangle;
     AirCanvas.CallCloseAndInflate] /\
  handed.(AirCanvas.objectManager) = [Demo.boxAround 0 (Demo.pt 0 0)] /\
  closed.(AirCanvas.currentColorIndex) = 0%nat /\
  done.(AirCanvas.currentColorIndex) = 1%nat /\
  done.(AirCanvas.drawingCanvas).(DrawingCanvas.completedStrokes) = [] /\
  done.(AirCanvas.objectCounter) = Some 1%nat.
Proof. repeat split; vm_compute; reflexivity. Qed.

End MoreRunsFacts.

(** ** The progress of the closing animation in binary64 *)

Lemma float_ltb_asym (a b : float) :
  PrimFloat.ltb a b = true -> PrimFloat.ltb b a = false.
Proof.
  rewrite !ltb_spec. unfold SFltb.
  rewrite (SFcompare_antisym (Prim2SF a) (Prim2SF b)).
  destruct (SFcompare (Prim2SF a) (Prim2SF b)) as [[]|]; simpl; congruence.
Qed.

(** X7.  On IEEE doubles too the progress never exceeds 1, whatever the
    times and the pulse, NaN and infinities included. *)
Theorem closing_progress_at_most_one_binary64 (cfg : Constants float)
    (start now : float) :
  PrimFloat.ltb 1 (AirCanvas.closingProgress cfg start now) = false.
Proof.
  unfold AirCanvas.closingProgress. cbn [min float_Number lit].
  generalize (div (sub now start) (mul (STROKE_CLOSE_PULSE (TIMING cfg)) (float_lit 1000))).
  intros q. change (float_lit 1) with 1%float. unfold float_min.
  destruct (PrimFloat.is_nan q || PrimFloat.is_nan 1)%bool; [reflexivity|].
  destruct (PrimFloat.ltb q 1) eqn:Hlt; [apply float_ltb_asym; exact Hlt|].
  destruct (PrimFloat.ltb 1 q) eqn:Hgt; [reflexivity|].
  change (classify 1) with PNormal. exact Hgt.
Qed.

(** * Streams, lengths, invariants, rendering and input

    ** The store as a sampler of the raw stream *)

Section SamplerFacts.
Context {num : Type} {N : Number num}.
Variable cfg : Constants num.

Import DrawingCanvas.
Local Open Scope num_scope.

Lemma lastPoint_push (s : Stroke num) (p : Point2D num) :
  lastPoint (pushPoint s p) = Some p.
Proof.
  unfold lastPoint, pushPoint. cbn [points].
  rewrite map_app. cbn. apply last_last.
Qed.

Lemma addPoints_accepted (raws : list (Point2D num)) :
  forall (dc : t) (s : Stroke num) (last : Point2D num),
    dc.(currentStroke) = Some s ->
    lastPoint s = Some last ->
    runOps cfg (List.map (@OpAddPoint num) raws) dc
    = {| currentStroke :=
           Some {| points := s.(points) ++ PointSampler.accepted cfg last raws;
                   color := s.(color); width := s.(width);
                   closed := s.(closed) |};
         completedStrokes := dc.(completedStrokes);
         nextRef := dc.(nextRef) |}.
Proof.
  induction raws as [|raw raws IH]; intros dc s last Hs Hl.
  - cbn. rewrite app_nil_r. destruct dc, s. cbn in *. congruence.
  - cbn [List.map runOps fold_left applyOp PointSampler.accepted].
    unfold PointSampler.intake, addPoint. rewrite Hs, Hl.
    destruct (distance raw last >=? MIN_POINT_DISTANCE (STROKE cfg)).
    + change (fold_left (fun d o => applyOp cfg o d) (List.map (@OpAddPoint num) raws))
        with (runOps cfg (List.map (@OpAddPoint num) raws)).
      rewrite (IH {| currentStroke := Some (pushPoint s raw);
                     completedStrokes := dc.(completedStrokes);
                     nextRef := dc.(nextRef) |}
                  (pushPoint s raw) raw eq_refl (lastPoint_push s raw)).
      cbn. rewrite <- app_assoc. reflexivity.
    + apply (IH dc s last Hs Hl).
Qed.

Lemma accepted_subsequence (raws : list (Point2D num)) :
  forall last, PointSampler.subsequence (PointSampler.accepted cfg last raws) raws.
Proof.
  induction raws as [|raw raws IH]; intros last; cbn.
  - constructor.
  - unfold PointSampler.intake. destruct (_ >=? _); constructor; apply IH.
Qed.

(** X10.  Feeding a stream of raw points to a stroke in progress only
    appends: the points stored before, the colour, the width and the
    completed strokes stay as they were, and what is appended is a
    selection of the raw points, unchanged and in the order they came
    (the points the sampler accepts, each measured against the last one
    accepted). *)
Theorem addPoint_stream_appends_accepted (dc : t) (s : Stroke num)
    (last : Point2D num) (raws : list (Point2D num)) :
  dc.(currentStroke) = Some s ->
  lastPoint s = Some last ->
  let dc' := runOps cfg (List.map (@OpAddPoint num) raws) dc in
  dc'.(currentStroke)
  = Some {| points := s.(points) ++ PointSampler.accepted cfg last raws;
            color := s.(color); width := s.(width); closed := s.(closed) |} /\
  dc'.(completedStrokes) = dc.(completedStrokes) /\
  PointSampler.subsequence (PointSampler.accepted cfg last raws) raws.
Proof.
  intros Hs Hl. cbv zeta. rewrite (addPoints_accepted raws dc Hs Hl). cbn.
  repeat split. apply accepted_subsequence.
Qed.

Lemma closeStroke_leaves_no_stroke (dc : t) :
  currentStroke (snd (closeStroke cfg dc)) = None.
Proof.
  unfold closeStroke. destruct (currentStroke dc) eqn:E; cbn; [|exact E].
  repeat (branch; cbn); reflexivity.
Qed.

(** X11.  [closeStroke] always ends the stroke in progress, whatever it
    returns: afterwards there is no current stroke, a point added is
    dropped, and closing again returns null and changes nothing. *)
Theorem closeStroke_ends_stroke (dc : t) (p : Point2D num) :
  let dc' := snd (closeStroke cfg dc) in
  getCurrentStroke dc' = None /\
  addPoint cfg p dc' = dc' /\
  closeStroke cfg dc' = (None, dc').
Proof.
  cbv zeta. pose proof (closeStroke_leaves_no_stroke dc) as H.
  revert H. generalize (snd (closeStroke cfg dc)). intros d H.
  unfold getCurrentStroke, addPoint, closeStroke. rewrite H. repeat split.
Qed.

End SamplerFacts.

Section SamplerRunsFacts.
Import DrawingCanvas StoreRuns.
Local Open Scope float_scope.

(** X10 on the dot: of a point 1 away, one 30 away and one 31 away, the
    second is kept and the third, 1 from it, is not. *)
Lemma dot_stream_keeps_far_point :
  (runOps Demo.cfg
     (List.map (@OpAddPoint float) [Demo.pt 1 0; Demo.pt 30 0; Demo.pt 31 0])
     dot).(currentStroke)
  = Some {| points := [Demo.pt 0 0; Demo.pt 30 0]; color := "#FFB3BA";
            width := 4; closed := false |}.
Proof.
  pose proof (@addPoint_stream_appends_accepted float _ Demo.cfg dot
                {| points := [Demo.pt 0 0]; color := "#FFB3BA";
                   width := 4; closed := false |}
                (Demo.pt 0 0) [Demo.pt 1 0; Demo.pt 30 0; Demo.pt 31 0]
                eq_refl eq_refl) as [H _].
  rewrite H. vm_compute. reflexivity.
Defined.

End SamplerRunsFacts.

(** ** The palette, the drawing flag and the holds of a running
    interpreter *)

Section InterpreterInvariants.
Context {num OM Obj GD : Type} {N : Number num}.
Context {OMI : ObjectManager.ObjectManager num OM Obj}.
Context {GDI : GestureDetector.GestureDetector num GD}.
Variable cfg : Constants num.

Import AirCanvas Invariants.
Local Open Scope num_scope.

Local Abbreviation state := (AirCanvas.t (num := num) (OM := OM) (Obj := Obj) (GD := GD)).

Lemma coloursIn_startStroke (palette : list string) (p : Point2D num) (c : string)
    (dc : DrawingCanvas.t) :
  In c palette -> coloursIn palette dc ->
  coloursIn palette (DrawingCanvas.startStroke cfg p c dc).
Proof.
  intros Hc [_ H]. split; cbn; [|exact H].
  intros s E. injection E as <-. exact Hc.
Qed.

Lemma coloursIn_addPoint (palette : list string) (p : Point2D num)
    (dc : DrawingCanvas.t) :
  coloursIn palette dc -> coloursIn palette (DrawingCanvas.addPoint cfg p dc).
Proof.
  intros H. pose proof H as [H1 H2]. unfold DrawingCanvas.addPoint.
  destruct (DrawingCanvas.currentStroke dc) as [s|] eqn:E; [|exact H].
  destruct (DrawingCanvas.lastPoint s); [|exact H].
  cbv zeta. branch; [|exact H].
  split; cbn; [|exact H2]. intros s' E'. injection E' as <-. cbn. auto.
Qed.

Lemma coloursIn_closeStroke (palette : list string) (dc dc' : DrawingCanvas.t)
    (o : option (StrokeObj num)) :
  coloursIn palette dc -> DrawingCanvas.closeStroke cfg dc = (o, dc') ->
  coloursIn palette dc'.
Proof.
  intros H. pose proof H as [H1 H2]. unfold DrawingCanvas.closeStroke.
  destruct (DrawingCanvas.currentStroke dc) as [s|] eqn:E.
  - cbv zeta. branch; intros E'; injection E' as <- <-; split; cbn;
      try discriminate; try exact H2.
    apply Forall_app. split; [exact H2|]. constructor; [|constructor].
    cbn. auto.
  - intros E'. injection E' as <- <-. exact H.
Qed.

Lemma coloursIn_remove (palette : list string) (stroke : StrokeObj num)
    (dc : DrawingCanvas.t) :
  coloursIn palette dc ->
  coloursIn palette (DrawingCanvas.clear (DrawingCanvas.removeCompletedStroke stroke dc)).
Proof.
  intros [H1 H2]. split; cbn; [exact H1|].
  rewrite Forall_forall in *. intros so Hin. apply H2.
  eapply spliceFirst_subset. exact Hin.
Qed.

Lemma coloursIn_clearAll (palette : list string) (dc : DrawingCanvas.t (num := num)) :
  coloursIn palette (DrawingCanvas.clearAll dc).
Proof. split; cbn; [discriminate|constructor]. Qed.

(** Closes the goals left once a callback is unfolded on an explicit
    state: the index is the old one or the next one modulo the length,
    the store is the old one after one store operation. *)
Ltac palette_op :=
  unfold paletteInv in *; cbn in *;
  match goal with H : _ /\ _ |- _ => destruct H as [Hi Hc] end;
  split;
  [ first [ assumption | apply Nat.mod_upper_bound; lia ]
  | rewrite ?renderClosingAnimation_same;
    first
      [ assumption
      | eapply coloursIn_closeStroke; eassumption
      | apply coloursIn_clearAll
      | apply coloursIn_startStroke; [apply nth_In; assumption | assumption]
      | apply coloursIn_addPoint; assumption
      | apply coloursIn_remove; assumption ] ].

Lemma animateClosing_paletteInv (stroke : StrokeObj num) (start now : num) (st : state) :
  paletteInv cfg st -> paletteInv cfg (animateClosing cfg stroke start now st).
Proof.
  intros H. destruct st. unfold animateClosing, createBalloon. cbn.
  branch; palette_op.
Qed.

Lemma onHandResults_paletteInv (landmarks : option (HandLandmarks num)) (now : num)
    (st : state) :
  paletteInv cfg st -> paletteInv cfg (onHandResults cfg landmarks now st).
Proof.
  intros H. destruct st.
  unfold onHandResults, handleGesture, handleDraw, handlePinch, handlePalm,
    handleFist, handleSwipe, releaseGrabbed, closeAndInflate, clearAll,
    animateClosing, createBalloon, showStatus, hideStatus, updateObjectCounter.
  cbn. branch; palette_op.
Qed.

Lemma step_paletteInv (e : Event) (st : state) :
  paletteInv cfg st -> paletteInv cfg (step cfg e st).
Proof.
  intros H. destruct e as [lm now | now | i | | ]; cbn [step].
  - apply onHandResults_paletteInv. exact H.
  - unfold animationFrame.
    assert (H0 : paletteInv cfg (set_closing [] (animate now st)))
      by (destruct st; unfold animate; cbn; palette_op).
    revert H0. generalize (set_closing [] (animate now st)).
    generalize (closing (animate now st)).
    intros pending. induction pending as [|a pending IH]; intros s Hs; simpl.
    + exact Hs.
    + apply IH. apply animateClosing_paletteInv. exact Hs.
  - destruct (nth_error (creating st) i) as [[stroke resolved]|]; [|exact H].
    destruct st. unfold createBalloonSettled, showStatus, updateObjectCounter,
      updateColorIndicator. cbn. branch; palette_op.
  - destruct st. unfold clearAllSettled, hideStatus, updateObjectCounter. cbn.
    branch; palette_op.
  - destruct st. unfold hideStatus. cbn. branch; palette_op.
Qed.

(** X14.  With a palette that is not empty, the colour index of a running
    interpreter always points into the palette, and every stroke of the
    store, in progress or completed, has a colour of the palette:
    [COLOR_ARRAY[currentColorIndex]] is never read out of range. *)
Theorem stroke_colours_stay_in_palette (gd : GD) (om : OM) (events : list Event) :
  cfg.(COLOR_ARRAY) <> [] ->
  let st := run cfg events (create cfg gd om : state) in
  st.(currentColorIndex) < List.length cfg.(COLOR_ARRAY) /\
  In (List.nth st.(currentColorIndex) cfg.(COLOR_ARRAY) EmptyString)
     cfg.(COLOR_ARRAY) /\
  (forall s, st.(drawingCanvas).(DrawingCanvas.currentStroke) = Some s ->
             In s.(color) cfg.(COLOR_ARRAY)) /\
  (forall so, In so st.(drawingCanvas).(DrawingCanvas.completedStrokes) ->
              In so.(val).(color) cfg.(COLOR_ARRAY)).
Proof.
  intros Hne. cbv zeta.
  assert (H : paletteInv cfg (run cfg events (create cfg gd om : state))).
  { assert (H0 : paletteInv cfg (create cfg gd om : state)).
    { unfold paletteInv, create, updateColorIndicator. cbn. split.
      - destruct (COLOR_ARRAY cfg); [congruence|cbn; lia].
      - split; cbn; [discriminate|constructor]. }
    revert H0. generalize (create cfg gd om : state).
    induction events as [|e events IH]; intros st H0; [exact H0|].
    cbn [run fold_left]. apply IH. apply step_paletteInv. exact H0. }
  destruct H as [Hi [Hc Hd]].
  repeat split; [exact Hi|apply nth_In; exact Hi|exact Hc|].
  rewrite Forall_forall in Hd. exact Hd.
Qed.

(** X15.  The drawing flag outlives the stroke.  When the interpreter is
    drawing and the fist hold clears everything, or the palm hold closes
    a stroke the store rejects, the flag stays set while the store has no
    stroke in progress.  From then on a draw frame over empty canvas adds
    its point to no stroke: the store stays as it is and the flag stays
    set, frame after frame, until a pinch or a frame without a hand
    clears the flag. *)
Theorem drawing_flag_outlives_stroke (st : state) :
  st.(isDrawing) = true ->
  flagWithoutStroke (clearAll st) /\
  (forall now,
      fst (DrawingCanvas.closeStroke cfg st.(drawingCanvas)) = None ->
      flagWithoutStroke (closeAndInflate cfg now st)) /\
  (forall (st1 : state) (lm : HandLandmarks num) (now : num),
      flagWithoutStroke st1 ->
      current (fst (GestureDetector.detect st1.(gestureDetector) lm)) = draw ->
      (let tip := GestureDetector.getIndexTip
                    (snd (GestureDetector.detect st1.(gestureDetector) lm)) lm in
       ObjectManager.getObjectAtPosition st1.(objectManager) tip.(x) tip.(y)) = None ->
      flagWithoutStroke (onHandResults cfg (Some lm) now st1) /\
      (onHandResults cfg (Some lm) now st1).(drawingCanvas) = st1.(drawingCanvas)).
Proof.
  intros Hd. split; [|split].
  - destruct st. unfold flagWithoutStroke, clearAll. cbn in *. auto.
  - intros now Hr.
    pose proof (closeStroke_leaves_no_stroke cfg st.(drawingCanvas)) as Hn.
    destruct st. unfold flagWithoutStroke, closeAndInflate. cbn in *.
    destruct (DrawingCanvas.closeStroke cfg drawingCanvas0) as [[s|] dc];
      [discriminate|]. cbn in *. auto.
  - intros st1 lm now [Hf Hs] Hk Hhit. destruct st1. unfold flagWithoutStroke in *.
    unfold onHandResults. cbn in *. subst isDrawing0.
    destruct handDetected0; cbn;
      destruct (GestureDetector.detect gestureDetector0 lm) as [gs gd'] eqn:Hdet;
      cbn in *; unfold handleGesture; rewrite Hk; unfold handleDraw; cbn;
      rewrite Hhit; cbn; unfold DrawingCanvas.addPoint; rewrite Hs;
      branch; auto.
Qed.

(** X6.  A palm hold that has lasted fires.  On a palm frame after a palm
    frame, with the palm timer set and the hold time reached, the
    interpreter calls [closeAndInflate] once (and [createBalloon] only if
    the animation is over at once), unsets the palm timer and holds no
    object. *)
Theorem palm_hold_fires (st : state) (lm : HandLandmarks num) (now : num)
    (g : GestureState num) :
  st.(lastGestureState) = Some g ->
  g.(current) = palm ->
  current (fst (GestureDetector.detect st.(gestureDetector) lm)) = palm ->
  (st.(palmHoldStart) =? lit 0) = false ->
  (now - st.(palmHoldStart) >=? cfg.(GESTURE).(PALM_HOLD_TIME)) = true ->
  let st' := onHandResults cfg (Some lm) now st in
  (exists later, st'.(calls) = later ++ CallCloseAndInflate :: st.(calls) /\
                 onlyCreateBalloon later) /\
  st'.(palmHoldStart) = lit 0 /\
  st'.(grabbedObject) = None.
Proof.
  intros Hl Hg Hk Ht Hd. destruct st. unfold onHandResults. cbn in *. subst.
  unfold onlyCreateBalloon.
  destruct handDetected0; cbn;
    destruct (GestureDetector.detect gestureDetector0 lm) as [gs gd'] eqn:Hdet;
    cbn in *;
    unfold handleGesture, handlePalm, releaseGrabbed, closeAndInflate,
      animateClosing, createBalloon, showStatus, hideStatus;
    rewrite Hk; cbn;
    destruct grabbedObject0; cbn; rewrite ?Ht; cbn; rewrite ?Hd; cbn;
    branch; rewrite ?Hg; cbn;
    (split; [|split; reflexivity]);
    first [ exists []; split; [reflexivity|constructor]
          | eexists [_]; split; [reflexivity|];
            constructor; [eexists; reflexivity|constructor] ].
Qed.

(** X16.  The frame on which the gesture changes leaves both hold timers
    unset, whatever its handler did: a hold is measured from the second
    frame of the gesture when another gesture came before it. *)
Theorem gesture_change_unsets_timers (st : state) (lm : HandLandmarks num)
    (now : num) (g : GestureState num) :
  st.(lastGestureState) = Some g ->
  g.(current) <> current (fst (GestureDetector.detect st.(gestureDetector) lm)) ->
  let st' := onHandResults cfg (Some lm) now st in
  st'.(palmHoldStart) = lit 0 /\ st'.(fistHoldStart) = lit 0.
Proof.
  intros Hl Hne.
  assert (Hb : forall k, g.(current) <> k -> GestureKind_eqb k g.(current) = false).
  { intros k Hk. destruct k, (current g); try reflexivity; congruence. }
  destruct st. unfold onHandResults. cbn in *. subst.
  specialize (Hb _ Hne).
  destruct handDetected0; cbn;
    destruct (GestureDetector.detect gestureDetector0 lm) as [gs gd'] eqn:Hdet;
    cbn in *;
    unfold handleGesture, handleDraw, handlePinch, handlePalm, handleFist,
      handleSwipe, releaseGrabbed, closeAndInflate, clearAll,
      animateClosing, createBalloon, showStatus, hideStatus, updateObjectCounter;
    cbn; branch; cbn in *; rewrite ?Hb; cbn; try (split; reflexivity);
    exfalso;
    repeat match goal with H : Some _ = Some _ |- _ => injection H as <- end;
    try discriminate;
    match goal with
    | H : negb _ = false |- _ => rewrite Hb in H; discriminate H
    end.
Qed.

(** X17.  A grab survives the loss of the hand.  Frames without a hand
    leave the object grabbed and make no call to the object manager; the
    next pinch, wherever it is, does not test for a hit: it moves the
    grabbed object to the pinch centre. *)
Theorem grab_survives_hand_loss (st : state) (o : Obj) (now now' : num)
    (lm : HandLandmarks num) :
  st.(grabbedObject) = Some o ->
  let lost := onHandResults cfg None now st in
  lost.(grabbedObject) = Some o /\
  lost.(objectManager) = st.(objectManager) /\
  (current (fst (GestureDetector.detect lost.(gestureDetector) lm)) = pinch ->
   let centre := GestureDetector.getPinchCenter
                   (snd (GestureDetector.detect lost.(gestureDetector) lm)) lm in
   (onHandResults cfg (Some lm) now' lost).(objectManager)
   = ObjectManager.moveGrabbedObject st.(objectManager) o centre.(x) centre.(y) /\
   (onHandResults cfg (Some lm) now' lost).(grabbedObject) = Some o).
Proof.
  intros Hg. destruct st. unfold onHandResults. cbn in *. subst.
  destruct isDrawing0, handDetected0; cbn; (split; [reflexivity|]);
    (split; [reflexivity|]); intros Hk;
    destruct (GestureDetector.detect gestureDetector0 lm) as [gs gd'] eqn:Hdet;
    cbn in *; unfold handleGesture; rewrite Hk; unfold handlePinch; cbn;
    branch; auto.
Qed.

Lemma animateClosing_keeps_work (stroke : StrokeObj num) (start now : num)
    (st : state) :
  (forall c, In c st.(calls) -> In c (animateClosing cfg stroke start now st).(calls)) /\
  (forall p, In p st.(creating) ->
             In p (animateClosing cfg stroke start now st).(creating)).
Proof.
  destruct st. unfold animateClosing, createBalloon. cbn.
  branch; split; intros; auto using in_or_app.
Qed.

Lemma animateClosing_final (stroke : StrokeObj num) (start now : num) (st : state) :
  (closingProgress cfg start now <? lit 1) = false ->
  In (CallCreateBalloon stroke) (animateClosing cfg stroke start now st).(calls) /\
  exists resolved,
    In (stroke, resolved) (animateClosing cfg stroke start now st).(creating).
Proof.
  intros Hp. destruct st. unfold animateClosing, createBalloon. cbn.
  rewrite Hp. cbn. branch; (split; [auto|]); eexists; apply in_or_app; right;
    left; reflexivity.
Qed.

Lemma closing_frame_hands_over (now : num) (stroke : StrokeObj num) (start : num)
    (pending : list (StrokeObj num * num)) :
  In (stroke, start) pending ->
  (closingProgress cfg start now <? lit 1) = false ->
  forall s : state,
    let s' := List.fold_left
                (fun s (a : StrokeObj num * num) =>
                   animateClosing cfg (fst a) (snd a) now s) pending s in
    In (CallCreateBalloon stroke) s'.(calls) /\
    exists resolved, In (stroke, resolved) s'.(creating).
Proof.
  intros Hin Hp. induction pending as [|a pending IH]; [contradiction|].
  intros s. cbn [fold_left]. destruct Hin as [-> | Hin].
  - cbn [fst snd].
    destruct (@animateClosing_final stroke start now s Hp) as [Hc [r Hr]].
    generalize dependent (animateClosing cfg stroke start now s).
    clear. induction pending as [|b pending IH]; intros s0 Hc Hr.
    + split; [exact Hc|exists r; exact Hr].
    + cbn [fold_left]. apply IH; apply animateClosing_keeps_work; assumption.
  - apply IH. exact Hin.
Qed.

(** X18.  Clearing everything does not cancel a closing animation.  A
    stroke whose animation is pending when [clearAll] runs is gone from
    the store, but the frame on which its animation ends still hands it
    to [createBalloon]: the call is made and its promise is pending. *)
Theorem clearAll_keeps_closing_animation (st : state) (stroke : StrokeObj num)
    (start now : num) :
  In (stroke, start) st.(closing) ->
  (closingProgress cfg start now <? lit 1) = false ->
  let cleared := clearAll st in
  let st' := animationFrame cfg now cleared in
  cleared.(drawingCanvas).(DrawingCanvas.completedStrokes) = [] /\
  In (CallClearAll) cleared.(calls) /\
  In (CallCreateBalloon stroke) st'.(calls) /\
  exists resolved, In (stroke, resolved) st'.(creating).
Proof.
  intros Hin Hp. cbv zeta. split; [|split].
  - destruct st. reflexivity.
  - destruct st. left. reflexivity.
  - unfold animationFrame. apply closing_frame_hands_over with (start := start).
    + destruct st. exact Hin.
    + exact Hp.
Qed.

End InterpreterInvariants.

Section HoldRunsFacts.
Import AirCanvas Invariants InterpreterRuns HoldRuns.
Local Open Scope float_scope.

(** X14 on the run that draws the rectangle and holds the palm. *)
Lemma rectangle_run_keeps_palette :
  let st := closedRectangle in
  (st.(currentColorIndex) < 3)%nat /\
  In (List.nth st.(currentColorIndex) Demo.cfg.(COLOR_ARRAY) EmptyString)
     Demo.cfg.(COLOR_ARRAY).
Proof.
  destruct (@stroke_colours_stay_in_palette float (list (Demo.Box float)) nat
              (list GestureKind) _ _ _ Demo.cfg rectangleScript []
              (drawRectangle ++ holdPalm)) as [H1 [H2 _]].
  - discriminate.
  - split; [exact H1|exact H2].
Defined.

(** X15 on the dot: after the clear, a draw frame at (50, 50) draws
    nothing. *)
Lemma draw_after_clear_draws_nothing :
  let cleared := clearAll drawingDot in
  let st' := onHandResults Demo.cfg (Some (Demo.handAt (Demo.pt 50 50))) 3000
               cleared in
  flagWithoutStroke cleared /\
  flagWithoutStroke st' /\
  st'.(drawingCanvas) = cleared.(drawingCanvas).
Proof.
  destruct (@drawing_flag_outlives_stroke float (list (Demo.Box float)) nat
              (list GestureKind) _ _ _ Demo.cfg drawingDot) as [H1 [_ H3]].
  - vm_compute. reflexivity.
  - split; [exact H1|].
    apply (H3 (clearAll drawingDot) (Demo.handAt (Demo.pt 50 50)) 3000 H1).
    + vm_compute. reflexivity.
    + vm_compute. reflexivity.
Defined.

(** X6 on the rectangle: the palm timer was set at 1100 ms, the frame at
    1700 ms fires. *)
Lemma rectangle_palm_hold_fires :
  let st' := onHandResults Demo.cfg (Some (Demo.handAt (Demo.pt 0 10))) 1700
               holding in
  (exists later, st'.(calls) = later ++ CallCloseAndInflate :: holding.(calls) /\
                 onlyCreateBalloon later) /\
  st'.(palmHoldStart) = lit 0 /\
  st'.(grabbedObject) = None.
Proof.
  apply (@palm_hold_fires float (list (Demo.Box float)) nat (list GestureKind)
           _ _ _ Demo.cfg holding (Demo.handAt (Demo.pt 0 10)) 1700
           (Demo.gesture palm)).
  - vm_compute. reflexivity.
  - reflexivity.
  - vm_compute. reflexivity.
  - vm_compute. reflexivity.
  - vm_compute. reflexivity.
Defined.

Example holding_timer : holding.(palmHoldStart) = 1100.
Proof. vm_compute. reflexivity. Qed.

(** X16 on the rectangle: the first palm frame, at 1000 ms, comes after a
    draw frame and leaves the palm timer unset. *)
Lemma first_palm_frame_leaves_timer_unset :
  let st' := onHandResults Demo.cfg (Some (Demo.handAt (Demo.pt 0 10))) 1000
               drawnRectangle in
  st'.(palmHoldStart) = lit 0 /\ st'.(fistHoldStart) = lit 0.
Proof.
  apply (@gesture_change_unsets_timers float (list (Demo.Box float)) nat
           (list GestureKind) _ _ _ Demo.cfg drawnRectangle
           (Demo.handAt (Demo.pt 0 10)) 1000 (Demo.gesture draw)).
  - vm_compute. reflexivity.
  - vm_compute. discriminate.
Defined.

(** X17 on the run of the pinch: the hand is lost at 16 ms. *)
Lemma grabbed_object_stays_grabbed :
  let lost := onHandResults Demo.cfg None 16 afterPinch in
  lost.(grabbedObject) = Some 1%nat /\
  lost.(objectManager) = afterPinch.(objectManager).
Proof.
  destruct (@grab_survives_hand_loss float (list (Demo.Box float)) nat
              (list GestureKind) _ _ _ Demo.cfg afterPinch 1%nat 16 32
              (Demo.handAt (Demo.pt 300 300))) as [H1 [H2 _]].
  - vm_compute. reflexivity.
  - split; [exact H1|exact H2].
Defined.

(** X18 on the rectangle: the clear comes while the animation that began
    at 1700 ms is pending, the frame at 2200 ms ends it. *)
Lemma cleared_rectangle_is_still_created :
  let cleared := clearAll closedRectangle in
  let st' := animationFrame Demo.cfg 2200 cleared in
  cleared.(drawingCanvas).(DrawingCanvas.completedStrokes) = [] /\
  In (CallClearAll) cleared.(calls) /\
  In (CallCreateBalloon rectangle) st'.(calls) /\
  exists resolved, In (rectangle, resolved) st'.(creating).
Proof.
  apply (@clearAll_keeps_closing_animation float (list (Demo.Box float)) nat
           (list GestureKind) _ _ Demo.cfg closedRectangle rectangle 1700 2200).
  - vm_compute. left. reflexivity.
  - vm_compute. reflexivity.
Defined.

End HoldRunsFacts.

(** ** What the store draws *)

Section RenderFacts.
Context {num : Type} {N : Number num} {C : Circle num} {G : Negation num}.
Context {S : Sine num}.
Variable cfg : Constants num.

Import Canvas2D.
Local Open Scope num_scope.

Lemma scoped_app (a b : list (Cmd num)) :
  forall d, scoped (a ++ b) d
            = match scoped a d with Some d' => scoped b d' | None => None end.
Proof.
  induction a as [|c a IH]; intros d; [reflexivity|].
  destruct c; cbn; try apply IH; destruct d; try reflexivity; apply IH.
Qed.

Lemma scoped_drawing (a : list (Cmd num)) :
  List.forallb isDrawing a = true -> forall d, scoped a d = Some d.
Proof.
  induction a as [|c a IH]; intros H d; [reflexivity|].
  cbn in H. apply andb_prop in H as [Hc Ha].
  destruct c; cbn in *; try discriminate; apply IH; exact Ha.
Qed.

Lemma quadratics_drawing (pts : list (Point2D num)) :
  List.forallb isDrawing (Renderer.quadratics pts) = true.
Proof.
  induction pts as [|p [|q rest] IH]; try reflexivity. cbn. exact IH.
Qed.

Lemma spline_drawing (pts : list (Point2D num)) :
  List.forallb isDrawing (RendererLive.drawCatmullRomSpline pts) = true.
Proof.
  unfold RendererLive.drawCatmullRomSpline.
  destruct pts as [|a [|b [|c rest]]]; try reflexivity.
  cbn [app forallb isDrawing isSetting negb andb].
  apply forallb_forall. intros c0 Hin. apply in_flat_map in Hin as [i [_ Hin]].
  unfold RendererLive.segment in Hin. apply in_map_iff in Hin as [t [<- _]].
  reflexivity.
Qed.

Lemma drawStrokePath_drawing (stroke : Stroke num) :
  List.forallb isDrawing (Renderer.drawStrokePath stroke) = true.
Proof.
  unfold Renderer.drawStrokePath. destruct (points stroke) as [|p0 rest]; [reflexivity|].
  cbn [app forallb isDrawing isSetting negb andb].
  rewrite forallb_app, quadratics_drawing. destruct (closed stroke); reflexivity.
Qed.

Lemma live_drawStrokePath_drawing (stroke : Stroke num) :
  List.forallb isDrawing (RendererLive.drawStrokePath stroke) = true.
Proof.
  unfold RendererLive.drawStrokePath. destruct (points stroke); [reflexivity|].
  apply spline_drawing.
Qed.

Lemma renderStroke_scoped (stroke : Stroke num) (alpha : num) (d : nat) :
  scoped (Renderer.renderStroke stroke alpha) d = Some d.
Proof.
  unfold Renderer.renderStroke. destruct (points stroke) as [|p0 [|q rest]];
    try reflexivity.
  cbn [app scoped isSetting]. rewrite scoped_app.
  rewrite (scoped_drawing _ (quadratics_drawing (q :: rest))).
  destruct (closed stroke); reflexivity.
Qed.

Lemma smoothing_renderStroke_scoped (stroke : Stroke num) (alpha : num) (d : nat) :
  scoped (RendererSmoothing.renderStroke stroke alpha) d = Some d.
Proof.
  unfold RendererSmoothing.renderStroke. destruct (points stroke) as [|p0 [|q rest]];
    try reflexivity.
  cbn [app scoped isSetting]. rewrite scoped_app.
  rewrite (scoped_drawing _ (quadratics_drawing (q :: rest))).
  destruct (closed stroke); reflexivity.
Qed.

Lemma live_renderStroke_scoped (stroke : Stroke num) (alpha : num) (d : nat) :
  scoped (RendererLive.renderStroke stroke alpha) d = Some d.
Proof.
  unfold RendererLive.renderStroke. destruct (points stroke) as [|p0 [|q rest]];
    try reflexivity.
  cbn [RendererLive.header app scoped isSetting]. rewrite scoped_app.
  rewrite (scoped_drawing _ (spline_drawing _)). reflexivity.
Qed.

Lemma live_extension_scoped (sp : option (Point2D num)) (stroke : Stroke num)
    (alpha : num) (d : nat) :
  scoped (RendererLive.renderStrokeWithLiveExtension sp stroke alpha) d = Some d.
Proof.
  unfold RendererLive.renderStrokeWithLiveExtension.
  destruct (points stroke) as [|p0 rest]; [reflexivity|].
  cbn [RendererLive.header app scoped isSetting].
  destruct (rest ++ match sp with Some p => [p] | None => [] end)
    as [|b l]; [reflexivity|].
  rewrite scoped_app, (scoped_drawing _ (spline_drawing _)). reflexivity.
Qed.

Lemma strokes_scoped (f : Stroke num -> num -> list (Cmd num)) (alpha : num)
    (l : list (StrokeObj num)) :
  (forall s a d, scoped (f s a) d = Some d) ->
  forall d, scoped (List.flat_map (fun so : StrokeObj num => f so.(val) alpha) l) d
            = Some d.
Proof.
  intros Hf. induction l as [|so l IH]; intros d; [reflexivity|].
  cbn [flat_map]. rewrite scoped_app, Hf. apply IH.
Qed.

Lemma pulse_scoped (path : list (Cmd num)) (stroke : Stroke num) (progress : num)
    (d : nat) :
  List.forallb isDrawing path = true ->
  scoped (Renderer.pulse path stroke progress) d = Some d.
Proof.
  intros Hp. unfold Renderer.pulse. cbn [app scoped isSetting].
  rewrite scoped_app, (scoped_drawing _ Hp). cbn [app scoped isSetting].
  rewrite scoped_app, (scoped_drawing _ Hp). reflexivity.
Qed.

(** X20.  Rendering leaves the settings of the context as it found them.
    In each revision [render] and [renderClosingAnimation] change the
    alpha, the styles, the line width, cap and join and the filter only
    between a [save] and its [restore], the one-point return included,
    and every [save] is restored before they return. *)
Theorem render_restores_settings (sf : Renderer.Surface) (dc : DrawingCanvas.t)
    (live : DrawingCanvasLive.t) (stroke : Stroke num) (progress : num) (d : nat) :
  scoped (Renderer.render sf dc) d = Some d /\
  scoped (RendererSmoothing.render sf dc) d = Some d /\
  scoped (RendererLive.render sf live) d = Some d /\
  scoped (Renderer.renderClosingAnimation sf stroke progress) d = Some d /\
  scoped (RendererLive.renderClosingAnimation sf stroke progress) d = Some d.
Proof.
  repeat split.
  - unfold Renderer.render. cbn [Renderer.clear app scoped isSetting].
    rewrite scoped_app, (strokes_scoped _ _ _ renderStroke_scoped).
    destruct (DrawingCanvas.currentStroke dc); [|reflexivity].
    destruct (Nat.leb _ _); [apply renderStroke_scoped|reflexivity].
  - unfold RendererSmoothing.render. cbn [Renderer.clear app scoped isSetting].
    rewrite scoped_app, (strokes_scoped _ _ _ smoothing_renderStroke_scoped).
    destruct (DrawingCanvas.currentStroke dc); [|reflexivity].
    destruct (Nat.ltb _ _); [apply smoothing_renderStroke_scoped|reflexivity].
  - unfold RendererLive.render. cbn [Renderer.clear app scoped isSetting].
    rewrite scoped_app, (strokes_scoped _ _ _ live_renderStroke_scoped).
    destruct (DrawingCanvas.currentStroke _); [|reflexivity].
    destruct (Nat.leb _ _); [apply live_extension_scoped|reflexivity].
  - unfold Renderer.renderClosingAnimation. destruct (Nat.ltb _ _); [reflexivity|].
    cbn [Renderer.clear app scoped isSetting].
    apply pulse_scoped, drawStrokePath_drawing.
  - unfold RendererLive.renderClosingAnimation. destruct (Nat.ltb _ _); [reflexivity|].
    cbn [Renderer.clear app scoped isSetting].
    apply pulse_scoped, live_drawStrokePath_drawing.
Qed.

(** X21.  The first touch shows.  In [drawingCanvas.ts] the frame after
    [startStroke] draws the completed strokes and then a filled dot at
    the point, in the stroke's colour and half its width as radius.  In
    the revision that smooths each point the same frame draws the
    completed strokes only: a stroke is not seen before its second point
    is stored. *)
Theorem started_stroke_shows_as_dot (sf : Renderer.Surface) (dc : DrawingCanvas.t)
    (p : Point2D num) (c : string) :
  Renderer.render sf (DrawingCanvas.startStroke cfg p c dc)
  = Renderer.render sf (DrawingCanvas.discardStroke dc) ++
    [Save; SetGlobalAlpha (lit 1); SetFillStyle c; SetStrokeStyle c;
     SetLineWidth cfg.(STROKE).(WIDTH); SetLineCap "round"; SetLineJoin "round";
     BeginPath;
     Arc p.(x) p.(y) (cfg.(STROKE).(WIDTH) / lit 2) (lit 0) (Math_PI * lit 2);
     FillPath; Restore] /\
  RendererSmoothing.render sf (DrawingCanvas.startStroke cfg p c dc)
  = RendererSmoothing.render sf (DrawingCanvas.discardStroke dc).
Proof.
  unfold Renderer.render, RendererSmoothing.render. cbn.
  rewrite !app_nil_r. split; reflexivity.
Qed.

End RenderFacts.

(** ** The tracker *)

Section TrackerFacts.
Variable Client : Type.

Import HandTracker.
Local Open Scope R_scope.

Local Abbreviation tracker := (HandTracker.t (num := R) Client).

(** X24.  What the tracker delivers.  Before the first [start] a result
    changes nothing.  With a callback registered, a result without a hand
    is delivered as null; a result with hands is delivered as the first
    hand, landmark by landmark: the count is kept, landmark [i] goes to
    [((1 - x) * width, y * height)], and over the real numbers a
    landmark inside the unit square lands on the canvas, mirrored: the
    further right it is in the image, the further left on the canvas.
    [stop] does not unregister the callback. *)
Theorem tracker_delivers_canvas_points (tr : tracker)
    (results : Results (num := R))
    (cb : HandResultsCallback Client) (c : Client) :
  tr.(callback) = Some cb ->
  0 <= tr.(canvasWidth) -> 0 <= tr.(canvasHeight) ->
  onResults results (create Client) c = c /\
  onResults results (stop tr) c = onResults results tr c /\
  match results.(multiHandLandmarks) with
  | Some (hand :: _) =>
      exists hl,
        onResults results tr c = cb (Some hl) c /\
        List.length hl.(landmarks) = List.length hand /\
        (forall i lm, List.nth_error hand i = Some lm ->
           List.nth_error hl.(landmarks) i
           = Some {| x := (1 - lm.(nx)) * tr.(canvasWidth);
                     y := lm.(ny) * tr.(canvasHeight) |}) /\
        (forall i lm p, List.nth_error hand i = Some lm ->
           List.nth_error hl.(landmarks) i = Some p ->
           0 <= lm.(nx) <= 1 -> 0 <= lm.(ny) <= 1 ->
           0 <= p.(x) <= tr.(canvasWidth) /\ 0 <= p.(y) <= tr.(canvasHeight)) /\
        (forall i j lm lm' p p',
           List.nth_error hand i = Some lm -> List.nth_error hand j = Some lm' ->
           List.nth_error hl.(landmarks) i = Some p ->
           List.nth_error hl.(landmarks) j = Some p' ->
           lm.(nx) <= lm'.(nx) -> p'.(x) <= p.(x))
  | _ => onResults results tr c = cb None c
  end.
Proof.
  intros Hcb Hw Hh. split; [reflexivity|]. split.
  { unfold onResults, stop, converted. cbn. rewrite Hcb. reflexivity. }
  unfold onResults. rewrite Hcb. unfold converted.
  destruct (multiHandLandmarks results) as [[|hand hands]|]; try reflexivity.
  eexists. split; [reflexivity|]. cbn [landmarks].
  assert (Hnth : forall i lm, List.nth_error hand i = Some lm ->
            List.nth_error (List.map (convert tr) hand) i
            = Some {| x := (1 - lm.(nx)) * tr.(canvasWidth);
                      y := lm.(ny) * tr.(canvasHeight) |}).
  { intros i lm Hi. rewrite nth_error_map, Hi. reflexivity. }
  split; [apply length_map|]. split; [exact Hnth|]. split.
  - intros i lm p Hi Hp Hx Hy. rewrite (Hnth i lm Hi) in Hp.
    injection Hp as <-. cbn [x y]. nra.
  - intros i j lm lm' p p' Hi Hj Hp Hp' Hle.
    rewrite (Hnth i lm Hi) in Hp. rewrite (Hnth j lm' Hj) in Hp'.
    injection Hp as <-. injection Hp' as <-. cbn [x]. nra.
Qed.

End TrackerFacts.

Section TrackerRunsFacts.
Import HandTracker TrackerRuns.
Local Open Scope R_scope.

(** X24 on one hand: the first delivery is the hand on the canvas. *)
Lemma one_hand_is_delivered :
  exists hl,
    onResults oneHand logging [] = [Some hl] /\
    List.length hl.(landmarks) = 2%nat /\
    (forall p, List.nth_error hl.(landmarks) 0 = Some p ->
               0 <= p.(x) <= 800 /\ 0 <= p.(y) <= 600).
Proof.
  destruct (@tracker_delivers_canvas_points Deliveries logging oneHand keep [])
    as [_ [_ [hl [H1 [H2 [_ [H4 _]]]]]]].
  - reflexivity.
  - simpl. lra.
  - simpl. lra.
  - exists hl. split; [exact H1|]. split; [exact H2|].
    intros p Hp.
    apply (H4 0%nat {| nx := 1 / 4; ny := 1 / 2; nz := 0 |} p eq_refl Hp);
      simpl; lra.
Defined.

End TrackerRunsFacts.

(** ** Gestures and pointer in the revision with the swatches *)

Section InputFacts.
Context {num OM Obj GD SC : Type} {N : Number num}.
Context {OMI : ObjectManager.ObjectManager num OM Obj}.
Context {OSI : ObjectSelection.ObjectSelection OM Obj}.
Context {GDI : GestureDetector.GestureDetector num GD}.
Context {SCI : Scene3D.Camera num SC}.
Variable cfg : Constants num.

Import AirCanvasInput.
Local Open Scope num_scope.

Local Abbreviation state :=
  (AirCanvasInput.t (num := num) (OM := OM) (Obj := Obj) (GD := GD) (SC := SC)).

(** Closes the goals left once a callback is unfolded on an explicit
    state. *)
Ltac input_inv :=
  unfold inputInv in *; cbn in *;
  repeat match goal with
         | H : _ /\ _ |- _ => destruct H
         end;
  split; [split; intros; try congruence; tauto | intros; try congruence; tauto].

Lemma onHandResults_inputInv (landmarks : option (HandLandmarks num)) (now : num)
    (st : state) :
  inputInv st -> inputInv (onHandResults cfg landmarks now st).
Proof.
  intros H. destruct st as [c gd sc lgs cl phs fhs hd go lpp dr lx ly so clr mv].
  destruct c.
  unfold onHandResults, handleGesture, handleDraw, handlePinch, handlePalm,
    handleFist, handleSwipe, releaseGrabbed, clearAll, showStatus, hideStatus,
    set_objectManager, objectManager.
  cbn. branch; input_inv.
Qed.

Lemma step_inputInv (e : Event) (st : state) :
  inputInv st -> inputInv (step cfg e st).
Proof.
  intros H. destruct e; cbn [step]; try (apply onHandResults_inputInv; exact H);
    destruct st as [c gd sc lgs cl phs fhs hd go lpp dr lx ly so clr mv];
    destruct c;
    unfold onTouchStart, onTouchMove, onMouseDown, onMouseMove, onMouseUp,
      onWheel, onSceneClick, drag, clearAllSettled, hideStatus,
      set_objectManager, objectManager;
    cbn; branch; input_inv.
Qed.

Lemma run_inputInv (events : list Event) :
  forall st : state, inputInv st -> inputInv (run cfg events st).
Proof.
  induction events as [|e events IH]; intros st H; [exact H|].
  cbn [run fold_left]. apply IH. apply step_inputInv. exact H.
Qed.

(** X25.  In the revision with the swatches the pinch position is held
    exactly while an object is grabbed, and an object is selected only
    during a drag, whatever gestures and pointer events came before.  So
    the guard on the pinch position never fails: every pinch frame with
    an object grabbed moves the object to the pinch centre and turns it
    by 0.02 times the step of the pinch centre. *)
Theorem pinch_position_held_while_grabbed (gd : GD) (sc : SC) (om : OM)
    (events : list Event) :
  let st := run cfg events (create gd sc om : state) in
  (st.(grabbedObject) = None <-> st.(lastPinchPosition) = None) /\
  (st.(selectedObject) <> None -> st.(isDragging) = true) /\
  forall (o : Obj) (lm : HandLandmarks num) (now : num),
    st.(grabbedObject) = Some o ->
    current (fst (GestureDetector.detect st.(gestureDetector) lm)) = pinch ->
    exists lastPinch,
      st.(lastPinchPosition) = Some lastPinch /\
      let centre := GestureDetector.getPinchCenter
                      (snd (GestureDetector.detect st.(gestureDetector) lm)) lm in
      let st' := onHandResults cfg (Some lm) now st in
      st'.(moves)
      = RotateObject o ((centre.(x) - lastPinch.(x)) * (lit 2 / lit 100))
                       ((centre.(y) - lastPinch.(y)) * (lit 2 / lit 100))
        :: MoveGrabbed o centre.(x) centre.(y) :: st.(moves) /\
      st'.(lastPinchPosition) = Some centre /\
      st'.(grabbedObject) = Some o.
Proof.
  cbv zeta.
  assert (Hinv : inputInv (run cfg events (create gd sc om : state))).
  { apply run_inputInv. unfold inputInv, create. cbn. split; [tauto|congruence]. }
  revert Hinv. generalize (run cfg events (create gd sc om : state)).
  intros st [Hg Hs]. split; [exact Hg|]. split; [exact Hs|].
  intros o lm now Ho Hk.
  destruct (lastPinchPosition st) as [lastPinch|] eqn:Hl.
  2:{ exfalso. destruct Hg as [_ Hg]. rewrite Hg in Ho by reflexivity. discriminate. }
  exists lastPinch. split; [reflexivity|].
  destruct st as [c gd0 sc0 lgs cl phs fhs hd go lpp dr lx ly so clr mv].
  destruct c as [dc om0 stx stv isd col lft clo cre hid].
  cbn in *. subst go lpp. unfold onHandResults.
  destruct hd, isd; cbn;
    destruct (GestureDetector.detect gd0 lm) as [gs gd'] eqn:Hdet;
    destruct gs as [cur prev dur vel conf]; cbn in Hk; subst cur;
    unfold handleGesture; cbn; branch; repeat split; reflexivity.
Qed.

Lemma drag_turns_object (positions : list (num * num)) :
  forall (st : state) (o : Obj),
    st.(isDragging) = true -> st.(selectedObject) = Some o ->
    let st' := run cfg (List.map (fun p => MouseMove (fst p) (snd p)) positions) st in
    st'.(moves)
    = List.rev (List.map (fun d => RotateObject o (fst d) (snd d))
                  (turns (lit 1 / lit 100) st.(lastMouseX) st.(lastMouseY) positions))
      ++ st.(moves) /\
    st'.(scene3D) = st.(scene3D) /\
    st'.(core).(AirCanvasSwatches.drawingCanvas)
    = st.(core).(AirCanvasSwatches.drawingCanvas).
Proof.
  induction positions as [|[x1 y1] rest IH]; intros st o Hd Hs.
  - cbn. auto.
  - cbn [List.map run fold_left step fst snd turns].
    change (fold_left (fun s e => step cfg e s) ?l ?s) with (run cfg l s).
    destruct st as [c gd sc lgs cl phs fhs hd go lpp dr lx ly so clr mv].
    destruct c. cbn in Hd, Hs. subst dr so.
    unfold onMouseMove, drag. cbn.
    match goal with
    | |- context [run cfg _ ?s] => destruct (IH s o eq_refl eq_refl) as [H1 [H2 H3]]
    end.
    cbv zeta in H1, H2, H3. cbn in H1, H2, H3.
    rewrite H1, H2, H3. cbn. rewrite <- app_assoc. auto.
Qed.

Lemma drag_orbits_camera (positions : list (num * num)) :
  forall st : state,
    st.(isDragging) = true -> st.(selectedObject) = None ->
    let st' := run cfg (List.map (fun p => MouseMove (fst p) (snd p)) positions) st in
    st'.(moves)
    = List.rev (List.map (fun d => OrbitCamera (fst d) (snd d))
                  (turns (lit 5 / lit 1000) st.(lastMouseX) st.(lastMouseY) positions))
      ++ st.(moves) /\
    objectManager st' = objectManager st /\
    st'.(core).(AirCanvasSwatches.drawingCanvas)
    = st.(core).(AirCanvasSwatches.drawingCanvas).
Proof.
  induction positions as [|[x1 y1] rest IH]; intros st Hd Hs.
  - cbn. auto.
  - cbn [List.map run fold_left step fst snd turns].
    change (fold_left (fun s e => step cfg e s) ?l ?s) with (run cfg l s).
    destruct st as [c gd sc lgs cl phs fhs hd go lpp dr lx ly so clr mv].
    destruct c. cbn in Hd, Hs. subst dr so.
    unfold onMouseMove, drag. cbn.
    match goal with
    | |- context [run cfg _ ?s] => destruct (IH s eq_refl eq_refl) as [H1 [H2 H3]]
    end.
    cbv zeta in H1, H2, H3. cbn in H1, H2, H3.
    rewrite H1, H2, H3. cbn. rewrite <- app_assoc. auto.
Qed.

(** X26.  A drag turns one thing.  After a press with nothing selected,
    the moves that follow turn the object under the press, by 0.01 times
    each step of the pointer, and leave the camera alone; when the press
    is over no object they orbit the camera, by 0.005 times each step,
    and leave the objects alone.  Neither touches the drawing. *)
Theorem drag_turns_object_or_camera (st : state) (x0 y0 : num)
    (positions : list (num * num)) :
  st.(selectedObject) = None ->
  let st' := run cfg (MouseDown x0 y0
                        :: List.map (fun p => MouseMove (fst p) (snd p)) positions)
               st in
  st'.(core).(AirCanvasSwatches.drawingCanvas)
  = st.(core).(AirCanvasSwatches.drawingCanvas) /\
  match ObjectManager.getObjectAtPosition (objectManager st) x0 y0 with
  | Some o =>
      st'.(moves)
      = List.rev (List.map (fun d => RotateObject o (fst d) (snd d))
                    (turns (lit 1 / lit 100) x0 y0 positions)) ++ st.(moves) /\
      st'.(scene3D) = st.(scene3D)
  | None =>
      st'.(moves)
      = List.rev (List.map (fun d => OrbitCamera (fst d) (snd d))
                    (turns (lit 5 / lit 1000) x0 y0 positions)) ++ st.(moves) /\
      objectManager st' = objectManager st
  end.
Proof.
  intros Hs. cbv zeta. cbn [run fold_left step].
  change (fold_left (fun s e => step cfg e s) ?l ?s) with (run cfg l s).
  destruct st as [c gd sc lgs cl phs fhs hd go lpp dr lx ly so clr mv].
  destruct c. cbn in Hs. subst so. unfold onMouseDown, objectManager. cbn.
  destruct (ObjectManager.getObjectAtPosition objectManager0 x0 y0) as [o|] eqn:Hhit.
  - match goal with
    | |- context [run cfg _ ?s] =>
        destruct (@drag_turns_object positions s o eq_refl eq_refl) as [H1 [H2 H3]]
    end.
    cbv zeta in H1, H2, H3. cbn in H1, H2, H3. rewrite H1, H2, H3. auto.
  - match goal with
    | |- context [run cfg _ ?s] =>
        destruct (@drag_orbits_camera positions s eq_refl eq_refl) as [H1 [H2 H3]]
    end.
    cbv zeta in H1, H2, H3. unfold objectManager in H2. cbn in H1, H2, H3.
    rewrite H1, H2, H3. auto.
Qed.

End InputFacts.

Section InputRunsFacts.
Import AirCanvasInput InputRuns.

(** X26 on the object around (100, 100): the press is on it, two moves
    follow, and the camera stays where it was. *)
Lemma press_on_object_turns_it :
  let positions := [(110, 100); (120, 105)]%float in
  let st' := run Demo.cfg
               (MouseDown 100%float 100%float
                  :: List.map (fun p => MouseMove (fst p) (snd p)) positions)
               atRest in
  st'.(moves)
  = List.rev (List.map (fun d => RotateObject 1%nat (fst d) (snd d))
                (turns (lit 1 / lit 100)%num 100%float 100%float positions))
    ++ atRest.(moves) /\
  st'.(scene3D) = atRest.(scene3D).
Proof.
  pose proof (@drag_turns_object_or_camera float (list (Demo.Box float)) nat
                (list GestureKind) (float * float * float)%type _ _ _ _ _ Demo.cfg
                atRest 100%float 100%float [(110, 100); (120, 105)]%float eq_refl)
    as [_ H].
  assert (Hhit : ObjectManager.getObjectAtPosition (objectManager atRest)
                   100%float 100%float = Some 1%nat) by (vm_compute; reflexivity).
  rewrite Hhit in H. exact H.
Defined.

End InputRunsFacts.

(** ** The fist hold *)

Section FistFacts.
Context {num OM Obj GD : Type} {N : Number num}.
Context {OMI : ObjectManager.ObjectManager num OM Obj}.
Context {GDI : GestureDetector.GestureDetector num GD}.
Variable cfg : Constants num.

Import AirCanvas.
Local Open Scope num_scope.

Local Abbreviation state := (AirCanvas.t (num := num) (OM := OM) (Obj := Obj) (GD := GD)).

(** X19.  A fist hold that has lasted clears, and releases nothing.  On
    a fist frame after a fist frame, with the fist timer set and the hold
    time reached, the interpreter calls [clearAll] once: the store loses
    its strokes, the object manager is cleared, the message is shown and
    the timer is unset.  The grabbed object is not released and stays
    grabbed, the drawing flag stays as it was, and closing animations and
    pending creations are not cancelled. *)
Theorem fist_hold_clears_and_keeps_grab (st : state) (lm : HandLandmarks num)
    (now : num) (g : GestureState num) :
  st.(lastGestureState) = Some g ->
  g.(current) = fist ->
  current (fst (GestureDetector.detect st.(gestureDetector) lm)) = fist ->
  (st.(fistHoldStart) =? lit 0) = false ->
  (now - st.(fistHoldStart) >=? cfg.(GESTURE).(FIST_HOLD_TIME)) = true ->
  let st' := onHandResults cfg (Some lm) now st in
  st'.(calls) = CallClearAll :: st.(calls) /\
  st'.(drawingCanvas).(DrawingCanvas.currentStroke) = None /\
  st'.(drawingCanvas).(DrawingCanvas.completedStrokes) = [] /\
  st'.(objectManager) = ObjectManager.clearAll st.(objectManager) /\
  st'.(statusText) = MsgClearingAll /\ st'.(statusVisible) = true /\
  st'.(clearing) = S st.(clearing) /\
  st'.(fistHoldStart) = lit 0 /\
  st'.(grabbedObject) = st.(grabbedObject) /\
  st'.(isDrawing) = st.(isDrawing) /\
  st'.(closing) = st.(closing) /\
  st'.(creating) = st.(creating).
Proof.
  intros Hl Hg Hk Ht Hd. destruct st. unfold onHandResults. cbn in *. subst.
  destruct handDetected0; cbn;
    destruct (GestureDetector.detect gestureDetector0 lm) as [gs gd'] eqn:Hdet;
    cbn in *;
    unfold handleGesture, handleFist, clearAll, showStatus, hideStatus;
    rewrite Hk; cbn; rewrite ?Ht; cbn; rewrite ?Hd; cbn;
    branch; rewrite ?Hg; cbn; repeat split; reflexivity.
Qed.

End FistFacts.

Section FistRunsFacts.
Import AirCanvas InterpreterRuns.
Local Open Scope float_scope.

(** X19 on the run of the pinch: the object is grabbed, then the fist is
    held from 1100 ms and clears at 2100 ms. *)
Lemma fist_clears_grabbed_object :
  let st' := onHandResults Demo.cfg (Some (Demo.handAt (Demo.pt 300 300))) 2100
               HoldRuns.fistHeld in
  st'.(objectManager) = ObjectManager.clearAll HoldRuns.fistHeld.(objectManager) /\
  st'.(grabbedObject) = Some 1%nat.
Proof.
  destruct (@fist_hold_clears_and_keeps_grab float (list (Demo.Box float)) nat
              (list GestureKind) _ _ _ Demo.cfg HoldRuns.fistHeld
              (Demo.handAt (Demo.pt 300 300)) 2100 (Demo.gesture fist))
    as [_ [_ [_ [H4 [_ [_ [_ [_ [H9 _]]]]]]]]].
  - vm_compute. reflexivity.
  - reflexivity.
  - vm_compute. reflexivity.
  - vm_compute. reflexivity.
  - vm_compute. reflexivity.
  - split; [exact H4|]. rewrite H9. vm_compute. reflexivity.
Defined.

End FistRunsFacts.

(** ** The order of IEEE doubles under [Math.min] *)

(** Settles a goal on three spec floats by cases on their shape and on
    the order of exponents and mantissas. *)
Ltac sf_order x y z :=
  let sx := fresh "sx" in let sy := fresh "sy" in let sz := fresh "sz" in
  let mx := fresh "mx" in let my := fresh "my" in let mz := fresh "mz" in
  let ex := fresh "ex" in let ey := fresh "ey" in let ez := fresh "ez" in
  destruct x as [sx|sx| |sx mx ex], y as [sy|sy| |sy my ey],
           z as [sz|sz| |sz mz ez]; simpl; try discriminate;
    try (destruct sx; simpl; congruence);
    try (destruct sy; simpl; congruence);
    try (destruct sz; simpl; congruence);
    try (destruct sx, sy; simpl; congruence);
    try (destruct sx, sz; simpl; congruence);
    try (destruct sy, sz; simpl; congruence);
    try (destruct sx, sy, sz; simpl; congruence);
    destruct sx, sy, sz; simpl; try congruence;
    destruct (Z.compare_spec ex ey), (Z.compare_spec ey ez),
      (Z.compare_spec ex ez); simpl; try congruence; try lia;
    subst; change (Pos.compare_cont Eq ?a ?b) with (Pos.compare a b);
    destruct (Pos.compare_spec mx my), (Pos.compare_spec my mz),
      (Pos.compare_spec mx mz); simpl; try congruence; try lia.

Lemma SFcompare_le_lt_trans (x y z : spec_float) :
  SFleb x y = true -> SFltb y z = true -> SFltb x z = true.
Proof. unfold SFleb, SFltb. sf_order x y z. Qed.

Lemma SFcompare_lt_le_trans (x y z : spec_float) :
  SFltb x y = true -> SFleb y z = true -> SFltb x z = true.
Proof. unfold SFleb, SFltb. sf_order x y z. Qed.

Lemma float_le_lt_trans (a b c : float) :
  PrimFloat.leb a b = true -> PrimFloat.ltb b c = true -> PrimFloat.ltb a c = true.
Proof. rewrite leb_spec, !ltb_spec. apply SFcompare_le_lt_trans. Qed.

Lemma float_lt_le_trans (a b c : float) :
  PrimFloat.ltb a b = true -> PrimFloat.leb b c = true -> PrimFloat.ltb a c = true.
Proof. rewrite leb_spec, !ltb_spec. apply SFcompare_lt_le_trans. Qed.

Lemma float_ltb_leb (a b : float) :
  PrimFloat.ltb a b = true -> PrimFloat.leb a b = true.
Proof.
  rewrite leb_spec, ltb_spec. unfold SFleb, SFltb.
  destruct (SFcompare (Prim2SF a) (Prim2SF b)) as [[]|]; congruence.
Qed.

Lemma float_ltb_irrefl (a : float) : PrimFloat.ltb a a = false.
Proof.
  destruct (PrimFloat.ltb a a) eqn:E; [|reflexivity].
  pose proof (@float_leb_not_ltb a a (@float_ltb_leb a a E)). congruence.
Qed.

(** Two doubles that are ordered are numbers, and two numbers are
    ordered one way or the other. *)
Lemma float_leb_numbers (a b : float) :
  PrimFloat.leb a b = true ->
  PrimFloat.is_nan a = false /\ PrimFloat.is_nan b = false.
Proof.
  unfold PrimFloat.is_nan. rewrite leb_spec, !eqb_spec. unfold SFleb, SFeqb.
  destruct (Prim2SF a) as [sa|sa| |sa ma ea], (Prim2SF b) as [sb|sb| |sb mb eb];
    simpl; try discriminate; intros _;
    try destruct sa; try destruct sb; simpl;
    rewrite ?Z.compare_refl, ?Pos.compare_cont_refl; auto.
Qed.

Lemma float_not_ltb_leb (a b : float) :
  PrimFloat.is_nan a = false -> PrimFloat.is_nan b = false ->
  PrimFloat.ltb b a = false -> PrimFloat.leb a b = true.
Proof.
  unfold PrimFloat.is_nan. rewrite leb_spec, ltb_spec, !eqb_spec.
  unfold SFleb, SFltb, SFeqb.
  rewrite (SFcompare_antisym (Prim2SF a) (Prim2SF b)).
  destruct (Prim2SF a) as [sa|sa| |sa ma ea], (Prim2SF b) as [sb|sb| |sb mb eb];
    simpl; try discriminate; try reflexivity;
    try (destruct sa; simpl; congruence);
    try (destruct sb; simpl; congruence);
    try (destruct sa, sb; simpl; congruence).
  intros _ _. destruct sa, sb; simpl; try congruence;
    destruct (ea ?= eb)%Z; simpl; try congruence;
    destruct (Pos.compare_cont Eq ma mb); simpl; congruence.
Qed.

Lemma float_min_not_above (a b : float) : PrimFloat.ltb b (float_min a b) = false.
Proof.
  unfold float_min.
  destruct (PrimFloat.is_nan a || PrimFloat.is_nan b)%bool.
  - rewrite ltb_spec. unfold SFltb.
    replace (Prim2SF nan) with S754_nan by (vm_compute; reflexivity).
    destruct (Prim2SF b); reflexivity.
  - destruct (PrimFloat.ltb a b) eqn:Hlt; [apply float_ltb_asym; exact Hlt|].
    destruct (PrimFloat.ltb b a) eqn:Hgt; [apply float_ltb_irrefl|].
    destruct (classify b); try exact Hgt; apply float_ltb_irrefl.
Qed.

Lemma float_min_one (q : float) :
  PrimFloat.is_nan q = false ->
  float_min q 1 = if PrimFloat.ltb q 1 then q
                  else if PrimFloat.ltb 1 q then 1%float else q.
Proof.
  intros Hq. unfold float_min. rewrite Hq.
  change (PrimFloat.is_nan 1) with false. cbn [orb].
  change (classify 1) with PNormal. reflexivity.
Qed.

Lemma float_min_one_mono (a b : float) :
  PrimFloat.leb a b = true ->
  PrimFloat.leb (float_min a 1) (float_min b 1) = true.
Proof.
  intros Hle. destruct (@float_leb_numbers a b Hle) as [Ha Hb].
  rewrite (@float_min_one a Ha), (@float_min_one b Hb).
  assert (H1 : PrimFloat.is_nan 1 = false) by reflexivity.
  destruct (PrimFloat.ltb a 1) eqn:A1.
  - destruct (PrimFloat.ltb b 1) eqn:B1; [exact Hle|].
    destruct (PrimFloat.ltb 1 b) eqn:B2; [apply float_ltb_leb; exact A1|exact Hle].
  - destruct (PrimFloat.ltb b 1) eqn:B1.
    { pose proof (@float_le_lt_trans a b 1 Hle B1). congruence. }
    destruct (PrimFloat.ltb 1 a) eqn:A2.
    + destruct (PrimFloat.ltb 1 b) eqn:B2; [reflexivity|].
      pose proof (@float_lt_le_trans 1 a b A2 Hle). congruence.
    + destruct (PrimFloat.ltb 1 b) eqn:B2; [|exact Hle].
      apply float_not_ltb_leb; assumption.
Qed.

#[export] Instance float_ProgressOrder : ProgressOrder float.
Proof.
  split.
  - exact float_min_not_above.
  - intros a b. exact (@float_min_one_mono a b).
Qed.

#[export] Instance R_ProgressOrder : ProgressOrder R.
Proof.
  split; simpl; unfold Rltb, Rleb.
  - intros a b. destruct (Rlt_dec b (Rmin a b)) as [H|]; [|reflexivity].
    pose proof (Rmin_r a b). lra.
  - intros a b. destruct (Rle_dec a b); [|discriminate]. intros _.
    destruct (Rle_dec (Rmin a 1) (Rmin b 1)) as [|H]; [reflexivity|].
    exfalso. apply H. apply Rle_min_compat_r. assumption.
Qed.

(** ** The closing animation *)

Section ClosingAnimation.
Context {num OM Obj GD : Type} {N : Number num} {PO : ProgressOrder num}.
Context {OMI : ObjectManager.ObjectManager num OM Obj}.
Context {GDI : GestureDetector.GestureDetector num GD}.
Variable cfg : Constants num.

Import AirCanvas.
Local Open Scope num_scope.

Local Abbreviation state := (AirCanvas.t (num := num) (OM := OM) (Obj := Obj) (GD := GD)).

(** The length of the animation in milliseconds. *)
Local Abbreviation pulse := (cfg.(TIMING).(STROKE_CLOSE_PULSE) * lit 1000).







End ClosingAnimation.

Section ClosingRunsFacts.
Import AirCanvas InterpreterRuns HoldRuns.
Local Open Scope float_scope.


Example rectangle_pulse_values :
  List.map (closingProgress Demo.cfg 1700) [1700; 1900; 2100; 2200]
  = [0; 0x1.999999999999ap-2; 0x1.999999999999ap-1; 1].
Proof. vm_compute. reflexivity. Qed.

End ClosingRunsFacts.

Section HandLossRunsFacts.
Import AirCanvas InterpreterRuns HoldRuns.
Local Open Scope float_scope.


End HandLossRunsFacts.

(** ** The revision that smooths each point: what is tested and what is
    stored *)

Section SmoothingFacts.
Context {num : Type} {N : Number num}.
Variable cfg : Constants num.

Import DrawingCanvas.
Local Open Scope num_scope.

Lemma spaced_last (pts : list (Point2D num)) (last point : Point2D num) :
  List.last (List.map Some pts) None = Some last ->
  spaced cfg (pts ++ [point]) ->
  (distance point last >=? cfg.(STROKE).(MIN_POINT_DISTANCE)) = true.
Proof.
  induction pts as [|p [|q rest] IH]; intros Hlast Hsp.
  - discriminate.
  - simpl in Hlast. injection Hlast as <-. simpl in Hsp. tauto.
  - change ((p :: q :: rest) ++ [point]) with (p :: (q :: rest) ++ [point]) in Hsp.
    destruct Hsp as [_ Hsp]. apply IH; assumption.
Qed.

(** X5.  The revision that smooths against the last stored point tests
    the raw point and stores the smoothed one.  When the raw point is at
    least the minimum point distance from the last point, the stroke
    gains the point [last + (point - last) * (1 - SMOOTHING)], and it
    keeps the minimum spacing exactly when that stored point, not the
    raw one, is at least the minimum point distance from the last
    point. *)
Theorem smoothing_tests_raw_stores_smoothed (dc : t) (s : Stroke num)
    (last point : Point2D num) :
  dc.(currentStroke) = Some s ->
  lastPoint s = Some last ->
  spaced cfg s.(points) ->
  (distance point last >=? cfg.(STROKE).(MIN_POINT_DISTANCE)) = true ->
  let stored :=
    {| x := last.(x) + (point.(x) - last.(x)) * (lit 1 - cfg.(STROKE).(SMOOTHING));
       y := last.(y) + (point.(y) - last.(y)) * (lit 1 - cfg.(STROKE).(SMOOTHING)) |} in
  let dc' := DrawingCanvasSmoothing.addPoint cfg point dc in
  dc'.(currentStroke)
  = Some {| points := s.(points) ++ [stored]; color := s.(color);
            width := s.(width); closed := s.(closed) |} /\
  dc'.(completedStrokes) = dc.(completedStrokes) /\
  (spaced cfg (s.(points) ++ [stored])
   <-> (distance stored last >=? cfg.(STROKE).(MIN_POINT_DISTANCE)) = true).
Proof.
  intros Hc Hl Hsp Hd. cbv zeta. unfold DrawingCanvasSmoothing.addPoint.
  rewrite Hc, Hl. cbv zeta. rewrite Hd. cbn. split; [reflexivity|].
  split; [reflexivity|]. split.
  - intros H. eapply spaced_last; [exact Hl|exact H].
  - intros H. eapply spaced_push; [exact Hl|exact H|exact Hsp].
Qed.

End SmoothingFacts.

Section SmoothingRunsFacts.
Import DrawingCanvas StoreRuns.
Local Open Scope float_scope.

(** X5 on the dot, with weight one half and a minimum point distance of
    2: a point 3 away is accepted and stored 1.5 away, and the stroke no
    longer keeps the minimum spacing. *)
Lemma smoothing_stores_point_too_close :
  option_map (@points float)
    (DrawingCanvasSmoothing.addPoint Demo.cfg (Demo.pt 3 0) dot).(currentStroke)
  = Some [Demo.pt 0 0; Demo.pt 1.5 0] /\
  ~ spaced Demo.cfg [Demo.pt 0 0; Demo.pt 1.5 0].
Proof.
  destruct (@smoothing_tests_raw_stores_smoothed float _ Demo.cfg dot
              {| points := [Demo.pt 0 0]; color := "#FFB3BA";
                 width := 4; closed := false |}
              (Demo.pt 0 0) (Demo.pt 3 0)) as [H1 [_ H3]].
  - reflexivity.
  - reflexivity.
  - exact I.
  - vm_compute. reflexivity.
  - split.
    + rewrite H1. vm_compute. reflexivity.
    + intros Hsp. apply H3 in Hsp. vm_compute in Hsp. discriminate.
Defined.

End SmoothingRunsFacts.

(** ** The spline of the revision with the live position *)

Section SplineFacts.
Context {num : Type} {N : Number num} {G : Negation num}.

Import Canvas2D.



End SplineFacts.

(** ** The quotient and the clock

    The progress follows the quotient [(now - start) / (pulse * 1000)].
    In exact arithmetic the quotient does not decrease when the clock
    goes on; on IEEE doubles the same is the monotonicity of rounded
    subtraction and division, which the axioms of the Standard Library
    on [PrimFloat] do not give.  It is checked here for each whole
    millisecond of two seconds of the sample pulse. *)

Lemma quotient_follows_clock_real (cfg : Constants R) (t0 t1 t2 : R) :
  (0 < cfg.(TIMING).(STROKE_CLOSE_PULSE))%R ->
  (t1 <= t2)%R ->
  ((t1 - t0) / (cfg.(TIMING).(STROKE_CLOSE_PULSE) * lit 1000)
   <=? (t2 - t0) / (cfg.(TIMING).(STROKE_CLOSE_PULSE) * lit 1000))%num = true.
Proof.
  intros Hp Hle. simpl. unfold Rleb.
  destruct (Rle_dec _ _) as [|H]; [reflexivity|]. exfalso. apply H.
  unfold Rdiv. apply Rmult_le_compat_r; [|lra].
  left. apply Rinv_0_lt_compat. lra.
Qed.

Example progress_rises_each_millisecond_binary64 :
  List.forallb
    (fun k : nat =>
       PrimFloat.leb
         (AirCanvas.closingProgress Demo.cfg 1700%float
            (PrimFloat.add 1700%float (float_lit (Z.of_nat k))))
         (AirCanvas.closingProgress Demo.cfg 1700%float
            (PrimFloat.add 1700%float (float_lit (Z.of_nat (S k))))))
    (List.seq 0 2000) = true.
Proof. vm_compute. reflexivity. Qed.
